(** * The tax estimator and the budget allocator of [app.py]

    [app.py] is a Streamlit application; its two computational helpers,
    [calculate_tax] and [get_budget_summary], work on Python [float]s, that
    is on IEEE-754 binary64 numbers rounded to nearest, ties to even.  The
    embedding below keeps that arithmetic: a Python float is a [spec_float]
    of the Standard Library, the operators [*], [+], [-] and [/] are
    [SFmul], [SFadd], [SFsub] and [SFdiv] at precision 53 and maximal
    exponent 1024, and every definition computes.

    A Python float is always in canonical form, which [spec_float] does
    not enforce: the theorems about an arbitrary income [m] take
    [valid m = true] as the hypothesis that [m] is a float at all, and
    [fle (of_Z 0) m = true], the test [0 <= m], for a non-negative one
    (it excludes NaN and admits [-0.0] and [+inf]).  The arithmetic of
    the specification is read in the same binary64 arithmetic.

    The file has four parts: the embedding of the source, the integer
    reading of binary64 rounding used by the proofs, the theorems on the
    two helpers, and the properties of the tables, the pages and the runs
    of the script. *)

From Stdlib Require Import ZArith Lia Bool List String.
From Stdlib Require Import Floats.SpecFloat.
Import ListNotations.
Local Open Scope Z_scope.

(** ** Python floats *)

Module Binary64.

Definition prec : Z := 53.
Definition emax : Z := 1024.

Definition float : Type := spec_float.

Definition fmul : float -> float -> float := SFmul prec emax.
Definition fadd : float -> float -> float := SFadd prec emax.
Definition fsub : float -> float -> float := SFsub prec emax.
Definition fdiv : float -> float -> float := SFdiv prec emax.

(** [x <= y] and [x < y]; both are [False] as soon as one side is NaN. *)
Definition fle : float -> float -> bool := SFleb.
Definition flt : float -> float -> bool := SFltb.

(** [float(z)] for a Python [int]: every integer constant of the source
    is below [2^53], where the conversion is exact. *)
Definition of_Z (z : Z) : float := binary_normalize prec emax z 0 false.

(** A decimal literal [n/d] such as [0.05 = 5/100]: numerator and
    denominator are exact and the quotient is rounded once, which is the
    correctly rounded value the Python parser produces. *)
Definition literal (n d : Z) : float := fdiv (of_Z n) (of_Z d).

Definition is_zero (x : float) : bool :=
  match x with S754_zero _ => true | _ => false end.

(** [x] is a normal float within half a unit in the last place of the
    fraction [n/d]: the test that a literal denotes the double the Python
    parser picks. *)
Definition nearest (x : float) (n d : Z) : bool :=
  match x with
  | S754_finite false m e =>
      (2 * Z.abs (Zpos m * d - n * 2 ^ (- e)) <=? d)
      && (Zdigits2 (Zpos m) =? prec) && (e <? 0)
  | _ => false
  end.

(** [min(x, y)] of Python: [y] when [y < x], else [x]. *)
Definition fmin (x y : float) : float := if flt y x then y else x.

(** [sum(values)]: left to right from [0]. *)
Definition fsum (l : list float) : float := fold_left fadd l (of_Z 0).

Definition valid (x : float) : bool := valid_binary prec emax x.

(** The floats a non-negative amount can be: a zero of either sign, a
    positive finite number or [+inf], in canonical form. *)
Definition nonneg (x : float) : bool :=
  match x with
  | S754_zero _ => true
  | S754_infinity s => negb s
  | S754_nan => false
  | S754_finite s m e => negb s && bounded prec emax m e
  end.

(** *** Binary64 read over the integers

    Every finite binary64 number is an integer multiple of [2^-1074], the
    smallest subnormal.  [key x] is that integer for a non-negative [x],
    and [INF = 2^2098], just above the largest finite key, for [+inf]:
    the order of non-negative floats is the order of their keys, and an
    operation rounds the exact integer result to the nearest key. *)

Definition INF : Z := 2 ^ 2098.

Definition key (x : float) : Z :=
  match x with
  | S754_zero _ => 0
  | S754_infinity _ => INF
  | S754_nan => 0
  | S754_finite _ m e => Zpos m * 2 ^ (e + 1074)
  end.

(** [m / 2^n] rounded to the nearest integer, ties to even. *)
Definition rne (m n : Z) : Z :=
  let q := m / 2 ^ n in
  match 2 * (m mod 2 ^ n) ?= 2 ^ n with
  | Lt => q
  | Eq => if Z.even q then q else q + 1
  | Gt => q + 1
  end.

(** The key nearest to [M / 2^k]: 53 significant bits are kept, never
    less than one unit, and anything from [INF] on is [+inf]. *)
Definition rndk (M k : Z) : Z :=
  let s := Z.max (Zdigits2 M - 53) k in
  Z.min INF (rne M s * 2 ^ (s - k)).

Definition addk (a b : Z) : Z :=
  if (a =? INF) || (b =? INF) then INF else rndk (a + b) 0.

Definition subk (a b : Z) : Z :=
  if a =? INF then INF else rndk (a - b) 0.

Definition mulk (a b : Z) : Z :=
  if a =? INF then INF else rndk (a * b) 1074.

Definition finite_pos (x : float) : bool :=
  match x with
  | S754_finite false m e => bounded prec emax m e
  | _ => false
  end.

Definition not_inf (x : float) : bool :=
  match x with S754_infinity _ => false | _ => true end.

(** [x <= y] between two non-negative floats. *)
Definition le_nn (x y : float) : Prop :=
  nonneg x = true /\ nonneg y = true /\ key x <= key y.

(** The state of [shr] after [k] one-bit shifts of [m]: quotient, round
    bit and sticky bit. *)
Definition shifted (m k : Z) : shr_record :=
  Build_shr_record (m / 2 ^ k) (Z.odd (m / 2 ^ (k - 1)))
                   (negb (m mod 2 ^ (k - 1) =? 0)).

(** The second half of [binary_round_aux]: renormalise the rounded
    mantissa and test for overflow. *)
Definition finish (q E : Z) : float :=
  let '(mrs, e) := shr_fexp prec emax q E loc_Exact in
  match shr_m mrs with
  | Z0 => S754_zero false
  | Zpos m => if e <=? emax - prec then S754_finite false m e
              else S754_infinity false
  | Zneg _ => S754_nan
  end.

End Binary64.

(** ** Exceptions *)

Module Py.

Inductive exception : Type :=
| ZeroDivisionError
| StreamlitAPIException.

Inductive outcome (A : Type) : Type :=
| Return (a : A)
| Raise (e : exception).
Arguments Return {A} a.
Arguments Raise {A} e.

Definition bind {A B : Type} (c : outcome A) (k : A -> outcome B) : outcome B :=
  match c with
  | Return a => k a
  | Raise e => Raise e
  end.

(** [x / y] on floats raises on a zero divisor and is IEEE division
    otherwise (an overflow gives [inf], never an exception). *)
Definition truediv (x y : Binary64.float) : outcome Binary64.float :=
  if Binary64.is_zero y then Raise ZeroDivisionError
  else Return (Binary64.fdiv x y).

End Py.

Notation "x <- c ;; k" := (Py.bind c (fun x => k))
  (at level 61, c at next level, right associativity).

(** ** The helpers of [app.py] *)

Module App.
Import Binary64 Py.
Local Open Scope string_scope.

(** The dictionary returned by [calculate_tax]. *)
Record tax_info : Type := {
  annual_income : float;
  tax : float;
  cess : float;
  total_tax : float;
  monthly_tax : float;
  effective_rate : float
}.

(** [calculate_tax(income, user_type)], lines 269-298.  The integer [0]
    that the source binds to [tax] and to [effective_rate] is the float
    [+0.0], to which Python converts it in the next operation. *)
Definition calculate_tax (income : float) (user_type : string)
  : outcome tax_info :=
  let annual_income := fmul income (of_Z 12) in
  let tax :=
    if fle annual_income (of_Z 300000) then
      of_Z 0
    else if fle annual_income (of_Z 600000) then
      fmul (fsub annual_income (of_Z 300000)) (literal 5 100)
    else if fle annual_income (of_Z 900000) then
      fadd (of_Z 15000) (fmul (fsub annual_income (of_Z 600000)) (literal 10 100))
    else if fle annual_income (of_Z 1200000) then
      fadd (of_Z 45000) (fmul (fsub annual_income (of_Z 900000)) (literal 15 100))
    else if fle annual_income (of_Z 1500000) then
      fadd (of_Z 90000) (fmul (fsub annual_income (of_Z 1200000)) (literal 20 100))
    else
      fadd (of_Z 150000) (fmul (fsub annual_income (of_Z 1500000)) (literal 30 100)) in
  let cess := fmul tax (literal 4 100) in
  let total_tax := fadd tax cess in
  monthly <- truediv total_tax (of_Z 12) ;;
  rate <- (if flt (of_Z 0) annual_income then
             q <- truediv total_tax annual_income ;;
             Return (fmul q (of_Z 100))
           else Return (of_Z 0)) ;;
  Return {| annual_income := annual_income;
            tax := tax;
            cess := cess;
            total_tax := total_tax;
            monthly_tax := monthly;
            effective_rate := rate |}.

(** A Python [dict] with string keys, in insertion order. *)
Definition budget : Type := list (string * float).

(** [get_budget_summary(user_type, income)], lines 230-247. *)
Definition get_budget_summary (user_type : string) (income : float) : budget :=
  let budget :=
    if String.eqb user_type "Student" then
      [ ("Essentials", literal 50 100);
        ("Education", literal 30 100);
        ("Savings", literal 20 100) ]
    else
      [ ("Essentials", literal 40 100);
        ("Savings", literal 20 100);
        ("Investments", literal 20 100);
        ("Discretionary", literal 20 100) ] in
  if flt (of_Z 0) income then
    map (fun kv => (fst kv, fmul (snd kv) income)) budget
  else budget.

(** What one run of [tax_calculator_page] (lines 608-659) reads, shows
    and writes: the profile row fetched from the users table, the four
    number inputs, the button, the answer of the remote service ([None]
    when the request fails) and Streamlit's session state. *)
Record users_row : Type := {
  user_type : string;
  monthly_income : float;
  savings_goal : float
}.

Record session_state : Type := {
  tax_calculation : option tax_info;
  tax_tips : option string
}.

Record tax_form : Type := {
  form_monthly_income : float;
  pf : float;
  elss : float;
  lic : float;
  calculate_clicked : bool
}.

Record page_run : Type := {
  shown_total_80c : float;
  shown_tax_calculation : option tax_info;
  session_after : session_state
}.

Definition get_user_profile (username : string)
    (users : list (string * users_row)) : users_row :=
  match find (fun r => String.eqb (fst r) username) users with
  | Some r => snd r
  | None => {| user_type := "Student";
               monthly_income := of_Z 0;
               savings_goal := of_Z 0 |}
  end.

(** [st.number_input(..., min_value=0.0, value=v, step=...)] with the
    default [v] that [get_user_profile] read.  [row[i] or 0] is the int [0]
    for a stored zero, for NULL and for a missing row, and the stored float
    otherwise; Streamlit refuses an int [value] beside a float [min_value]
    and [step] (its StreamlitMixedNumericTypesError, a
    StreamlitAPIException), and the run ends there.  In [users_row] the
    amount is zero exactly when Python holds the int. *)
Definition number_input_default (value : float) : outcome unit :=
  if is_zero value then Raise StreamlitAPIException else Return tt.

(** The page: the income input of line 617 first, then the 80C total of
    line 627, the button, and in the second column the record the session
    holds, which a run that ends in [st.rerun()] does not reach. *)
Definition tax_calculator_page (username : string)
    (users : list (string * users_row)) (form : tax_form)
    (backend : option string) (session : session_state)
  : outcome page_run :=
  let profile := get_user_profile username users in
  _ <- number_input_default (monthly_income profile) ;;
  let total_80c :=
    fmin (fadd (fadd (pf form) (elss form)) (lic form)) (of_Z 150000) in
  if calculate_clicked form && flt (of_Z 0) (form_monthly_income form) then
    info <- calculate_tax (form_monthly_income form) (user_type profile) ;;
    let tips :=
      match backend with
      | Some t => t
      | None => "Unable to fetch tax saving tips"
      end in
    Return {| shown_total_80c := total_80c;
              shown_tax_calculation := None;
              session_after :=
                {| tax_calculation := Some info; tax_tips := Some tips |} |}
  else
    Return {| shown_total_80c := total_80c;
              shown_tax_calculation := tax_calculation session;
              session_after := session |}.

End App.

(** ** The bracket chain on its own

    The pieces of [calculate_tax] that the proofs handle separately;
    [calculate_tax_returns] below shows that they are what the function
    computes. *)

Module Brackets.
Import Binary64 App.

(** The [if]/[elif] chain of lines 274-285 as a function of the annual
    income: the value [calculate_tax] binds to [tax]. *)
Definition new_regime_tax (annual_income : float) : float :=
  if fle annual_income (of_Z 300000) then
    of_Z 0
  else if fle annual_income (of_Z 600000) then
    fmul (fsub annual_income (of_Z 300000)) (literal 5 100)
  else if fle annual_income (of_Z 900000) then
    fadd (of_Z 15000) (fmul (fsub annual_income (of_Z 600000)) (literal 10 100))
  else if fle annual_income (of_Z 1200000) then
    fadd (of_Z 45000) (fmul (fsub annual_income (of_Z 900000)) (literal 15 100))
  else if fle annual_income (of_Z 1500000) then
    fadd (of_Z 90000) (fmul (fsub annual_income (of_Z 1200000)) (literal 20 100))
  else
    fadd (of_Z 150000) (fmul (fsub annual_income (of_Z 1500000)) (literal 30 100)).

(** The float just above the first boundary, and the tax due there: the
    least non-zero value [new_regime_tax] takes. *)
Definition above_300000 : float := S754_finite false 5153960755200001 (-34).

Definition least_tax : float :=
  fmul (fsub above_300000 (of_Z 300000)) (literal 5 100).

(** [tax + tax * 0.04], lines 288-289. *)
Definition with_cess (tax : float) : float :=
  fadd tax (fmul tax (literal 4 100)).

End Brackets.

(** ** The specification's own words *)

Module Spec.
Import Binary64 App.
Local Open Scope string_scope.

(** The bracket table of section 4.2: each tier with its bounds, the upper
    one inclusive. *)
Inductive marginal_schedule (a : float) : float -> Prop :=
| tier_1 :
    fle a (of_Z 300000) = true ->
    marginal_schedule a (of_Z 0)
| tier_2 :
    flt (of_Z 300000) a = true -> fle a (of_Z 600000) = true ->
    marginal_schedule a (fmul (fsub a (of_Z 300000)) (literal 5 100))
| tier_3 :
    flt (of_Z 600000) a = true -> fle a (of_Z 900000) = true ->
    marginal_schedule a
      (fadd (of_Z 15000) (fmul (fsub a (of_Z 600000)) (literal 10 100)))
| tier_4 :
    flt (of_Z 900000) a = true -> fle a (of_Z 1200000) = true ->
    marginal_schedule a
      (fadd (of_Z 45000) (fmul (fsub a (of_Z 900000)) (literal 15 100)))
| tier_5 :
    flt (of_Z 1200000) a = true -> fle a (of_Z 1500000) = true ->
    marginal_schedule a
      (fadd (of_Z 90000) (fmul (fsub a (of_Z 1200000)) (literal 20 100)))
| tier_6 :
    flt (of_Z 1500000) a = true ->
    marginal_schedule a
      (fadd (of_Z 150000) (fmul (fsub a (of_Z 1500000)) (literal 30 100))).

(** The two splits of section 4.1. *)
Definition student_split : budget :=
  [ ("Essentials", literal 50 100);
    ("Education", literal 30 100);
    ("Savings", literal 20 100) ].

Definition professional_split : budget :=
  [ ("Essentials", literal 40 100);
    ("Savings", literal 20 100);
    ("Investments", literal 20 100);
    ("Discretionary", literal 20 100) ].

Definition split_of (category : string) : budget :=
  if String.eqb category "Student" then student_split else professional_split.

(** Every share multiplied by the income. *)
Definition amounts (income : float) (shares : budget) : budget :=
  map (fun kv => (fst kv, fmul (snd kv) income)) shares.

End Spec.

(** ** The SQLite tables

    [users.db] holds four tables.  A table is the list of its rows in
    insertion order; the autoincrement [id] of the last three, which no
    query reads, is the position in the list.  [CURRENT_TIMESTAMP] and
    [CURRENT_DATE] come from the clock and are arguments.  A Python [str]
    is read as its sequence of code points, all below 256, and
    [hashlib.sha256(...).hexdigest()] is a parameter. *)

Module Store.
Import Binary64.
Local Open Scope string_scope.

(** A REAL column holds a float or NULL.  SQLite stores NaN as NULL, and
    a REAL without fractional part as an integer, so that a zero of either
    sign is read back as [0.0]. *)
Definition real : Type := option float.

Definition to_real (x : float) : real :=
  match x with
  | S754_nan => None
  | S754_zero _ => Some (S754_zero false)
  | _ => Some x
  end.

(** [value or 0] on a REAL read back by [sqlite3]: NULL and both zeros
    give [0]. *)
Definition or_0 (r : real) : float :=
  match r with
  | None => of_Z 0
  | Some x => if is_zero x then of_Z 0 else x
  end.

(** The columns of [users] after the primary key [username]. *)
Record users_record : Type := {
  row_password_hash : string;
  row_created_at : string;
  row_user_type : string;
  row_monthly_income : real;
  row_savings_goal : real
}.

Definition users : Type := list (string * users_record).

Definition has_username (username : string) (r : string * users_record) : bool :=
  String.eqb (fst r) username.

Section Accounts.

Variable hash_password : string -> string.

(** [register_user], lines 114-127: the INSERT fails with
    [IntegrityError] when the primary key is taken. *)
Definition register_user (username password user_type : string)
    (now : string) (t : users) : bool * users :=
  if existsb (has_username username) t then (false, t)
  else
    (true,
     List.app t [ (username,
             {| row_password_hash := hash_password password;
                row_created_at := now;
                row_user_type := user_type;
                row_monthly_income := Some (of_Z 0);
                row_savings_goal := Some (of_Z 0) |}) ]).

(** [validate_user], lines 129-135, as the truth value of what it
    returns. *)
Definition validate_user (username password : string) (t : users) : bool :=
  match find (has_username username) t with
  | Some r => String.eqb (row_password_hash (snd r)) (hash_password password)
  | None => false
  end.

End Accounts.

(** [get_user_profile], lines 137-152. *)
Definition get_user_profile (username : string) (t : users) : App.users_row :=
  match find (has_username username) t with
  | Some r =>
      {| App.user_type := row_user_type (snd r);
         App.monthly_income := or_0 (row_monthly_income (snd r));
         App.savings_goal := or_0 (row_savings_goal (snd r)) |}
  | None =>
      {| App.user_type := "Student";
         App.monthly_income := of_Z 0;
         App.savings_goal := of_Z 0 |}
  end.

(** [update_user_profile], lines 154-162: what the UPDATE does to one
    row, and to the table. *)
Definition updated_row (username user_type : string) (income savings_goal : float)
    (r : string * users_record) : string * users_record :=
  if has_username username r then
    (fst r,
     {| row_password_hash := row_password_hash (snd r);
        row_created_at := row_created_at (snd r);
        row_user_type := user_type;
        row_monthly_income := to_real income;
        row_savings_goal := to_real savings_goal |})
  else r.

Definition update_user_profile (username user_type : string)
    (income savings_goal : float) (t : users) : users :=
  map (updated_row username user_type income savings_goal) t.

(** The view of [users] that [App.get_user_profile] reads. *)
Definition profiles (t : users) : list (string * App.users_row) :=
  map (fun r =>
         (fst r,
          {| App.user_type := row_user_type (snd r);
             App.monthly_income := or_0 (row_monthly_income (snd r));
             App.savings_goal := or_0 (row_savings_goal (snd r)) |})) t.

(** [chat_history]. *)
Record chat_row : Type := {
  chat_username : string;
  user_message : string;
  bot_response : string;
  timestamp : string
}.

(** [save_chat_history], lines 164-172. *)
Definition save_chat_history (username user_msg bot_response : string)
    (now : string) (t : list chat_row) : list chat_row :=
  List.app t [ {| chat_username := username;
            user_message := user_msg;
            bot_response := bot_response;
            timestamp := now |} ].

(** [expenses]. *)
Record expense_row : Type := {
  expense_username : string;
  category : string;
  amount : real;
  description : string;
  date : string
}.

(** [add_expense], lines 185-193. *)
Definition add_expense (username category : string) (amount : float)
    (description : string) (today : string) (t : list expense_row)
  : list expense_row :=
  List.app t [ {| expense_username := username;
            category := category;
            amount := to_real amount;
            description := description;
            date := today |} ].

(** [get_expenses], lines 195-200: the rows the query returns, which the
    data frame holds. *)
Definition get_expenses (username : string) (t : list expense_row)
  : list (string * real * string * string) :=
  map (fun r => (category r, amount r, description r, date r))
      (filter (fun r => String.eqb (expense_username r) username) t).

(** [investments]. *)
Record investment_row : Type := {
  investment_username : string;
  investment_type : string;
  invested : real;
  returns : real;
  date_invested : string
}.

(** [add_investment], lines 202-210. *)
Definition add_investment (username inv_type : string) (amount returns : float)
    (today : string) (t : list investment_row) : list investment_row :=
  List.app t [ {| investment_username := username;
            investment_type := inv_type;
            invested := to_real amount;
            returns := to_real returns;
            date_invested := today |} ].

(** [get_investments], lines 212-217. *)
Definition get_investments (username : string) (t : list investment_row)
  : list (string * real * real * string) :=
  map (fun r => (investment_type r, invested r, returns r, date_invested r))
      (filter (fun r => String.eqb (investment_username r) username) t).

Record database : Type := {
  users_table : users;
  chat_history : list chat_row;
  expenses : list expense_row;
  investments : list investment_row
}.

End Store.

(** ** The pages

    One run of the Streamlit script: the values the widgets return are
    arguments, [st.session_state] and the tables are passed through, and
    [st.rerun()] ends the run.  A button is pressed in at most one run, the
    one its click starts.  A number input that refuses its default value
    ends the run where it stands.  What a page only displays (metrics,
    charts, data frames) is left out; an exception there ends the run after
    everything the run writes. *)

Module Pages.
Import Binary64 Py App Store.
Local Open Scope string_scope.

(** [st.session_state], lines 220-227, with the two keys the tax page
    adds. *)
Record session : Type := {
  logged_in : bool;
  username : string;
  chat_messages : list (string * string);
  current_page : string;
  tax_session : session_state
}.

Definition initial_session : session :=
  {| logged_in := false;
     username := "";
     chat_messages := [];
     current_page := "chatbot";
     tax_session := {| tax_calculation := None; tax_tips := None |} |}.

(** [str.isspace] on a code point below 256, and [str.strip()]. *)
Definition isspace (c : Ascii.ascii) : bool :=
  let n := Ascii.N_of_ascii c in
  (((9 <=? n) && (n <=? 13)) || ((28 <=? n) && (n <=? 32))
   || (n =? 133) || (n =? 160))%N.

Fixpoint lstrip (s : list Ascii.ascii) : list Ascii.ascii :=
  match s with
  | [] => []
  | c :: s' => if isspace c then lstrip s' else s
  end.

Definition strip (s : string) : string :=
  string_of_list_ascii
    (rev (lstrip (rev (lstrip (list_ascii_of_string s))))).

(** What the visitor did on the login page: at most one button is pressed
    in a run. *)
Inductive login_input : Type :=
| NoButton
| LoginButton (username password : string)
| RegisterButton (new_username new_password user_type : string).

Inductive login_message : Type :=
| NoMessage
| WelcomeBack
| InvalidLogin
| EmptyFields
| ShortPassword
| RegistrationSuccessful
| UsernameExists.

Section Login.

Variable hash_password : string -> string.

(** [login_page], lines 348-383. *)
Definition login_page (input : login_input) (now : string)
    (t : users) (s : session) : users * session * login_message :=
  match input with
  | NoButton => (t, s, NoMessage)
  | LoginButton username password =>
      if validate_user hash_password username password t then
        (t,
         {| logged_in := true;
            username := username;
            chat_messages := chat_messages s;
            current_page := current_page s;
            tax_session := tax_session s |},
         WelcomeBack)
      else (t, s, InvalidLogin)
  | RegisterButton new_username new_password user_type =>
      if String.eqb (strip new_username) "" || String.eqb (strip new_password) ""
      then (t, s, EmptyFields)
      else if (String.length new_password <? 6)%nat then (t, s, ShortPassword)
      else
        let (ok, t') :=
          register_user hash_password new_username new_password user_type now t in
        if ok then (t', s, RegistrationSuccessful)
        else (t', s, UsernameExists)
  end.

End Login.

Inductive sidebar_button : Type :=
| ChatbotButton
| ProfileButton
| ExpenseTrackerButton
| InvestmentsButton
| TaxCalculatorButton
| HistoryButton
| LogoutButton.

Definition go_to (page : string) (s : session) : session :=
  {| logged_in := logged_in s;
     username := username s;
     chat_messages := chat_messages s;
     current_page := page;
     tax_session := tax_session s |}.

(** [sidebar_menu], lines 385-421: the session, and whether [st.rerun()]
    was called. *)
Definition sidebar_menu (click : option sidebar_button) (s : session)
  : session * bool :=
  match click with
  | None => (s, false)
  | Some ChatbotButton => (go_to "chatbot" s, true)
  | Some ProfileButton => (go_to "profile" s, true)
  | Some ExpenseTrackerButton => (go_to "expenses" s, true)
  | Some InvestmentsButton => (go_to "investments" s, true)
  | Some TaxCalculatorButton => (go_to "tax" s, true)
  | Some HistoryButton => (go_to "history" s, true)
  | Some LogoutButton =>
      ({| logged_in := false;
          username := "";
          chat_messages := [];
          current_page := current_page s;
          tax_session := tax_session s |}, true)
  end.

Inductive page : Type :=
| chatbot_page_
| profile_page_
| expense_tracker_page_
| investment_page_
| tax_calculator_page_
| history_page_.

(** [main_app], lines 681-698: the page function it calls, if the sidebar
    did not end the run. *)
Definition main_app (click : option sidebar_button) (s : session)
  : session * option page :=
  let (s', rerun) := sidebar_menu click s in
  if rerun then (s', None)
  else
    (s',
     Some
       (if String.eqb (current_page s') "chatbot" then chatbot_page_
        else if String.eqb (current_page s') "profile" then profile_page_
        else if String.eqb (current_page s') "expenses" then expense_tracker_page_
        else if String.eqb (current_page s') "investments" then investment_page_
        else if String.eqb (current_page s') "tax" then tax_calculator_page_
        else if String.eqb (current_page s') "history" then history_page_
        else chatbot_page_)).

(** [chatbot_page], lines 423-478: [user_input] is what [st.chat_input]
    returned, [backend] the text [call_backend] returned, [None] when it
    raised. *)
Definition chatbot_page (user_input : option string) (backend : option string)
    (now : string) (db : database) (s : session) : database * session :=
  match user_input with
  | None | Some EmptyString => (db, s)
  | Some text =>
      let said :=
        {| logged_in := logged_in s;
           username := username s;
           chat_messages := List.app (chat_messages s) [("user", text)];
           current_page := current_page s;
           tax_session := tax_session s |} in
      match backend with
      | None => (db, said)
      | Some response =>
          ({| users_table := users_table db;
              chat_history :=
                save_chat_history (username s) text response now (chat_history db);
              expenses := expenses db;
              investments := investments db |},
           {| logged_in := logged_in s;
              username := username s;
              chat_messages := List.app (chat_messages said) [("assistant", response)];
              current_page := current_page s;
              tax_session := tax_session s |})
      end
  end.

(** The options of the select boxes. *)
Definition register_types : list string := ["Student"; "Professional"].

Definition profile_types : list string := ["Student"; "Professional"; "Retired"].

Definition expense_categories : list string :=
  ["Food"; "Transport"; "Entertainment"; "Utilities";
   "Healthcare"; "Education"; "Shopping"; "Other"].

Definition investment_types : list string :=
  ["Stocks"; "Mutual Funds"; "FD"; "PPF"; "NPS"; "Gold"; "Real Estate";
   "Crypto"; "Other"].

(** [list.index]: [None] is [ValueError]. *)
Fixpoint index (x : string) (l : list string) : option nat :=
  match l with
  | [] => None
  | y :: l' =>
      if String.eqb y x then Some O
      else match index x l' with
           | Some i => Some (S i)
           | None => None
           end
  end.

Record profile_form : Type := {
  chosen_user_type : string;
  entered_income : float;
  entered_savings_goal : float;
  update_clicked : bool
}.

(** [profile_page], lines 480-516: the users table, and the budget shown
    in the second column when the run gets there.  The [ValueError] of
    [.index] (line 490) and the exception of either [st.number_input]
    (lines 491 and 492) end the run before anything is written or shown. *)
Definition profile_page (form : profile_form) (t : users) (s : session)
  : users * option budget :=
  let profile := Store.get_user_profile (username s) t in
  match index (user_type profile) profile_types with
  | None => (t, None)
  | Some _ =>
      match (_ <- number_input_default (monthly_income profile) ;;
             number_input_default (savings_goal profile)) with
      | Raise _ => (t, None)
      | Return _ =>
          if update_clicked form then
            (update_user_profile (username s) (chosen_user_type form)
               (entered_income form) (entered_savings_goal form) t,
             None)
          else
            (t,
             if flt (of_Z 0) (entered_income form) then
               Some (get_budget_summary (chosen_user_type form) (entered_income form))
             else None)
      end
  end.

Record expense_form : Type := {
  expense_category : string;
  expense_amount : float;
  expense_description : string;
  add_expense_clicked : bool
}.

(** [expense_tracker_page], lines 518-536: the form in the first column. *)
Definition expense_tracker_page (form : expense_form) (today : string)
    (t : list expense_row) (s : session) : list expense_row :=
  if add_expense_clicked form then
    if flt (of_Z 0) (expense_amount form) then
      add_expense (username s) (expense_category form) (expense_amount form)
        (expense_description form) today t
    else t
  else t.

Record investment_form : Type := {
  chosen_investment_type : string;
  amount_invested : float;
  current_returns : float;
  add_investment_clicked : bool
}.

(** [investment_page], lines 558-576: the form in the first column. *)
Definition investment_page (form : investment_form) (today : string)
    (t : list investment_row) (s : session) : list investment_row :=
  if add_investment_clicked form then
    if flt (of_Z 0) (amount_invested form) then
      add_investment (username s) (chosen_investment_type form)
        (amount_invested form) (current_returns form) today t
    else t
  else t.

(** [tax_calculator_page] run on the session and the users table; an
    exception ends the run with the session as it was. *)
Definition tax_page_run (form : tax_form) (backend : option string)
    (t : users) (s : session) : outcome session :=
  r <- tax_calculator_page (username s) (profiles t) form backend (tax_session s) ;;
  Return {| logged_in := logged_in s;
            username := username s;
            chat_messages := chat_messages s;
            current_page := current_page s;
            tax_session := session_after r |}.

(** Every value the widgets of one run return, with the two readings of
    the clock. *)
Record widgets : Type := {
  sidebar_click : option sidebar_button;
  login_inputs : login_input;
  chat_text : option string;
  backend_reply : option string;
  profile_inputs : profile_form;
  expense_inputs : expense_form;
  investment_inputs : investment_form;
  tax_inputs : tax_form;
  now : string;
  today : string
}.

Definition with_users (t : users) (db : database) : database :=
  {| users_table := t;
     chat_history := chat_history db;
     expenses := expenses db;
     investments := investments db |}.

Definition with_expenses (t : list expense_row) (db : database) : database :=
  {| users_table := users_table db;
     chat_history := chat_history db;
     expenses := t;
     investments := investments db |}.

Definition with_investments (t : list investment_row) (db : database) : database :=
  {| users_table := users_table db;
     chat_history := chat_history db;
     expenses := expenses db;
     investments := t |}.

Section Script.

Variable hash_password : string -> string.

(** One run of the script, lines 701-706: [main_app] for a logged-in
    session, the login page otherwise.  An exception ends the run and
    leaves what was written before it. *)
Definition script (w : widgets) (st : database * session) : database * session :=
  let (db, s) := st in
  if logged_in s then
    let (s1, called) := main_app (sidebar_click w) s in
    match called with
    | None => (db, s1)
    | Some chatbot_page_ =>
        chatbot_page (chat_text w) (backend_reply w) (now w) db s1
    | Some profile_page_ =>
        (with_users (fst (profile_page (profile_inputs w) (users_table db) s1)) db, s1)
    | Some expense_tracker_page_ =>
        (with_expenses
           (expense_tracker_page (expense_inputs w) (today w) (expenses db) s1) db, s1)
    | Some investment_page_ =>
        (with_investments
           (investment_page (investment_inputs w) (today w) (investments db) s1) db, s1)
    | Some tax_calculator_page_ =>
        match tax_page_run (tax_inputs w) (backend_reply w) (users_table db) s1 with
        | Return s2 => (db, s2)
        | Raise _ => (db, s1)
        end
    | Some history_page_ => (db, s1)
    end
  else
    let '(t, s1, _) :=
      login_page hash_password (login_inputs w) (now w) (users_table db) s in
    (with_users t db, s1).

End Script.

Definition empty_database : database :=
  {| users_table := []; chat_history := []; expenses := []; investments := [] |}.

(** The server: one [users.db] and one session state for each browser
    session.  Every function above opens its own connection and commits
    what it writes, and a run writes at most once, with values that come
    from its widgets; so the runs are taken one after the other, each with
    the number of its session. *)
Definition sessions : Type := nat -> session.

Section Server.

Variable hash_password : string -> string.

Definition run (r : nat * widgets) (st : database * sessions)
  : database * sessions :=
  let st' := script hash_password (snd r) (fst st, snd st (fst r)) in
  (fst st', fun i => if Nat.eqb i (fst r) then snd st' else snd st i).

Definition visits (rs : list (nat * widgets)) (st : database * sessions)
  : database * sessions :=
  fold_left (fun st r => run r st) rs st.

End Server.

Definition fresh : database * sessions :=
  (empty_database, fun _ => initial_session).

(** What the select boxes of a run can return. *)
Definition offers (options : list string) (x : string) : bool :=
  existsb (String.eqb x) options.

Definition offered (w : widgets) : bool :=
  match login_inputs w with
  | RegisterButton _ _ user_type => offers register_types user_type
  | _ => true
  end
  && offers profile_types (chosen_user_type (profile_inputs w))
  && offers expense_categories (expense_category (expense_inputs w))
  && offers investment_types (chosen_investment_type (investment_inputs w)).

Definition page_names : list string :=
  ["chatbot"; "profile"; "expenses"; "investments"; "tax"; "history"].

(** An amount column that holds a number above zero. *)
Definition above_zero (r : real) : bool :=
  match r with
  | Some x => flt (of_Z 0) x
  | None => false
  end.

Definition registered (db : database) : list string :=
  map fst (users_table db).

(** The keys of the tables, and the amounts. *)
Definition keyed (db : database) : Prop :=
  NoDup (registered db) /\
  Forall (fun r => In (chat_username r) (registered db)) (chat_history db) /\
  Forall (fun r => In (expense_username r) (registered db) /\
                   above_zero (amount r) = true) (expenses db) /\
  Forall (fun r => In (investment_username r) (registered db) /\
                   above_zero (invested r) = true) (investments db).

Definition signed_in (db : database) (s : session) : Prop :=
  (logged_in s = true -> In (username s) (registered db)) /\
  In (current_page s) page_names.

(** The columns that a select box fills. *)
Definition typed (db : database) : Prop :=
  Forall (fun r => In (row_user_type (snd r)) profile_types) (users_table db) /\
  Forall (fun r => In (category r) expense_categories) (expenses db) /\
  Forall (fun r => In (investment_type r) investment_types) (investments db).

(** A row of [users] as [register_user] writes it: income and goal at
    their default. *)
Definition no_amounts (r : string * users_record) : Prop :=
  row_monthly_income (snd r) = Some (of_Z 0) /\
  row_savings_goal (snd r) = Some (of_Z 0).

(** The pairs of a question and its answer in a chat transcript. *)
Fixpoint answered (asked : option string) (messages : list (string * string))
  : list (string * string) :=
  match messages with
  | [] => []
  | (role, text) :: rest =>
      if String.eqb role "assistant" then
        match asked with
        | Some question => (question, text) :: answered None rest
        | None => answered None rest
        end
      else answered (Some text) rest
  end.

Definition starts_with_user (messages : list (string * string)) : Prop :=
  match messages with
  | [] => True
  | (role, _) :: _ => role = "user"
  end.

(** Runs of the chat page, each with what was typed, what the backend
    answered and the time. *)
Definition chats (runs : list (option string * option string * string))
    (st : database * session) : database * session :=
  fold_left
    (fun st run =>
       chatbot_page (fst (fst run)) (snd (fst run)) (snd run) (fst st) (snd st))
    runs st.

(** What one such run is to add to the transcript and to [chat_history]:
    nothing without a text; the question, and with an answer of the
    backend the answer and one row. *)
Definition transcript_of_run (run : option string * option string * string)
  : list (string * string) :=
  match fst (fst run) with
  | None | Some EmptyString => []
  | Some text =>
      ("user", text) ::
      match snd (fst run) with
      | Some response => [("assistant", response)]
      | None => []
      end
  end.

Definition rows_of_run (username : string)
    (run : option string * option string * string) : list chat_row :=
  match fst (fst run), snd (fst run) with
  | Some (String c text), Some response =>
      [ {| chat_username := username;
           user_message := String c text;
           bot_response := response;
           timestamp := snd run |} ]
  | _, _ => []
  end.

End Pages.

(** ** Sample data

    A run in which only the login page is used, an account row as
    [register_user] writes it, and one with an income and a goal. *)

Module Samples.
Import Binary64 App Store Pages.
Local Open Scope string_scope.

Definition at_login (input : login_input) : widgets :=
  {| sidebar_click := None;
     login_inputs := input;
     chat_text := None;
     backend_reply := None;
     profile_inputs := {| chosen_user_type := "Student";
                   entered_income := of_Z 0;
                   entered_savings_goal := of_Z 0;
                   update_clicked := false |};
     expense_inputs := {| expense_category := "Food";
                   expense_amount := of_Z 0;
                   expense_description := "";
                   add_expense_clicked := false |};
     investment_inputs := {| chosen_investment_type := "Stocks";
                      amount_invested := of_Z 0;
                      current_returns := of_Z 0;
                      add_investment_clicked := false |};
     tax_inputs := {| form_monthly_income := of_Z 0;
               pf := of_Z 0;
               elss := of_Z 0;
               lic := of_Z 0;
               calculate_clicked := false |};
     now := "2025-01-01 09:00:00";
     today := "2025-01-01" |}.

Definition account (username password_hash user_type : string)
  : string * users_record :=
  (username,
   {| row_password_hash := password_hash;
      row_created_at := "2025-01-01 09:00:00";
      row_user_type := user_type;
      row_monthly_income := Some (of_Z 0);
      row_savings_goal := Some (of_Z 0) |}).

Definition earning (username password_hash user_type : string)
    (income savings_goal : float) : string * users_record :=
  (username,
   {| row_password_hash := password_hash;
      row_created_at := "2025-01-01 09:00:00";
      row_user_type := user_type;
      row_monthly_income := Some income;
      row_savings_goal := Some savings_goal |}).

End Samples.

(** The float after [25000.0]. *)
Definition above_25000 : Binary64.float :=
  SpecFloat.S754_finite false 6871947673600001 (-38).


(** * Binary64 rounding read over the integers

    The lemmas below connect the bit-level rounding of [SpecFloat] with
    [rndk]: on non-negative floats, [fadd], [fsub] and [fmul] compute the
    nearest key of the exact result, [fle] compares keys, and rounding to
    the nearest key is monotone. *)

Module Binary64Facts.
Import Binary64.

(** ** Number of binary digits *)

Lemma digits2_size p : digits2_pos p = Pos.size p.
Proof. induction p; simpl; congruence. Qed.

Lemma digits_log2 m : 0 < m -> Zdigits2 m = Z.log2 m + 1.
Proof.
  destruct m as [|p|p]; try lia. intros _.
  destruct p; simpl; rewrite ?digits2_size; lia.
Qed.

Lemma digits_bounds m : 0 < m -> 2 ^ (Zdigits2 m - 1) <= m < 2 ^ Zdigits2 m.
Proof.
  intros H. rewrite digits_log2 by easy.
  replace (Z.log2 m + 1 - 1) with (Z.log2 m) by lia.
  pose proof (Z.log2_spec m H). rewrite <- Z.add_1_r in H0. exact H0.
Qed.

Lemma digits_pos m : 0 < m -> 0 < Zdigits2 m.
Proof. intros H. rewrite digits_log2 by easy. pose proof (Z.log2_nonneg m). lia. Qed.

Lemma digits_unique m d : 0 < m -> 2 ^ (d - 1) <= m < 2 ^ d -> Zdigits2 m = d.
Proof.
  intros H [H1 H2]. rewrite digits_log2 by easy.
  assert (0 < d).
  { destruct (Z_lt_le_dec 0 d) as [|Hd]; auto.
    assert (d = 0) by (destruct (Z.eq_dec d 0); auto; rewrite Z.pow_neg_r in H2; lia).
    subst. simpl in H2. lia. }
  rewrite (Z.log2_unique m (d - 1)); try lia.
  replace (Z.succ (d - 1)) with d by lia. split; assumption.
Qed.

(** ** [shr]: shifting a mantissa right, one bit at a time *)

Lemma iter_pos_iter {A} (f : A -> A) p x : iter_pos f p x = Pos.iter f x p.
Proof.
  revert x. induction p; intros x; simpl.
  - rewrite !IHp. rewrite !Pos.iter_swap. reflexivity.
  - rewrite !IHp. reflexivity.
  - reflexivity.
Qed.

Lemma shr_1_nonneg m r s : 0 <= m ->
  shr_1 (Build_shr_record m r s) = Build_shr_record (m / 2) (Z.odd m) (r || s).
Proof.
  intros H. rewrite <- Z.div2_div.
  destruct m as [|[p|p|]|p]; try lia; reflexivity.
Qed.

Lemma pow2_pred k : 0 < k -> 2 ^ k = 2 ^ (k - 1) * 2.
Proof.
  intros H. replace k with (Z.succ (k - 1)) at 1 by lia.
  rewrite Z.pow_succ_r by lia. lia.
Qed.

Lemma mod_pow2_split m k : 0 < k ->
  m mod 2 ^ k = m mod 2 ^ (k - 1) + 2 ^ (k - 1) * ((m / 2 ^ (k - 1)) mod 2).
Proof.
  intros Hk. rewrite (pow2_pred k) by lia. apply Z.rem_mul_r; lia.
Qed.

Lemma shr_1_shifted m k : 0 <= m -> 0 < k -> shr_1 (shifted m k) = shifted m (k + 1).
Proof.
  intros Hm Hk. unfold shifted.
  rewrite shr_1_nonneg by (apply Z.div_pos; lia).
  replace (k + 1 - 1) with k by lia.
  f_equal.
  - rewrite Z.pow_add_r by lia. rewrite Z.div_div by lia. reflexivity.
  - rewrite (mod_pow2_split m k) by lia.
    set (b := m / 2 ^ (k - 1)). set (l := m mod 2 ^ (k - 1)).
    assert (0 <= l < 2 ^ (k-1)) by (apply Z.mod_pos_bound; lia).
    rewrite (Zodd_mod b).
    assert (0 <= b mod 2 < 2) by (apply Z.mod_pos_bound; lia).
    destruct (Z.eqb_spec (b mod 2) 1), (Z.eqb_spec l 0),
      (Z.eqb_spec (l + 2 ^ (k - 1) * (b mod 2)) 0);
      simpl; try reflexivity; try nia.
Qed.

Lemma iter_shr_1 m p : 0 <= m ->
  iter_pos shr_1 p (Build_shr_record m false false) = shifted m (Zpos p).
Proof.
  intros Hm. rewrite iter_pos_iter.
  induction p using Pos.peano_ind.
  - change (shr_1 (Build_shr_record m false false) = shifted m 1).
    rewrite shr_1_nonneg by easy. unfold shifted.
    change (2 ^ (1 - 1)) with 1. change (2 ^ 1) with 2.
    rewrite Z.div_1_r, Z.mod_1_r. reflexivity.
  - rewrite Pos.iter_succ, IHp. rewrite shr_1_shifted by lia. f_equal. lia.
Qed.

Lemma round_shifted m k : 0 <= m -> 0 < k ->
  round_nearest_even (shr_m (shifted m k)) (loc_of_shr_record (shifted m k)) = rne m k.
Proof.
  intros Hm Hk. unfold shifted, rne. cbn [shr_m].
  rewrite (mod_pow2_split m k) by lia.
  pose proof (pow2_pred k Hk) as E.
  set (b := m / 2 ^ (k - 1)). set (l := m mod 2 ^ (k - 1)).
  assert (0 <= l < 2 ^ (k-1)) by (apply Z.mod_pos_bound; lia).
  rewrite (Zodd_mod b).
  assert (0 <= b mod 2 < 2) by (apply Z.mod_pos_bound; lia).
  destruct (Z.compare_spec (2 * (l + 2 ^ (k - 1) * (b mod 2))) (2 ^ k));
  destruct (Z.eqb_spec (b mod 2) 1), (Z.eqb_spec l 0);
  cbn [loc_of_shr_record round_nearest_even negb]; try reflexivity; try nia.
Qed.

(** ** Rounding a quotient to nearest, ties to even *)

Lemma rne_0_r m : rne m 0 = m.
Proof.
  unfold rne. change (2 ^ 0) with 1. rewrite Z.mod_1_r, Z.div_1_r. reflexivity.
Qed.

Lemma rne_0_l n : 0 <= n -> rne 0 n = 0.
Proof.
  intros Hn. unfold rne. rewrite Z.mod_0_l, Z.div_0_l by lia.
  assert (0 < 2 ^ n) by (apply Z.pow_pos_nonneg; lia).
  destruct (Z.compare_spec (2 * 0) (2 ^ n)); try lia. 
Qed.

Lemma rne_bounds m n : 0 <= n -> m / 2 ^ n <= rne m n <= m / 2 ^ n + 1.
Proof.
  intros Hn. unfold rne.
  destruct (2 * (m mod 2 ^ n) ?= 2 ^ n); try destruct (Z.even _); lia.
Qed.

Lemma rne_lt_pow m n a : 0 <= n -> 0 <= a -> 0 <= m < 2 ^ (a + n) -> rne m n <= 2 ^ a.
Proof.
  intros Hn Ha [Hm Hlt].
  pose proof (rne_bounds m n Hn) as [_ Hu].
  assert (m / 2 ^ n < 2 ^ a); [|lia].
  apply Z.div_lt_upper_bound. { apply Z.pow_pos_nonneg; lia. }
  rewrite <- Z.pow_add_r by lia. rewrite Z.add_comm. exact Hlt.
Qed.

Lemma rne_ge_pow m n a : 0 <= n -> 0 <= a -> 2 ^ (a + n) <= m -> 2 ^ a <= rne m n.
Proof.
  intros Hn Ha Hle.
  pose proof (rne_bounds m n Hn) as [Hl _].
  assert (2 ^ a <= m / 2 ^ n); [|lia].
  apply Z.div_le_lower_bound. { apply Z.pow_pos_nonneg; lia. }
  rewrite <- Z.pow_add_r by lia. rewrite Z.add_comm. exact Hle.
Qed.

Lemma rne_mono m1 m2 n : 0 <= n -> m1 <= m2 -> rne m1 n <= rne m2 n.
Proof.
  intros Hn Hle.
  assert (Hp : 0 < 2 ^ n) by (apply Z.pow_pos_nonneg; lia).
  assert (Hq : m1 / 2 ^ n <= m2 / 2 ^ n) by (apply Z.div_le_mono; lia).
  destruct (Z.eq_dec (m1 / 2 ^ n) (m2 / 2 ^ n)) as [E|NE].
  - assert (Hr : m1 mod 2 ^ n <= m2 mod 2 ^ n).
    { rewrite (Z.mod_eq m1), (Z.mod_eq m2) by lia. rewrite E. lia. }
    unfold rne. rewrite E.
    destruct (Z.compare_spec (2 * (m1 mod 2 ^ n)) (2 ^ n));
    destruct (Z.compare_spec (2 * (m2 mod 2 ^ n)) (2 ^ n));
    try destruct (Z.even _); lia.
  - pose proof (rne_bounds m1 n Hn). pose proof (rne_bounds m2 n Hn). lia.
Qed.

Lemma rne_shift m n j : 0 <= n -> 0 <= j -> rne (m * 2 ^ j) (n + j) = rne m n.
Proof.
  intros Hn Hj. unfold rne.
  assert (Hp : 0 < 2 ^ n) by (apply Z.pow_pos_nonneg; lia).
  assert (Hpj : 0 < 2 ^ j) by (apply Z.pow_pos_nonneg; lia).
  rewrite Z.pow_add_r by lia.
  rewrite Z.div_mul_cancel_r by lia.
  rewrite Z.mul_mod_distr_r by lia.
  set (r := m mod 2 ^ n).
  destruct (Z.compare_spec (2 * (r * 2 ^ j)) (2 ^ n * 2 ^ j));
  destruct (Z.compare_spec (2 * r) (2 ^ n)); try reflexivity; nia.
Qed.

(** ** Rounding to the nearest key: invariant under scaling, monotone *)

Lemma digits_shift m j : 0 < m -> 0 <= j -> Zdigits2 (m * 2 ^ j) = Zdigits2 m + j.
Proof.
  intros Hm Hj.
  assert (Hpj : 0 < 2 ^ j) by (apply Z.pow_pos_nonneg; lia).
  pose proof (digits_bounds m Hm) as [H1 H2].
  pose proof (digits_pos m Hm).
  apply digits_unique. nia.
  replace (Zdigits2 m + j - 1) with (Zdigits2 m - 1 + j) by lia.
  rewrite !Z.pow_add_r by lia. nia.
Qed.

Lemma digits_mono m1 m2 : 0 < m1 <= m2 -> Zdigits2 m1 <= Zdigits2 m2.
Proof.
  intros [H1 H2]. rewrite !digits_log2 by lia.
  pose proof (Z.log2_le_mono m1 m2 H2). lia.
Qed.

Lemma rndk_0 k : 0 <= k -> rndk 0 k = 0.
Proof.
  intros Hk. unfold rndk. simpl Zdigits2. rewrite rne_0_l by lia.
  assert (0 < INF) by (apply Z.pow_pos_nonneg; lia). lia.
Qed.

Lemma rndk_shift M k j : 0 <= M -> 0 <= k -> 0 <= j -> rndk (M * 2 ^ j) (k + j) = rndk M k.
Proof.
  intros HM Hk Hj.
  destruct (Z.eq_dec M 0) as [->|NZ].
  - rewrite Z.mul_0_l. rewrite !rndk_0 by lia. reflexivity.
  - unfold rndk. rewrite digits_shift by lia.
    replace (Z.max (Zdigits2 M + j - 53) (k + j)) with (Z.max (Zdigits2 M - 53) k + j) by lia.
    rewrite rne_shift by lia. f_equal. f_equal. f_equal. lia.
Qed.

Lemma rndk_mono M1 M2 k : 0 <= k -> 0 <= M1 <= M2 -> rndk M1 k <= rndk M2 k.
Proof.
  intros Hk [H1 H2]. unfold rndk.
  apply Z.min_le_compat_l.
  destruct (Z.eq_dec M1 0) as [->|NZ].
  { rewrite rne_0_l by lia. rewrite Z.mul_0_l.
    apply Z.mul_nonneg_nonneg.
    - pose proof (rne_bounds M2 (Z.max (Zdigits2 M2 - 53) k) ltac:(lia)).
      assert (0 <= M2 / 2 ^ Z.max (Zdigits2 M2 - 53) k)
        by (apply Z.div_pos; [lia|apply Z.pow_pos_nonneg; lia]).
      lia.
    - apply Z.pow_nonneg; lia. }
  pose proof (digits_mono M1 M2 ltac:(lia)) as Hd.
  set (s1 := Z.max (Zdigits2 M1 - 53) k). set (s2 := Z.max (Zdigits2 M2 - 53) k).
  assert (Hs : s1 <= s2) by lia.
  destruct (Z.eq_dec s1 s2) as [E|NE].
  - rewrite <- E. apply Z.mul_le_mono_nonneg_r. apply Z.pow_nonneg; lia.
    apply rne_mono; lia.
  - assert (Hs2 : s2 = Zdigits2 M2 - 53) by lia.
    pose proof (digits_bounds M1 ltac:(lia)) as [_ U1].
    pose proof (digits_bounds M2 ltac:(lia)) as [L2 _].
    assert (B1 : rne M1 s1 <= 2 ^ 53).
    { apply rne_lt_pow; try lia. split; [lia|].
      eapply Z.lt_le_trans; [exact U1|]. apply Z.pow_le_mono_r; lia. }
    assert (B2 : 2 ^ 52 <= rne M2 s2).
    { apply rne_ge_pow; try lia.
      replace (52 + s2) with (Zdigits2 M2 - 1) by lia. exact L2. }
    replace (s2 - k) with ((s1 - k) + (s2 - s1 - 1) + 1) by lia.
    rewrite !Z.pow_add_r by lia.
    assert (0 < 2 ^ (s1 - k)) by (apply Z.pow_pos_nonneg; lia).
    assert (0 < 2 ^ (s2 - s1 - 1)) by (apply Z.pow_pos_nonneg; lia).
    change (2 ^ 53) with (2 ^ 52 * 2) in B1. change (2 ^ 1) with 2.
    set (P := 2 ^ 52) in *. assert (0 < P) by reflexivity.
    clearbody P.
    set (A := 2 ^ (s1 - k)) in *. set (B := 2 ^ (s2 - s1 - 1)) in *.
    apply Z.le_trans with (P * 2 * A). { apply Z.mul_le_mono_nonneg_r; lia. }
    apply Z.le_trans with (P * (A * B * 2)); [nia|].
    apply Z.mul_le_mono_nonneg_r; nia.
Qed.

(** ** [binary_round_aux] computes [rndk] *)

Lemma fexp_eq x : fexp prec emax x = Z.max (x - 53) (-1074).
Proof. reflexivity. Qed.

Lemma round_aux_finish m e l :
  binary_round_aux prec emax false m e l =
  let '(mrs, e') := shr_fexp prec emax m e l in
  finish (round_nearest_even (shr_m mrs) (loc_of_shr_record mrs)) e'.
Proof. reflexivity. Qed.

Lemma shr_fexp_exact m e :
  0 <= m -> e <= fexp prec emax (Zdigits2 m + e) ->
  exists mrs,
    shr_fexp prec emax m e loc_Exact = (mrs, fexp prec emax (Zdigits2 m + e)) /\
    round_nearest_even (shr_m mrs) (loc_of_shr_record mrs) =
    rne m (fexp prec emax (Zdigits2 m + e) - e).
Proof.
  intros Hm He. unfold shr_fexp, shr. cbn [shr_record_of_loc].
  set (E := fexp prec emax (Zdigits2 m + e)) in *.
  destruct (E - e) as [|p|p] eqn:Hn; try lia.
  - eexists; split; [f_equal; lia|].
    cbn [shr_m loc_of_shr_record round_nearest_even]. rewrite rne_0_r. reflexivity.
  - eexists; split; [f_equal; lia|].
    rewrite iter_shr_1 by lia. rewrite round_shifted by lia. reflexivity.
Qed.

Lemma key_lt_INF q E : 0 <= q < 2 ^ 53 -> -1074 <= E <= 971 -> q * 2 ^ (E + 1074) < INF.
Proof.
  intros Hq HE.
  assert (HP : 0 < 2 ^ (E + 1074) <= 2 ^ 2045).
  { split. apply Z.pow_pos_nonneg; lia. apply Z.pow_le_mono_r; lia. }
  assert (HI : INF = 2 ^ 53 * 2 ^ 2045) by reflexivity.
  rewrite HI. set (T := 2 ^ 2045) in *. set (P := 2 ^ (E + 1074)) in *.
  set (Q := 2 ^ 53) in *. clearbody T P Q. nia.
Qed.

Lemma key_ge_INF q E : 2 ^ 52 <= q -> 972 <= E -> INF <= q * 2 ^ (E + 1074).
Proof.
  intros Hq HE.
  assert (HP : 2 ^ 2046 <= 2 ^ (E + 1074)) by (apply Z.pow_le_mono_r; lia).
  assert (HI : INF = 2 ^ 52 * 2 ^ 2046) by reflexivity.
  rewrite HI. set (T := 2 ^ 2046) in *. set (P := 2 ^ (E + 1074)) in *.
  assert (0 < T) by reflexivity.
  set (Q := 2 ^ 52) in *. assert (0 < Q) by reflexivity. clearbody T P Q. nia.
Qed.

Lemma bounded_spec m e :
  bounded prec emax m e = true <->
  (fexp prec emax (Zdigits2 (Zpos m) + e) = e /\ e <= 971).
Proof.
  unfold bounded, canonical_mantissa. rewrite andb_true_iff, Z.eqb_eq, Z.leb_le.
  reflexivity.
Qed.

Lemma finish_spec q E :
  0 <= q <= 2 ^ 53 -> -1074 <= E -> (E = -1074 \/ 2 ^ 52 <= q) ->
  nonneg (finish q E) = true /\ key (finish q E) = Z.min INF (q * 2 ^ (E + 1074)).
Proof.
  intros [Hq0 Hq] HE Hn. unfold finish.
  assert (HINF : 0 < INF) by reflexivity.
  destruct (Z.eq_dec q 0) as [->|NZ].
  { unfold shr_fexp, shr. cbn [Zdigits2 shr_record_of_loc].
    rewrite fexp_eq.
    destruct (Z.max (0 + E - 53) (-1074) - E) as [|p|p] eqn:Hs; try lia;
      cbn [shr_m]; split; try reflexivity; cbn [key]; lia. }
  assert (Hqpos : 0 < q) by lia.
  destruct (Z.eq_dec q (2 ^ 53)) as [->|NM].
  - (* the mantissa overflowed to 2^53: one more shift *)
    unfold shr_fexp, shr. cbn [shr_record_of_loc].
    change (Zdigits2 (2 ^ 53)) with 54. rewrite fexp_eq.
    replace (Z.max (54 + E - 53) (-1074) - E) with 1 by lia.
    rewrite iter_shr_1 by lia. unfold shifted. cbn [shr_m].
    change (2 ^ 53 / 2 ^ 1) with (Zpos (Pos.pow 2 52)).
    destruct (Z.leb_spec (E + 1) (emax - prec)) as [Hle|Hgt]; unfold emax, prec in *.
    + split.
      * cbn [nonneg negb andb]. apply bounded_spec. rewrite fexp_eq.
        change (Zdigits2 (Z.pos (2 ^ 52))) with 53. lia.
      * cbn [key]. change (Z.pos (2 ^ 52)) with (2 ^ 52).
        replace (E + 1 + 1074) with (1 + (E + 1074)) by lia.
        rewrite Z.pow_add_r by lia. change (2 ^ 1) with 2.
        pose proof (key_lt_INF (2 ^ 52) (E + 1) ltac:(split; [lia|reflexivity]) ltac:(lia)) as HK.
        replace (E + 1 + 1074) with (1 + (E + 1074)) in HK by lia.
        rewrite Z.pow_add_r in HK by lia. change (2 ^ 1) with 2 in HK.
        change (2 ^ 53) with (2 ^ 52 * 2).
        set (P := 2 ^ 52) in *. set (T := 2 ^ (E + 1074)) in *. clearbody P T. lia.
    + split; [reflexivity|]. cbn [key].
      pose proof (key_ge_INF (2 ^ 52) (E + 1) ltac:(lia) ltac:(lia)) as HK.
      replace (E + 1 + 1074) with (1 + (E + 1074)) in HK by lia.
      rewrite Z.pow_add_r in HK by lia. change (2 ^ 1) with 2 in HK.
      change (2 ^ 53) with (2 ^ 52 * 2).
      set (P := 2 ^ 52) in *. set (T := 2 ^ (E + 1074)) in *. clearbody P T. lia.
  - (* the mantissa fits *)
    assert (Hq53 : q < 2 ^ 53) by lia.
    pose proof (digits_bounds q Hqpos) as [DL DU].
    pose proof (digits_pos q Hqpos) as DP.
    assert (Hd : Zdigits2 q <= 53).
    { destruct (Z_le_gt_dec (Zdigits2 q) 53); auto.
      assert (2 ^ 53 <= 2 ^ (Zdigits2 q - 1)) by (apply Z.pow_le_mono_r; lia). lia. }
    assert (Hcan : fexp prec emax (Zdigits2 q + E) = E).
    { rewrite fexp_eq. destruct Hn as [->|Hn]; [lia|].
      assert (Zdigits2 q = 53); [|lia].
      apply digits_unique; [lia|]. split; [exact Hn | exact Hq53]. }
    unfold shr_fexp, shr. cbn [shr_record_of_loc]. rewrite Hcan, Z.sub_diag.
    cbn [shr_m]. destruct q as [|p|p]; try lia.
    destruct (Z.leb_spec E (emax - prec)) as [Hle|Hgt]; unfold emax, prec in *.
    + split.
      * cbn [nonneg negb andb]. apply bounded_spec. split; [exact Hcan | lia].
      * cbn [key]. pose proof (key_lt_INF (Zpos p) E ltac:(lia) ltac:(lia)). lia.
    + split; [reflexivity|]. cbn [key].
      destruct Hn as [->|Hn]; [lia|].
      pose proof (key_ge_INF (Zpos p) E Hn ltac:(lia)). lia.
Qed.

Lemma round_aux_key m e :
  0 < m -> e <= fexp prec emax (Zdigits2 m + e) ->
  nonneg (binary_round_aux prec emax false m e loc_Exact) = true /\
  forall c, c <= e -> c <= -1074 ->
    key (binary_round_aux prec emax false m e loc_Exact) =
    rndk (m * 2 ^ (e - c)) (-1074 - c).
Proof.
  intros Hm He.
  destruct (shr_fexp_exact m e ltac:(lia) He) as (mrs & Hs & Hr).
  rewrite round_aux_finish, Hs, Hr.
  set (E := fexp prec emax (Zdigits2 m + e)) in *.
  assert (HE : E = Z.max (Zdigits2 m + e - 53) (-1074)) by apply fexp_eq.
  pose proof (digits_bounds m Hm) as [DL DU].
  pose proof (digits_pos m Hm) as DP.
  assert (Hq : 0 <= rne m (E - e) <= 2 ^ 53).
  { split.
    - pose proof (rne_bounds m (E - e) ltac:(lia)).
      assert (0 <= m / 2 ^ (E - e)) by (apply Z.div_pos; [lia|apply Z.pow_pos_nonneg; lia]).
      lia.
    - apply rne_lt_pow; try lia. split; [lia|].
      eapply Z.lt_le_trans; [exact DU|]. apply Z.pow_le_mono_r; lia. }
  assert (Hn : E = -1074 \/ 2 ^ 52 <= rne m (E - e)).
  { destruct (Z.eq_dec E (-1074)); [left; assumption|right].
    apply rne_ge_pow; try lia.
    replace (52 + (E - e)) with (Zdigits2 m - 1) by lia. exact DL. }
  destruct (finish_spec (rne m (E - e)) E Hq ltac:(lia) Hn) as [Hnn Hk].
  split; [exact Hnn|]. intros c Hc1 Hc2. rewrite Hk. unfold rndk.
  rewrite digits_shift by lia.
  replace (Z.max (Zdigits2 m + (e - c) - 53) (-1074 - c)) with ((E - e) + (e - c)) by lia.
  rewrite rne_shift by lia. f_equal. f_equal. f_equal. lia.
Qed.

Lemma iter_xO m d : Zpos (Pos.iter xO m d) = Zpos m * 2 ^ Zpos d.
Proof.
  induction d using Pos.peano_ind.
  - cbn [Pos.iter]. lia.
  - rewrite Pos.iter_succ. rewrite Pos2Z.inj_xO, IHd.
    rewrite Pos2Z.inj_succ. rewrite Z.pow_succ_r by lia. lia.
Qed.

Lemma shl_align_spec m e e' :
  Zpos (fst (shl_align m e e')) = Zpos m * 2 ^ (e - Z.min e e') /\
  snd (shl_align m e e') = Z.min e e'.
Proof.
  unfold shl_align. destruct (e' - e) as [|p|p] eqn:H; cbn [fst snd].
  - replace (Z.min e e') with e by lia. rewrite Z.sub_diag. split; lia.
  - replace (Z.min e e') with e by lia. rewrite Z.sub_diag. split; lia.
  - replace (Z.min e e') with e' by lia. rewrite iter_xO.
    replace (e - e') with (Zpos p) by lia. split; lia.
Qed.

Lemma round_key m e :
  -1074 <= e ->
  nonneg (binary_round prec emax false m e) = true /\
  key (binary_round prec emax false m e) = rndk (Zpos m * 2 ^ (e + 1074)) 0.
Proof.
  intros He. unfold binary_round.
  set (E := fexp prec emax (Zpos (digits2_pos m) + e)).
  pose proof (shl_align_spec m e E) as [Hm' He'].
  destruct (shl_align m e E) as [m' e']. cbn [fst snd] in Hm', He'.
  assert (HE : E = Z.max (Zdigits2 (Zpos m) + e - 53) (-1074)) by apply fexp_eq.
  assert (Hd : Zdigits2 (Zpos m') + e' = Zdigits2 (Zpos m) + e).
  { rewrite Hm'. rewrite digits_shift by lia. lia. }
  destruct (round_aux_key (Zpos m') e' ltac:(lia)) as [Hnn Hk].
  { rewrite Hd. change (e' <= E). lia. }
  split; [exact Hnn|]. rewrite (Hk (-1074)) by lia.
  f_equal. rewrite Hm'. rewrite <- Z.mul_assoc, <- Z.pow_add_r by lia.
  f_equal. f_equal. lia.
Qed.

Lemma normalize_key S e :
  0 <= S -> -1074 <= e ->
  nonneg (binary_normalize prec emax S e false) = true /\
  key (binary_normalize prec emax S e false) = rndk (S * 2 ^ (e + 1074)) 0.
Proof.
  intros HS He. destruct S as [|p|p]; try lia.
  - cbn [binary_normalize nonneg key]. rewrite Z.mul_0_l, rndk_0 by lia. split; reflexivity.
  - apply round_key. exact He.
Qed.

(** ** Keys of canonical floats and their order *)

Lemma bounded_facts m e :
  bounded prec emax m e = true ->
  -1074 <= e <= 971 /\ Zdigits2 (Zpos m) <= 53 /\ (e = -1074 \/ Zdigits2 (Zpos m) = 53).
Proof.
  intros H. apply bounded_spec in H. rewrite fexp_eq in H. lia.
Qed.

Lemma key_finite s m e :
  bounded prec emax m e = true -> 0 < key (S754_finite s m e) < INF.
Proof.
  intros H. apply bounded_facts in H. destruct H as (He & Hd & _).
  cbn [key]. split.
  - apply Z.mul_pos_pos; [lia|apply Z.pow_pos_nonneg; lia].
  - apply key_lt_INF; [|lia]. split; [lia|].
    pose proof (digits_bounds (Zpos m) ltac:(lia)) as [_ U].
    eapply Z.lt_le_trans; [exact U|]. apply Z.pow_le_mono_r; lia.
Qed.

Lemma INF_pos : 0 < INF.
Proof. reflexivity. Qed.

Lemma key_range x : nonneg x = true -> 0 <= key x <= INF.
Proof.
  pose proof INF_pos.
  destruct x as [s|s| |s m e]; cbn [nonneg key]; try lia; try discriminate.
  intros H1. apply andb_true_iff in H1. destruct H1 as [_ H1].
  pose proof (key_finite s m e H1) as K. cbn [key] in K. lia.
Qed.

Lemma key_INF x : nonneg x = true -> (key x =? INF) = negb (not_inf x).
Proof.
  pose proof INF_pos.
  destruct x as [s|s| |s m e]; cbn [nonneg key not_inf negb]; try discriminate; intros H1.
  - apply Z.eqb_neq. lia.
  - apply Z.eqb_refl.
  - apply andb_true_iff in H1. destruct H1 as [_ H1].
    pose proof (key_finite s m e H1) as K. cbn [key] in K. apply Z.eqb_neq. lia.
Qed.

Lemma rndk_key s m e :
  bounded prec emax m e = true ->
  rndk (key (S754_finite s m e)) 0 = key (S754_finite s m e).
Proof.
  intros H. pose proof (key_finite s m e H) as K.
  apply bounded_facts in H. destruct H as (He & Hd & Hn).
  cbn [key] in *. unfold rndk. rewrite digits_shift by lia.
  replace (Z.max (Zdigits2 (Z.pos m) + (e + 1074) - 53) 0) with (0 + (e + 1074)) by lia.
  rewrite rne_shift by lia. rewrite rne_0_r.
  replace (0 + (e + 1074) - 0) with (e + 1074) by lia. lia.
Qed.

Lemma rndk_key_nonneg x :
  nonneg x = true -> not_inf x = true -> rndk (key x) 0 = key x.
Proof.
  destruct x as [s|s| |s m e]; cbn [nonneg not_inf]; try discriminate; intros H1 _.
  - apply rndk_0. lia.
  - apply andb_true_iff in H1. apply rndk_key. tauto.
Qed.

Lemma key_sep m1 e1 m2 e2 :
  0 < m1 < 2 ^ 53 -> 2 ^ 52 <= m2 -> -1074 <= e1 < e2 ->
  m1 * 2 ^ (e1 + 1074) < m2 * 2 ^ (e2 + 1074).
Proof.
  intros H1 H2 H3.
  replace (e2 + 1074) with ((e1 + 1074) + (e2 - e1 - 1) + 1) by lia.
  rewrite (Z.pow_add_r 2 (e1 + 1074 + (e2 - e1 - 1)) 1) by lia.
  rewrite (Z.pow_add_r 2 (e1 + 1074) (e2 - e1 - 1)) by lia.
  change (2 ^ 1) with 2.
  assert (0 < 2 ^ (e1 + 1074)) by (apply Z.pow_pos_nonneg; lia).
  assert (0 < 2 ^ (e2 - e1 - 1)) by (apply Z.pow_pos_nonneg; lia).
  change (2 ^ 53) with (2 ^ 52 * 2) in H1.
  set (P := 2 ^ 52) in *. assert (0 < P) by reflexivity. clearbody P.
  set (A := 2 ^ (e1 + 1074)) in *. set (B := 2 ^ (e2 - e1 - 1)) in *.
  clearbody A B. clear H3.
  apply Z.lt_le_trans with (P * 2 * A). { apply Z.mul_lt_mono_pos_r; lia. }
  assert (0 < A * B) by (apply Z.mul_pos_pos; lia).
  apply Z.le_trans with (P * (A * B * 2)).
  { assert (A <= A * B) by nia. nia. }
  apply Z.mul_le_mono_nonneg_r; lia.
Qed.

Lemma SFcompare_key x y :
  nonneg x = true -> nonneg y = true -> SFcompare x y = Some (key x ?= key y).
Proof.
  intros Hx Hy.
  pose proof INF_pos as HI.
  pose proof (key_range x Hx) as Kx. pose proof (key_range y Hy) as Ky.
  destruct x as [sx|sx| |sx mx ex], y as [sy|sy| |sy my ey]; cbn [nonneg] in Hx, Hy;
    try discriminate;
    repeat match goal with
      | H : negb ?s = true |- _ => destruct s; [discriminate|clear H]
      | H : negb ?s && _ = true |- _ =>
        destruct s; [discriminate|]; cbn [negb andb] in H
      end.
  - reflexivity.
  - cbn [SFcompare key]. apply (f_equal Some). symmetry.
    apply Z.compare_lt_iff. lia.
  - pose proof (key_finite false my ey Hy). cbn [SFcompare]. apply (f_equal Some). symmetry.
    apply Z.compare_lt_iff. cbn [key] in *. lia.
  - cbn [SFcompare key]. apply (f_equal Some). symmetry. apply Z.compare_gt_iff. lia.
  - cbn [SFcompare key]. apply (f_equal Some). symmetry. apply Z.compare_refl.
  - pose proof (key_finite false my ey Hy). cbn [SFcompare]. apply (f_equal Some). symmetry.
    apply Z.compare_gt_iff. cbn [key] in *. lia.
  - pose proof (key_finite false mx ex Hx). cbn [SFcompare]. apply (f_equal Some). symmetry.
    apply Z.compare_gt_iff. cbn [key] in *. lia.
  - pose proof (key_finite false mx ex Hx). cbn [SFcompare]. apply (f_equal Some). symmetry.
    apply Z.compare_lt_iff. cbn [key] in *. lia.
  - cbn [SFcompare key]. apply (f_equal Some).
    pose proof (bounded_facts mx ex Hx) as (Hex & Hdx & Hnx).
    pose proof (bounded_facts my ey Hy) as (Hey & Hdy & Hny).
    pose proof (digits_bounds (Zpos mx) ltac:(lia)) as [Lx Ux].
    pose proof (digits_bounds (Zpos my) ltac:(lia)) as [Ly Uy].
    pose proof key_sep as Hsep.
    assert (Ux' : Z.pos mx < 2 ^ 53).
    { eapply Z.lt_le_trans; [exact Ux|]. apply Z.pow_le_mono_r; lia. }
    assert (Uy' : Z.pos my < 2 ^ 53).
    { eapply Z.lt_le_trans; [exact Uy|]. apply Z.pow_le_mono_r; lia. }
    destruct (Z.compare_spec ex ey) as [E|L|G].
    + subst ey. change (Pos.compare_cont Eq mx my) with (Z.pos mx ?= Z.pos my).
      assert (0 < 2 ^ (ex + 1074)) by (apply Z.pow_pos_nonneg; lia).
      destruct (Z.compare_spec (Zpos mx) (Zpos my)); symmetry.
      * rewrite H0. apply Z.compare_refl.
      * apply Z.compare_lt_iff. apply Z.mul_lt_mono_pos_r; lia.
      * apply Z.compare_gt_iff. apply Z.mul_lt_mono_pos_r; lia.
    + symmetry. apply Z.compare_lt_iff. apply Hsep; try lia.
      destruct Hny as [?|Hny]; [lia|]. rewrite Hny in Ly. exact Ly.
    + symmetry. apply Z.compare_gt_iff. apply Hsep; try lia.
      destruct Hnx as [?|Hnx]; [lia|]. rewrite Hnx in Lx. exact Lx.
Qed.

Lemma fle_key x y : nonneg x = true -> nonneg y = true -> fle x y = (key x <=? key y).
Proof.
  intros Hx Hy. unfold fle, SFleb. rewrite (SFcompare_key x y Hx Hy).
  unfold Z.leb. destruct (key x ?= key y); reflexivity.
Qed.

Lemma flt_key x y : nonneg x = true -> nonneg y = true -> flt x y = (key x <? key y).
Proof.
  intros Hx Hy. unfold flt, SFltb. rewrite (SFcompare_key x y Hx Hy).
  unfold Z.ltb. destruct (key x ?= key y); reflexivity.
Qed.

(** ** The operations on non-negative floats *)

Ltac nonneg_cases :=
  repeat match goal with
    | H : nonneg (S754_nan) = true |- _ => discriminate H
    | H : nonneg (S754_infinity ?s) = true |- _ =>
      destruct s; [discriminate H|clear H]
    | H : nonneg (S754_finite ?s _ _) = true |- _ =>
      destruct s; [discriminate H|]; cbn [nonneg negb andb] in H
    end.

Lemma aligned_key m e e' :
  -1074 <= e' <= e ->
  Zpos (fst (shl_align m e e')) * 2 ^ (e' + 1074) = Zpos m * 2 ^ (e + 1074).
Proof.
  intros H. destruct (shl_align_spec m e e') as [-> _].
  replace (Z.min e e') with e' by lia.
  rewrite <- Z.mul_assoc, <- Z.pow_add_r by lia. f_equal. f_equal. lia.
Qed.

Lemma fadd_key x y :
  nonneg x = true -> nonneg y = true ->
  nonneg (fadd x y) = true /\ key (fadd x y) = addk (key x) (key y).
Proof.
  intros Hx Hy. unfold addk.
  rewrite (key_INF x Hx), (key_INF y Hy).
  pose proof (rndk_key_nonneg x Hx) as Ex. pose proof (rndk_key_nonneg y Hy) as Ey.
  destruct x as [sx|sx| |sx mx ex], y as [sy|sy| |sy my ey]; nonneg_cases;
    cbn [not_inf negb orb] in *; try (split; reflexivity).
  - split; [destruct sx, sy; reflexivity|]. rewrite rndk_0 by lia. destruct sx, sy; reflexivity.
  - split; [cbn [fadd SFadd nonneg negb andb]; exact Hy|].
    cbn [fadd SFadd]. rewrite Z.add_0_l. symmetry. apply Ey. reflexivity.
  - split; [cbn [fadd SFadd nonneg negb andb]; exact Hx|].
    cbn [fadd SFadd]. rewrite Z.add_0_r. symmetry. apply Ex. reflexivity.
  - pose proof (bounded_facts mx ex Hx) as (Hex & _).
    pose proof (bounded_facts my ey Hy) as (Hey & _).
    unfold fadd. cbn [SFadd cond_Zopp].
    set (ez := Z.min ex ey).
    destruct (normalize_key
                (Zpos (fst (shl_align mx ex ez)) + Zpos (fst (shl_align my ey ez))) ez)
      as [Hnn Hk]; try lia.
    split; [exact Hnn|]. rewrite Hk. f_equal.
    rewrite Z.mul_add_distr_r. rewrite !aligned_key by lia. reflexivity.
Qed.

Lemma fsub_key x y :
  nonneg x = true -> nonneg y = true -> not_inf y = true -> key y <= key x ->
  nonneg (fsub x y) = true /\ key (fsub x y) = subk (key x) (key y).
Proof.
  intros Hx Hy Hf Hle. unfold subk.
  rewrite (key_INF x Hx).
  pose proof (rndk_key_nonneg x Hx) as Ex.
  destruct x as [sx|sx| |sx mx ex], y as [sy|sy| |sy my ey]; nonneg_cases;
    try discriminate Hf;
    cbn [not_inf negb orb] in *; try (split; reflexivity).
  - split; [destruct sx, sy; reflexivity|]. rewrite rndk_0 by lia. destruct sx, sy; reflexivity.
  - pose proof (key_finite false my ey Hy). cbn [key] in *. lia.
  - split; [cbn [fsub SFsub nonneg negb andb]; exact Hx|].
    cbn [fsub SFsub]. change (key (S754_zero sy)) with 0. rewrite Z.sub_0_r.
    symmetry. apply Ex. reflexivity.
  - pose proof (bounded_facts mx ex Hx) as (Hex & _).
    pose proof (bounded_facts my ey Hy) as (Hey & _).
    unfold fsub. cbn [SFsub cond_Zopp].
    set (ez := Z.min ex ey).
    assert (Hd : (Zpos (fst (shl_align mx ex ez)) - Zpos (fst (shl_align my ey ez)))
                 * 2 ^ (ez + 1074) = key (S754_finite false mx ex) - key (S754_finite false my ey)).
    { rewrite Z.mul_sub_distr_r. rewrite !aligned_key by lia. reflexivity. }
    assert (0 < 2 ^ (ez + 1074)) by (apply Z.pow_pos_nonneg; lia).
    destruct (normalize_key
                (Zpos (fst (shl_align mx ex ez)) - Zpos (fst (shl_align my ey ez))) ez)
      as [Hnn Hk]; try lia.
    { nia. }
    split; [exact Hnn|]. rewrite Hk, Hd. reflexivity.
Qed.

Lemma digits_mul_ge a b :
  0 < a -> 0 < b -> Zdigits2 a + Zdigits2 b - 1 <= Zdigits2 (a * b).
Proof.
  intros Ha Hb.
  pose proof (digits_bounds a Ha) as [La _]. pose proof (digits_bounds b Hb) as [Lb _].
  pose proof (digits_pos a Ha). pose proof (digits_pos b Hb).
  pose proof (digits_bounds (a * b) ltac:(nia)) as [_ U].
  assert (L : 2 ^ (Zdigits2 a - 1 + (Zdigits2 b - 1)) <= a * b).
  { rewrite Z.pow_add_r by lia. apply Z.mul_le_mono_nonneg; try lia; apply Z.pow_nonneg; lia. }
  destruct (Z_lt_le_dec (Zdigits2 (a * b)) (Zdigits2 a + Zdigits2 b - 1)) as [C|]; [|lia].
  assert (2 ^ Zdigits2 (a * b) <= 2 ^ (Zdigits2 a - 1 + (Zdigits2 b - 1))).
  { apply Z.pow_le_mono_r; lia. }
  lia.
Qed.

Lemma fmul_key x y :
  nonneg x = true -> finite_pos y = true ->
  nonneg (fmul x y) = true /\ key (fmul x y) = mulk (key x) (key y).
Proof.
  intros Hx Hy. unfold mulk. rewrite (key_INF x Hx).
  destruct y as [sy|sy| |sy my ey]; try discriminate Hy.
  destruct sy; [discriminate Hy|]. cbn [finite_pos] in Hy.
  destruct x as [sx|sx| |sx mx ex]; nonneg_cases; cbn [not_inf negb].
  - split; [reflexivity|]. cbn [fmul SFmul key]. rewrite Z.mul_0_l, rndk_0 by lia. reflexivity.
  - split; reflexivity.
  - pose proof (bounded_facts mx ex Hx) as (Hex & Hdx & Hnx).
    pose proof (bounded_facts my ey Hy) as (Hey & Hdy & Hny).
    pose proof (digits_mul_ge (Zpos mx) (Zpos my) ltac:(lia) ltac:(lia)) as Hd.
    pose proof (digits_pos (Zpos mx) ltac:(lia)). pose proof (digits_pos (Zpos my) ltac:(lia)).
    unfold fmul. cbn [SFmul xorb]. rewrite Pos2Z.inj_mul.
    destruct (round_aux_key (Zpos mx * Zpos my) (ex + ey) ltac:(lia)) as [Hnn Hk].
    { rewrite fexp_eq. lia. }
    split; [exact Hnn|]. rewrite (Hk (-2148)) by lia. cbn [key].
    f_equal.
    replace (ex + ey - -2148) with ((ex + 1074) + (ey + 1074)) by lia.
    rewrite Z.pow_add_r by lia. ring.
Qed.

(** ** Monotonicity on keys *)

Lemma rndk_range M k : 0 <= k -> 0 <= M -> 0 <= rndk M k <= INF.
Proof.
  intros Hk HM. pose proof INF_pos. unfold rndk. split; [|apply Z.le_min_l].
  apply Z.min_glb; [lia|].
  set (s := Z.max (Zdigits2 M - 53) k).
  pose proof (rne_bounds M s ltac:(lia)).
  assert (0 <= M / 2 ^ s) by (apply Z.div_pos; [lia|apply Z.pow_pos_nonneg; lia]).
  apply Z.mul_nonneg_nonneg; [lia|apply Z.pow_nonneg; lia].
Qed.

Lemma addk_mono a1 a2 b1 b2 :
  0 <= a1 <= a2 -> a2 <= INF -> 0 <= b1 <= b2 -> b2 <= INF ->
  0 <= addk a1 b1 <= addk a2 b2 /\ addk a2 b2 <= INF.
Proof.
  intros Ha Ha' Hb Hb'. pose proof INF_pos. unfold addk.
  pose proof (rndk_range (a1 + b1) 0 ltac:(lia) ltac:(lia)).
  pose proof (rndk_range (a2 + b2) 0 ltac:(lia) ltac:(lia)).
  pose proof (rndk_mono (a1 + b1) (a2 + b2) 0 ltac:(lia) ltac:(lia)).
  destruct (Z.eqb_spec a1 INF), (Z.eqb_spec b1 INF), (Z.eqb_spec a2 INF), (Z.eqb_spec b2 INF);
    cbn [orb]; lia.
Qed.

Lemma subk_mono a1 a2 b :
  0 <= b <= a1 -> a1 <= a2 -> a2 <= INF ->
  0 <= subk a1 b <= subk a2 b /\ subk a2 b <= INF.
Proof.
  intros Hb Ha Ha'. pose proof INF_pos. unfold subk.
  pose proof (rndk_range (a1 - b) 0 ltac:(lia) ltac:(lia)).
  pose proof (rndk_range (a2 - b) 0 ltac:(lia) ltac:(lia)).
  pose proof (rndk_mono (a1 - b) (a2 - b) 0 ltac:(lia) ltac:(lia)).
  destruct (Z.eqb_spec a1 INF), (Z.eqb_spec a2 INF); lia.
Qed.

Lemma mulk_mono a1 a2 b :
  0 <= a1 <= a2 -> a2 <= INF -> 0 <= b ->
  0 <= mulk a1 b <= mulk a2 b /\ mulk a2 b <= INF.
Proof.
  intros Ha Ha' Hb. pose proof INF_pos. unfold mulk.
  pose proof (rndk_range (a1 * b) 1074 ltac:(lia) ltac:(nia)).
  pose proof (rndk_range (a2 * b) 1074 ltac:(lia) ltac:(nia)).
  pose proof (rndk_mono (a1 * b) (a2 * b) 1074 ltac:(lia) ltac:(nia)).
  destruct (Z.eqb_spec a1 INF), (Z.eqb_spec a2 INF); lia.
Qed.

(** Order on non-negative floats is that of the keys. *)
Lemma fle_true_key x y :
  nonneg x = true -> nonneg y = true -> (fle x y = true <-> key x <= key y).
Proof. intros Hx Hy. rewrite fle_key by assumption. apply Z.leb_le. Qed.

Lemma fle_false_key x y :
  nonneg x = true -> nonneg y = true -> (fle x y = false <-> key y < key x).
Proof. intros Hx Hy. rewrite fle_key by assumption. apply Z.leb_gt. Qed.

Lemma key_succ mx ex y :
  bounded prec emax mx ex = true -> nonneg y = true ->
  key (S754_finite false mx ex) < key y ->
  key (S754_finite false mx ex) + 2 ^ (ex + 1074) <= key y.
Proof.
  intros Hx Hy Hlt.
  pose proof (bounded_facts mx ex Hx) as (Hex & Hdx & Hnx).
  pose proof (digits_bounds (Zpos mx) ltac:(lia)) as [Lx Ux].
  assert (Ux' : Z.pos mx < 2 ^ 53).
  { eapply Z.lt_le_trans; [exact Ux|]. apply Z.pow_le_mono_r; lia. }
  assert (HP : 0 < 2 ^ (ex + 1074)) by (apply Z.pow_pos_nonneg; lia).
  assert (Hup : key (S754_finite false mx ex) + 2 ^ (ex + 1074) <= INF).
  { cbn [key].
    destruct (Z.eq_dec (Zpos mx + 1) (2 ^ 53)) as [E|NE].
    - replace (Zpos mx * 2 ^ (ex + 1074) + 2 ^ (ex + 1074))
        with ((Zpos mx + 1) * 2 ^ (ex + 1074)) by ring.
      rewrite E. assert (2 ^ (ex + 1074) <= 2 ^ 2045) by (apply Z.pow_le_mono_r; lia).
      assert (HI : INF = 2 ^ 53 * 2 ^ 2045) by reflexivity. rewrite HI.
      apply Z.mul_le_mono_nonneg_l; [apply Z.pow_nonneg|]; lia.
    - pose proof (key_lt_INF (Zpos mx + 1) ex ltac:(lia) ltac:(lia)). lia. }
  destruct y as [sy|sy| |sy my ey]; nonneg_cases.
  - cbn [key] in Hlt. cbn [key] in *. lia.
  - exact Hup.
  - pose proof (bounded_facts my ey Hy) as (Hey & Hdy & Hny).
    pose proof (digits_bounds (Zpos my) ltac:(lia)) as [Ly Uy].
    assert (Uy' : Z.pos my < 2 ^ 53).
    { eapply Z.lt_le_trans; [exact Uy|]. apply Z.pow_le_mono_r; lia. }
    cbn [key] in *.
    destruct (Z.compare_spec ex ey) as [E|L|G].
    + subst ey. assert (Zpos mx < Zpos my) by nia. nia.
    + destruct Hny as [?|Hny]; [lia|]. rewrite Hny in Ly.
      replace (ey + 1074) with ((ex + 1074) + (ey - ex - 1) + 1) by lia.
      rewrite (Z.pow_add_r 2 (ex + 1074 + (ey - ex - 1)) 1) by lia.
      rewrite (Z.pow_add_r 2 (ex + 1074) (ey - ex - 1)) by lia.
      change (2 ^ 1) with 2.
      assert (0 < 2 ^ (ey - ex - 1)) by (apply Z.pow_pos_nonneg; lia).
      change (2 ^ 53) with (2 ^ 52 * 2) in Ux'. change (2 ^ (53 - 1)) with (2 ^ 52) in Ly.
      set (P := 2 ^ 52) in *. assert (0 < P) by reflexivity. clearbody P.
      set (A := 2 ^ (ex + 1074)) in *. set (B := 2 ^ (ey - ex - 1)) in *.
      clearbody A B. clear - Ux' Ly HP H H0.
      assert (0 < A * B) by (apply Z.mul_pos_pos; lia).
      apply Z.le_trans with (P * 2 * A). { nia. }
      apply Z.le_trans with (P * (A * B * 2)).
      { assert (A <= A * B) by nia. nia. }
      apply Z.mul_le_mono_nonneg_r; lia.
    + exfalso.
      destruct Hnx as [?|Hnx]; [lia|]. rewrite Hnx in Lx.
      pose proof (key_sep (Zpos my) ey (Zpos mx) ex ltac:(lia) Lx ltac:(lia)). lia.
Qed.

(** Monotonicity of the float operations on non-negative arguments. *)

Lemma le_nn_refl x : nonneg x = true -> le_nn x x.
Proof. intros H. repeat split; auto; lia. Qed.

Lemma le_nn_trans x y z : le_nn x y -> le_nn y z -> le_nn x z.
Proof. intros (H1 & H2 & H3) (H4 & H5 & H6). repeat split; auto; lia. Qed.

Lemma le_nn_fle x y : le_nn x y -> fle x y = true.
Proof. intros (H1 & H2 & H3). apply fle_true_key; assumption. Qed.

Lemma fle_le_nn x y : nonneg x = true -> nonneg y = true -> fle x y = true -> le_nn x y.
Proof. intros H1 H2 H3. repeat split; auto. apply fle_true_key; assumption. Qed.

Lemma fsub_le c a1 a2 :
  nonneg c = true -> not_inf c = true -> key c <= key a1 -> le_nn a1 a2 ->
  le_nn (fsub a1 c) (fsub a2 c).
Proof.
  intros Hc Hf Hca (H1 & H2 & H3).
  destruct (fsub_key a1 c H1 Hc Hf Hca) as [N1 K1].
  destruct (fsub_key a2 c H2 Hc Hf ltac:(lia)) as [N2 K2].
  repeat split; auto. rewrite K1, K2.
  pose proof (key_range c Hc). pose proof (key_range a2 H2).
  apply subk_mono; lia.
Qed.

Lemma fmul_le r x1 x2 :
  finite_pos r = true -> le_nn x1 x2 -> le_nn (fmul x1 r) (fmul x2 r).
Proof.
  intros Hr (H1 & H2 & H3).
  destruct (fmul_key x1 r H1 Hr) as [N1 K1].
  destruct (fmul_key x2 r H2 Hr) as [N2 K2].
  repeat split; auto. rewrite K1, K2.
  pose proof (key_range x1 H1). pose proof (key_range x2 H2).
  assert (0 <= key r).
  { destruct r as [| | |[] m e]; try discriminate Hr.
    pose proof (key_finite false m e Hr). lia. }
  apply mulk_mono; lia.
Qed.

Lemma fadd_le x1 x2 y1 y2 :
  le_nn x1 x2 -> le_nn y1 y2 -> le_nn (fadd x1 y1) (fadd x2 y2).
Proof.
  intros (H1 & H2 & H3) (H4 & H5 & H6).
  destruct (fadd_key x1 y1 H1 H4) as [N1 K1].
  destruct (fadd_key x2 y2 H2 H5) as [N2 K2].
  repeat split; auto. rewrite K1, K2.
  pose proof (key_range x1 H1). pose proof (key_range x2 H2).
  pose proof (key_range y1 H4). pose proof (key_range y2 H5).
  apply addk_mono; lia.
Qed.

Lemma fadd_ge_l B y :
  nonneg B = true -> not_inf B = true -> nonneg y = true -> le_nn B (fadd B y).
Proof.
  intros HB Hf Hy.
  destruct (fadd_key B y HB Hy) as [N K].
  repeat split; auto. rewrite K.
  pose proof (key_range B HB). pose proof (key_range y Hy).
  assert (E : addk (key B) 0 = key B).
  { unfold addk. rewrite (key_INF B HB), Hf. cbn [negb orb].
    pose proof INF_pos. destruct (Z.eqb_spec 0 INF); [lia|].
    rewrite Z.add_0_r. apply rndk_key_nonneg; assumption. }
  destruct (addk_mono (key B) (key B) 0 (key y)) as [L _]; lia.
Qed.

Lemma finite_pos_nonneg x : finite_pos x = true -> nonneg x = true /\ not_inf x = true.
Proof. destruct x as [| | |[] m e]; try discriminate. intros H. cbn. auto. Qed.

(** The excess over a bracket floor, times the rate, and a whole tier. *)
Lemma excess_le c r a1 a2 :
  finite_pos c = true -> finite_pos r = true -> key c <= key a1 -> le_nn a1 a2 ->
  le_nn (fmul (fsub a1 c) r) (fmul (fsub a2 c) r).
Proof.
  intros Hc Hr Hca Hle. destruct (finite_pos_nonneg c Hc).
  apply fmul_le; [assumption|]. apply fsub_le; assumption.
Qed.

Lemma tier_le B c r a1 a2 :
  finite_pos B = true -> finite_pos c = true -> finite_pos r = true ->
  key c <= key a1 -> le_nn a1 a2 ->
  le_nn (fadd B (fmul (fsub a1 c) r)) (fadd B (fmul (fsub a2 c) r)).
Proof.
  intros HB Hc Hr Hca Hle. destruct (finite_pos_nonneg B HB).
  apply fadd_le; [apply le_nn_refl; assumption|]. apply excess_le; assumption.
Qed.

Lemma tier_ge_base B c r a :
  finite_pos B = true -> finite_pos c = true -> finite_pos r = true ->
  nonneg a = true -> key c <= key a ->
  le_nn B (fadd B (fmul (fsub a c) r)).
Proof.
  intros HB Hc Hr Ha Hca. destruct (finite_pos_nonneg B HB).
  apply fadd_ge_l; try assumption.
  apply (excess_le c r a a Hc Hr Hca). apply le_nn_refl; assumption.
Qed.

End Binary64Facts.

(** * Facts about the helpers *)

Module AppFacts.
Import Binary64 Py App Brackets Binary64Facts.

(** The constants of the source: the integers convert exactly, the
    decimal literals are the nearest doubles. *)
Lemma integer_constants_exact :
  Forall (fun z => nonneg (of_Z z) = true /\ key (of_Z z) = z * 2 ^ 1074)
         [0; 12; 100; 15000; 45000; 90000; 150000;
          300000; 600000; 900000; 1200000; 1500000].
Proof.
  repeat (apply Forall_cons; [split; vm_compute; reflexivity|]).
  apply Forall_nil.
Qed.

Lemma decimal_literals_nearest :
  Forall (fun nd => nearest (literal (fst nd) (snd nd)) (fst nd) (snd nd) = true)
         [(4, 100); (5, 100); (10, 100); (15, 100); (20, 100); (30, 100);
          (40, 100); (50, 100)].
Proof.
  repeat (apply Forall_cons; [vm_compute; reflexivity|]).
  apply Forall_nil.
Qed.

Lemma boundary_keys :
  0 < key (of_Z 300000) /\
  key (of_Z 300000) < key (of_Z 600000) /\
  key (of_Z 600000) < key (of_Z 900000) /\
  key (of_Z 900000) < key (of_Z 1200000) /\
  key (of_Z 1200000) < key (of_Z 1500000).
Proof. repeat split; vm_compute; reflexivity. Qed.

Lemma base_keys :
  0 < key least_tax /\
  key least_tax < key (of_Z 15000) /\
  key (of_Z 15000) < key (of_Z 45000) /\
  key (of_Z 45000) < key (of_Z 90000) /\
  key (of_Z 90000) < key (of_Z 150000).
Proof. repeat split; vm_compute; reflexivity. Qed.

Lemma key_above_300000 :
  key above_300000 = key (of_Z 300000) + 2 ^ (-34 + 1074).
Proof. vm_compute. reflexivity. Qed.

Lemma tier_tops :
  fmul (fsub (of_Z 600000) (of_Z 300000)) (literal 5 100) = of_Z 15000 /\
  fadd (of_Z 15000) (fmul (fsub (of_Z 900000) (of_Z 600000)) (literal 10 100)) = of_Z 45000 /\
  fadd (of_Z 45000) (fmul (fsub (of_Z 1200000) (of_Z 900000)) (literal 15 100)) = of_Z 90000 /\
  fadd (of_Z 90000) (fmul (fsub (of_Z 1500000) (of_Z 1200000)) (literal 20 100)) = of_Z 150000.
Proof. repeat split; vm_compute; reflexivity. Qed.

Ltac const_ok := vm_compute; reflexivity.

Lemma new_regime_tax_bounds a :
  nonneg a = true ->
  nonneg (new_regime_tax a) = true /\
  ( (key a <= key (of_Z 300000) /\ new_regime_tax a = of_Z 0)
    \/ (key (of_Z 300000) < key a <= key (of_Z 600000) /\
        key least_tax <= key (new_regime_tax a) <= key (of_Z 15000) /\
        new_regime_tax a = fmul (fsub a (of_Z 300000)) (literal 5 100))
    \/ (key (of_Z 600000) < key a <= key (of_Z 900000) /\
        key (of_Z 15000) <= key (new_regime_tax a) <= key (of_Z 45000) /\
        new_regime_tax a =
          fadd (of_Z 15000) (fmul (fsub a (of_Z 600000)) (literal 10 100)))
    \/ (key (of_Z 900000) < key a <= key (of_Z 1200000) /\
        key (of_Z 45000) <= key (new_regime_tax a) <= key (of_Z 90000) /\
        new_regime_tax a =
          fadd (of_Z 45000) (fmul (fsub a (of_Z 900000)) (literal 15 100)))
    \/ (key (of_Z 1200000) < key a <= key (of_Z 1500000) /\
        key (of_Z 90000) <= key (new_regime_tax a) <= key (of_Z 150000) /\
        new_regime_tax a =
          fadd (of_Z 90000) (fmul (fsub a (of_Z 1200000)) (literal 20 100)))
    \/ (key (of_Z 1500000) < key a /\
        key (of_Z 150000) <= key (new_regime_tax a) /\
        new_regime_tax a =
          fadd (of_Z 150000) (fmul (fsub a (of_Z 1500000)) (literal 30 100))) ).
Proof.
  intros Ha. unfold new_regime_tax.
  pose proof boundary_keys as (K0 & K1 & K2 & K3 & K4).
  destruct tier_tops as (T2 & T3 & T4 & T5).
  assert (N1 : nonneg (of_Z 300000) = true) by const_ok.
  assert (N2 : nonneg (of_Z 600000) = true) by const_ok.
  assert (N3 : nonneg (of_Z 900000) = true) by const_ok.
  assert (N4 : nonneg (of_Z 1200000) = true) by const_ok.
  assert (N5 : nonneg (of_Z 1500000) = true) by const_ok.
  destruct (fle a (of_Z 300000)) eqn:C1.
  { apply fle_true_key in C1; [|assumption|assumption]. split; [reflexivity|]. left. auto. }
  apply fle_false_key in C1; [|assumption|assumption].
  destruct (fle a (of_Z 600000)) eqn:C2.
  { apply fle_true_key in C2; [|assumption|assumption].
    pose proof (key_succ 5153960755200000 (-34) a ltac:(const_ok) Ha C1) as S.
    change (S754_finite false 5153960755200000 (-34)) with (of_Z 300000) in S.
    assert (Hlo : le_nn least_tax (fmul (fsub a (of_Z 300000)) (literal 5 100))).
    { apply excess_le; [const_ok|const_ok|rewrite key_above_300000; lia|].
      split; [const_ok|split; [assumption|]]. rewrite key_above_300000.
      exact S. }
    assert (Hhi : le_nn (fmul (fsub a (of_Z 300000)) (literal 5 100)) (of_Z 15000)).
    { rewrite <- T2. apply excess_le; [const_ok|const_ok|lia|].
      repeat split; auto. }
    destruct Hlo as (_ & Hn & Hlo). destruct Hhi as (_ & _ & Hhi).
    split; [exact Hn|]. right. left. auto. }
  apply fle_false_key in C2; [|assumption|assumption].
  destruct (fle a (of_Z 900000)) eqn:C3.
  { apply fle_true_key in C3; [|assumption|assumption].
    assert (Hlo : le_nn (of_Z 15000)
                    (fadd (of_Z 15000) (fmul (fsub a (of_Z 600000)) (literal 10 100)))).
    { apply tier_ge_base; [const_ok|const_ok|const_ok|assumption|lia]. }
    assert (Hhi : le_nn (fadd (of_Z 15000) (fmul (fsub a (of_Z 600000)) (literal 10 100)))
                    (of_Z 45000)).
    { rewrite <- T3. apply tier_le; [const_ok|const_ok|const_ok|lia|]. repeat split; auto. }
    destruct Hlo as (_ & Hn & Hlo). destruct Hhi as (_ & _ & Hhi).
    split; [exact Hn|]. right. right. left. auto. }
  apply fle_false_key in C3; [|assumption|assumption].
  destruct (fle a (of_Z 1200000)) eqn:C4.
  { apply fle_true_key in C4; [|assumption|assumption].
    assert (Hlo : le_nn (of_Z 45000)
                    (fadd (of_Z 45000) (fmul (fsub a (of_Z 900000)) (literal 15 100)))).
    { apply tier_ge_base; [const_ok|const_ok|const_ok|assumption|lia]. }
    assert (Hhi : le_nn (fadd (of_Z 45000) (fmul (fsub a (of_Z 900000)) (literal 15 100)))
                    (of_Z 90000)).
    { rewrite <- T4. apply tier_le; [const_ok|const_ok|const_ok|lia|]. repeat split; auto. }
    destruct Hlo as (_ & Hn & Hlo). destruct Hhi as (_ & _ & Hhi).
    split; [exact Hn|]. right. right. right. left. auto. }
  apply fle_false_key in C4; [|assumption|assumption].
  destruct (fle a (of_Z 1500000)) eqn:C5.
  { apply fle_true_key in C5; [|assumption|assumption].
    assert (Hlo : le_nn (of_Z 90000)
                    (fadd (of_Z 90000) (fmul (fsub a (of_Z 1200000)) (literal 20 100)))).
    { apply tier_ge_base; [const_ok|const_ok|const_ok|assumption|lia]. }
    assert (Hhi : le_nn (fadd (of_Z 90000) (fmul (fsub a (of_Z 1200000)) (literal 20 100)))
                    (of_Z 150000)).
    { rewrite <- T5. apply tier_le; [const_ok|const_ok|const_ok|lia|]. repeat split; auto. }
    destruct Hlo as (_ & Hn & Hlo). destruct Hhi as (_ & _ & Hhi).
    split; [exact Hn|]. right. right. right. right. left. auto. }
  apply fle_false_key in C5; [|assumption|assumption].
  assert (Hlo : le_nn (of_Z 150000)
                  (fadd (of_Z 150000) (fmul (fsub a (of_Z 1500000)) (literal 30 100)))).
  { apply tier_ge_base; [const_ok|const_ok|const_ok|assumption|lia]. }
  destruct Hlo as (_ & Hn & Hlo).
  split; [exact Hn|]. right. right. right. right. right. auto.
Qed.

Lemma fmul_comm x y : fmul x y = fmul y x.
Proof.
  unfold fmul.
  destruct x as [sx|sx| |sx mx ex], y as [sy|sy| |sy my ey]; cbn [SFmul];
    rewrite ?(xorb_comm sx sy); try reflexivity.
  rewrite (Pos.mul_comm mx my), (Z.add_comm ex ey). reflexivity.
Qed.

Lemma nonneg_of_valid x : valid x = true -> fle (of_Z 0) x = true -> nonneg x = true.
Proof.
  destruct x as [s|[]| |[] m e]; cbn; intros; try reflexivity; try discriminate; assumption.
Qed.

Lemma nonneg_above x y :
  nonneg x = true -> valid y = true -> fle x y = true -> nonneg y = true.
Proof.
  destruct x as [sx|[]| |[] mx ex], y as [sy|[]| |[] my ey]; cbn;
    intros; try reflexivity; try discriminate; try assumption.
Qed.

Lemma is_zero_key x : nonneg x = true -> (is_zero x = true <-> key x = 0).
Proof.
  intros H. pose proof INF_pos.
  destruct x as [s|s| |s m e]; nonneg_cases; cbn [is_zero key];
    try (split; [reflexivity|reflexivity]).
  - split; [discriminate|lia].
  - pose proof (key_finite false m e H). cbn [key] in *. split; [discriminate|lia].
Qed.

Lemma new_regime_tax_le a1 a2 :
  le_nn a1 a2 -> le_nn (new_regime_tax a1) (new_regime_tax a2).
Proof.
  intros (H1 & H2 & Hle).
  pose proof boundary_keys as (K0 & K1 & K2 & K3 & K4).
  pose proof base_keys as (B0 & B1 & B2 & B3 & B4).
  destruct (new_regime_tax_bounds a1 H1) as [N1 D1].
  destruct (new_regime_tax_bounds a2 H2) as [N2 D2].
  split; [assumption|split; [assumption|]].
  assert (Z1 : key (of_Z 0) = 0) by reflexivity.
  destruct D1 as [(R1 & E1)|[(R1 & V1 & E1)|[(R1 & V1 & E1)|[(R1 & V1 & E1)|[(R1 & V1 & E1)|(R1 & V1 & E1)]]]]];
  destruct D2 as [(R2 & E2)|[(R2 & V2 & E2)|[(R2 & V2 & E2)|[(R2 & V2 & E2)|[(R2 & V2 & E2)|(R2 & V2 & E2)]]]]];
  try lia;
  try (rewrite E1, Z1; pose proof (key_range _ N2); lia);
  rewrite E1, E2.
  - apply excess_le; [const_ok|const_ok|lia|repeat split; auto].
  - apply tier_le; [const_ok|const_ok|const_ok|lia|repeat split; auto].
  - apply tier_le; [const_ok|const_ok|const_ok|lia|repeat split; auto].
  - apply tier_le; [const_ok|const_ok|const_ok|lia|repeat split; auto].
  - apply tier_le; [const_ok|const_ok|const_ok|lia|repeat split; auto].
Qed.

Lemma with_cess_le t1 t2 : le_nn t1 t2 -> le_nn (with_cess t1) (with_cess t2).
Proof.
  intros H. unfold with_cess. apply fadd_le; [assumption|].
  apply fmul_le; [const_ok|assumption].
Qed.

Lemma annual_le m1 m2 : le_nn m1 m2 -> le_nn (fmul m1 (of_Z 12)) (fmul m2 (of_Z 12)).
Proof. intros H. apply fmul_le; [const_ok|assumption]. Qed.

Lemma truediv_nonzero x y : is_zero y = false -> truediv x y = Return (fdiv x y).
Proof. intros H. unfold truediv. rewrite H. reflexivity. Qed.

Lemma flt_0_nonzero a : flt (of_Z 0) a = true -> is_zero a = false.
Proof. destruct a; try reflexivity. discriminate. Qed.

(** [calculate_tax] never raises: it returns this record on every float. *)
Lemma calculate_tax_returns income user_type :
  calculate_tax income user_type =
  Return
    {| annual_income := fmul income (of_Z 12);
       tax := new_regime_tax (fmul income (of_Z 12));
       cess := fmul (new_regime_tax (fmul income (of_Z 12))) (literal 4 100);
       total_tax := with_cess (new_regime_tax (fmul income (of_Z 12)));
       monthly_tax :=
         fdiv (with_cess (new_regime_tax (fmul income (of_Z 12)))) (of_Z 12);
       effective_rate :=
         if flt (of_Z 0) (fmul income (of_Z 12)) then
           fmul (fdiv (with_cess (new_regime_tax (fmul income (of_Z 12))))
                      (fmul income (of_Z 12)))
                (of_Z 100)
         else of_Z 0 |}.
Proof.
  unfold calculate_tax.
  fold (new_regime_tax (fmul income (of_Z 12))).
  fold (with_cess (new_regime_tax (fmul income (of_Z 12)))).
  rewrite (truediv_nonzero _ (of_Z 12)) by reflexivity. cbn [bind].
  destruct (flt (of_Z 0) (fmul income (of_Z 12))) eqn:Hpos.
  - rewrite truediv_nonzero by (apply flt_0_nonzero; exact Hpos). reflexivity.
  - reflexivity.
Qed.

Lemma annual_nonneg m :
  valid m = true -> fle (of_Z 0) m = true -> nonneg (fmul m (of_Z 12)) = true.
Proof.
  intros Hv H0. pose proof (nonneg_of_valid m Hv H0) as Hm.
  destruct (annual_le m m (le_nn_refl m Hm)) as (H & _). exact H.
Qed.

Lemma flt_true_key x y :
  nonneg x = true -> nonneg y = true -> (flt x y = true <-> key x < key y).
Proof. intros Hx Hy. rewrite flt_key by assumption. apply Z.ltb_lt. Qed.

Ltac keys_of_tests :=
  repeat match goal with
    | H : fle ?x ?y = true |- _ =>
      apply fle_true_key in H; [|first [assumption|const_ok]|first [assumption|const_ok]]
    | H : flt ?x ?y = true |- _ =>
      apply flt_true_key in H; [|first [assumption|const_ok]|first [assumption|const_ok]]
    end.

End AppFacts.

(** * The claims *)

Import Binary64 Py App Brackets Binary64Facts AppFacts.

(** C1.  For every monthly income [m >= 0], [calculate_tax] forms the
    annual income [a = 12 * m] and its base tax follows the six-tier
    marginal schedule of the specification: [0] up to 300000, then
    [(a - 300000) * 0.05], [15000 + (a - 600000) * 0.10],
    [45000 + (a - 900000) * 0.15], [90000 + (a - 1200000) * 0.20] and
    [150000 + (a - 1500000) * 0.30].  Every upper bound is inclusive: the
    schedule admits one tax only, so an income on a boundary is taxed in
    the lower tier. *)
Theorem calculate_tax_marginal_schedule (m : float) (u : string) :
  valid m = true -> fle (of_Z 0) m = true ->
  exists r,
    calculate_tax m u = Return r /\
    annual_income r = fmul (of_Z 12) m /\
    Spec.marginal_schedule (annual_income r) (tax r) /\
    (forall t, Spec.marginal_schedule (annual_income r) t -> t = tax r).
Proof.
  intros Hv H0. eexists. split; [apply calculate_tax_returns|].
  cbn [annual_income tax]. split; [apply fmul_comm|].
  pose proof (annual_nonneg m Hv H0) as Ha.
  set (a := fmul m (of_Z 12)) in *. clearbody a.
  pose proof boundary_keys as (K0 & K1 & K2 & K3 & K4).
  destruct (new_regime_tax_bounds a Ha) as [_ D].
  split.
  - destruct D as [(R & E)|[(R & _ & E)|[(R & _ & E)|[(R & _ & E)|[(R & _ & E)|(R & _ & E)]]]]];
      rewrite E.
    + apply Spec.tier_1. apply fle_true_key; [assumption|const_ok|lia].
    + apply Spec.tier_2; [apply flt_true_key|apply fle_true_key];
        first [assumption|lia|const_ok].
    + apply Spec.tier_3; [apply flt_true_key|apply fle_true_key];
        first [assumption|lia|const_ok].
    + apply Spec.tier_4; [apply flt_true_key|apply fle_true_key];
        first [assumption|lia|const_ok].
    + apply Spec.tier_5; [apply flt_true_key|apply fle_true_key];
        first [assumption|lia|const_ok].
    + apply Spec.tier_6. apply flt_true_key; first [assumption|lia|const_ok].
  - intros t Ht.
    destruct D as [(R & E)|[(R & _ & E)|[(R & _ & E)|[(R & _ & E)|[(R & _ & E)|(R & _ & E)]]]]];
      rewrite E; inversion Ht; keys_of_tests; try lia; reflexivity.
Qed.

Lemma calculate_tax_marginal_schedule_witness :
  exists r,
    calculate_tax (of_Z 50000) "Student" = Return r /\
    annual_income r = fmul (of_Z 12) (of_Z 50000) /\
    Spec.marginal_schedule (annual_income r) (tax r) /\
    (forall t, Spec.marginal_schedule (annual_income r) t -> t = tax r).
Proof.
  apply (calculate_tax_marginal_schedule (of_Z 50000) "Student"); reflexivity.
Defined.

(** C2.  The record returned by [calculate_tax] depends on the income
    alone: the [user_type] argument does not change it.  On the tax page
    two runs that differ only in the EPF/PPF, ELSS and LIC amounts end
    alike, both with the exception of the income input or both with the
    same session and the same results shown; the record a run stores is
    that of [calculate_tax] at the entered income, whatever the user type,
    the deductions being shown but never subtracted.  A run on the tax
    page leaves the four tables as they were. *)
Theorem calculate_tax_depends_only_on_income :
  (forall (m : float) (u1 u2 : string),
      calculate_tax m u1 = calculate_tax m u2) /\
  (forall (username : string) (users : list (string * users_row))
          (form : tax_form) (pf' elss' lic' : float)
          (backend : option string) (session : session_state),
      match tax_calculator_page username users form backend session,
            tax_calculator_page username users
              {| form_monthly_income := form_monthly_income form;
                 pf := pf'; elss := elss'; lic := lic';
                 calculate_clicked := calculate_clicked form |}
              backend session
      with
      | Return r, Return r' =>
          session_after r = session_after r' /\
          shown_tax_calculation r = shown_tax_calculation r'
      | Raise e, Raise e' => e = e'
      | _, _ => False
      end) /\
  (forall (username : string) (users : list (string * users_row))
          (form : tax_form) (backend : option string)
          (session : session_state) (r : page_run) (u : string),
      tax_calculator_page username users form backend session = Return r ->
      calculate_clicked form = true ->
      flt (of_Z 0) (form_monthly_income form) = true ->
      exists info,
        calculate_tax (form_monthly_income form) u = Return info /\
        tax_calculation (session_after r) = Some info) /\
  (forall (hash_password : string -> string) (w : Pages.widgets)
          (db : Store.database) (s : Pages.session),
      Pages.logged_in s = true ->
      Pages.sidebar_click w = None ->
      Pages.current_page s = "tax"%string ->
      fst (Pages.script hash_password w (db, s)) = db).
Proof.
  split; [reflexivity|]. split; [|split].
  - intros username users form pf' elss' lic' backend session.
    unfold tax_calculator_page.
    cbn [form_monthly_income calculate_clicked pf elss lic].
    destruct (number_input_default _) as [[]|e]; cbn [bind]; [|reflexivity].
    destruct (calculate_clicked form && flt (of_Z 0) (form_monthly_income form));
      [|split; reflexivity].
    rewrite calculate_tax_returns. cbn [bind]. split; reflexivity.
  - intros username users form backend session r u E Hc Hpos.
    unfold tax_calculator_page in E.
    destruct (number_input_default _) as [[]|e]; cbn [bind] in E; [|discriminate E].
    rewrite Hc, Hpos in E. cbn [andb] in E.
    rewrite calculate_tax_returns in E. cbn [bind] in E.
    injection E as <-. eexists. split; [apply calculate_tax_returns|reflexivity].
  - intros hash_password w db s L Cl Cp.
    unfold Pages.script. rewrite L. unfold Pages.main_app. rewrite Cl.
    cbn [Pages.sidebar_menu]. rewrite Cp.
    change (String.eqb "tax" "chatbot") with false.
    change (String.eqb "tax" "profile") with false.
    change (String.eqb "tax" "expenses") with false.
    change (String.eqb "tax" "investments") with false.
    change (String.eqb "tax" "tax") with true.
    cbn iota.
    destruct (Pages.tax_page_run _ _ _ _); reflexivity.
Qed.

Lemma calculate_tax_depends_only_on_income_witness :
  exists r info,
    tax_calculator_page "asha"
      [ ("asha"%string, {| user_type := "Student"%string; monthly_income := of_Z 50000;
                    savings_goal := of_Z 5000 |}) ]
      {| form_monthly_income := of_Z 50000; pf := of_Z 100000;
         elss := of_Z 50000; lic := of_Z 20000; calculate_clicked := true |}
      None {| tax_calculation := None; tax_tips := None |} = Return r /\
    calculate_tax (of_Z 50000) "Professional" = Return info /\
    tax_calculation (session_after r) = Some info.
Proof.
  destruct (tax_calculator_page "asha"
              [ ("asha"%string, {| user_type := "Student"%string; monthly_income := of_Z 50000;
                            savings_goal := of_Z 5000 |}) ]
              {| form_monthly_income := of_Z 50000; pf := of_Z 100000;
                 elss := of_Z 50000; lic := of_Z 20000; calculate_clicked := true |}
              None {| tax_calculation := None; tax_tips := None |})
    as [r|e] eqn:E; [|vm_compute in E; discriminate E].
  destruct (proj1 (proj2 (proj2 calculate_tax_depends_only_on_income))
              _ _ _ _ _ r "Professional"%string E eq_refl eq_refl) as (info & H1 & H2).
  exists r, info. split; [reflexivity|]. split; [exact H1|exact H2].
Defined.

(** C3.  For every monthly income [m >= 0], the cess is the base tax
    times [0.04], it is zero exactly when the base tax is zero, the total
    tax is base tax plus cess, and the monthly tax is the total divided by
    12. *)
Theorem calculate_tax_cess_total_monthly (m : float) (u : string) :
  valid m = true -> fle (of_Z 0) m = true ->
  exists r,
    calculate_tax m u = Return r /\
    cess r = fmul (tax r) (literal 4 100) /\
    (is_zero (cess r) = true <-> is_zero (tax r) = true) /\
    total_tax r = fadd (tax r) (cess r) /\
    truediv (total_tax r) (of_Z 12) = Return (monthly_tax r).
Proof.
  intros Hv H0. eexists. split; [apply calculate_tax_returns|].
  cbn [annual_income tax cess total_tax monthly_tax].
  split; [reflexivity|]. split; [|split; reflexivity].
  pose proof (annual_nonneg m Hv H0) as Ha.
  set (a := fmul m (of_Z 12)) in *. clearbody a.
  pose proof base_keys as (B0 & B1 & B2 & B3 & B4).
  destruct (new_regime_tax_bounds a Ha) as [Nt D].
  assert (L : le_nn (fmul least_tax (literal 4 100))
                    (fmul (new_regime_tax a) (literal 4 100)) \/
              new_regime_tax a = of_Z 0).
  { destruct D as [(R & E)|[(R & V & E)|[(R & V & E)|[(R & V & E)|[(R & V & E)|(R & V & E)]]]]];
      [right; exact E|left..];
      (apply fmul_le; [const_ok|]; split; [const_ok|split; [assumption|lia]]). }
  destruct L as [(_ & Nc & L)|E].
  - assert (0 < key (fmul least_tax (literal 4 100))) by const_ok.
    assert (0 < key (new_regime_tax a)).
    { destruct D as [(R & E)|[(R & V & E)|[(R & V & E)|[(R & V & E)|[(R & V & E)|(R & V & E)]]]]]; try lia.
      rewrite E in L. 
      assert (key (fmul (of_Z 0) (literal 4 100)) = 0) by const_ok. lia. }
    rewrite (is_zero_key _ Nc), (is_zero_key _ Nt). lia.
  - rewrite E. split; reflexivity.
Qed.

Lemma calculate_tax_cess_total_monthly_witness :
  exists r,
    calculate_tax (of_Z 50000) "Professional" = Return r /\
    cess r = fmul (tax r) (literal 4 100) /\
    (is_zero (cess r) = true <-> is_zero (tax r) = true) /\
    total_tax r = fadd (tax r) (cess r) /\
    truediv (total_tax r) (of_Z 12) = Return (monthly_tax r).
Proof.
  apply (calculate_tax_cess_total_monthly (of_Z 50000) "Professional"); reflexivity.
Defined.

(** C4.  For every monthly income [m >= 0], [calculate_tax] returns
    without raising; its effective rate is total tax divided by annual
    income, times 100, when the annual income is positive, and 0 when the
    annual income is 0, and one of the two cases always applies. *)
Theorem calculate_tax_effective_rate_total (m : float) (u : string) :
  valid m = true -> fle (of_Z 0) m = true ->
  exists r,
    calculate_tax m u = Return r /\
    (flt (of_Z 0) (annual_income r) = true ->
       exists q, truediv (total_tax r) (annual_income r) = Return q /\
                 effective_rate r = fmul q (of_Z 100)) /\
    (is_zero (annual_income r) = true -> effective_rate r = of_Z 0) /\
    (flt (of_Z 0) (annual_income r) = true \/ is_zero (annual_income r) = true).
Proof.
  intros Hv H0. eexists. split; [apply calculate_tax_returns|].
  cbn [annual_income total_tax effective_rate].
  pose proof (annual_nonneg m Hv H0) as Ha.
  set (a := fmul m (of_Z 12)) in *. clearbody a.
  split; [|split].
  - intros Hpos. rewrite Hpos. eexists. split; [|reflexivity].
    apply truediv_nonzero. apply flt_0_nonzero. exact Hpos.
  - intros Hz. destruct a; try discriminate Hz. reflexivity.
  - pose proof (key_range a Ha).
    destruct (Z.eq_dec (key a) 0) as [E|NE].
    + right. apply is_zero_key; assumption.
    + left. apply flt_true_key; [reflexivity|assumption|]. change (key (of_Z 0)) with 0. lia.
Qed.

Lemma calculate_tax_effective_rate_total_witness :
  exists r,
    calculate_tax (of_Z 0) "Student" = Return r /\
    (flt (of_Z 0) (annual_income r) = true ->
       exists q, truediv (total_tax r) (annual_income r) = Return q /\
                 effective_rate r = fmul q (of_Z 100)) /\
    (is_zero (annual_income r) = true -> effective_rate r = of_Z 0) /\
    (flt (of_Z 0) (annual_income r) = true \/ is_zero (annual_income r) = true).
Proof.
  apply (calculate_tax_effective_rate_total (of_Z 0) "Student"); reflexivity.
Defined.

(** C5.  At the monthly incomes 300000/12, 600000/12, 900000/12,
    1200000/12 and 1500000/12 the base tax is 0, 15000, 45000, 90000 and
    150000. *)
Theorem calculate_tax_at_boundaries (u : string) :
  (exists r, calculate_tax (fdiv (of_Z 300000) (of_Z 12)) u = Return r /\
             tax r = of_Z 0) /\
  (exists r, calculate_tax (fdiv (of_Z 600000) (of_Z 12)) u = Return r /\
             tax r = of_Z 15000) /\
  (exists r, calculate_tax (fdiv (of_Z 900000) (of_Z 12)) u = Return r /\
             tax r = of_Z 45000) /\
  (exists r, calculate_tax (fdiv (of_Z 1200000) (of_Z 12)) u = Return r /\
             tax r = of_Z 90000) /\
  (exists r, calculate_tax (fdiv (of_Z 1500000) (of_Z 12)) u = Return r /\
             tax r = of_Z 150000).
Proof.
  repeat split; (eexists; split; [apply calculate_tax_returns|]);
    cbn [tax]; vm_compute; reflexivity.
Qed.

(** C6.  The base tax, and with it the total tax, never decreases with
    the income: for monthly incomes [0 <= m1 <= m2] the base tax and the
    total tax computed for [m1] are at most those computed for [m2]. *)
Theorem calculate_tax_monotone (m1 m2 : float) (u1 u2 : string) :
  valid m1 = true -> valid m2 = true ->
  fle (of_Z 0) m1 = true -> fle m1 m2 = true ->
  exists r1 r2,
    calculate_tax m1 u1 = Return r1 /\
    calculate_tax m2 u2 = Return r2 /\
    fle (tax r1) (tax r2) = true /\
    fle (total_tax r1) (total_tax r2) = true.
Proof.
  intros Hv1 Hv2 H0 H12.
  pose proof (nonneg_of_valid m1 Hv1 H0) as N1.
  pose proof (nonneg_above m1 m2 N1 Hv2 H12) as N2.
  pose proof (fle_le_nn m1 m2 N1 N2 H12) as Hm.
  do 2 eexists. split; [apply calculate_tax_returns|].
  split; [apply calculate_tax_returns|].
  cbn [tax total_tax].
  pose proof (new_regime_tax_le _ _ (annual_le _ _ Hm)) as Ht.
  split; apply le_nn_fle; [exact Ht|apply with_cess_le; exact Ht].
Qed.

Lemma calculate_tax_monotone_witness :
  exists r1 r2,
    calculate_tax (of_Z 40000) "Student" = Return r1 /\
    calculate_tax (of_Z 90000) "Professional" = Return r2 /\
    fle (tax r1) (tax r2) = true /\
    fle (total_tax r1) (total_tax r2) = true.
Proof.
  apply (calculate_tax_monotone (of_Z 40000) (of_Z 90000) "Student" "Professional");
    reflexivity.
Defined.

(** C7, amended.  For every monthly income [m >= 0] the [annual_income]
    field is the binary64 product of 12 and [m], rounded to nearest; it is
    exactly twelve times [m] whenever that number is a binary64 number. *)
Theorem calculate_tax_annual_income (m : float) (u : string) :
  valid m = true -> fle (of_Z 0) m = true ->
  exists r,
    calculate_tax m u = Return r /\
    annual_income r = fmul (of_Z 12) m /\
    (forall y, nonneg y = true -> not_inf y = true -> key y = 12 * key m ->
               key (annual_income r) = 12 * key m).
Proof.
  intros Hv H0. pose proof (nonneg_of_valid m Hv H0) as Hm.
  eexists. split; [apply calculate_tax_returns|].
  cbn [annual_income]. split; [apply fmul_comm|].
  intros y Hy Hf Hk.
  destruct (fmul_key m (of_Z 12) Hm ltac:(const_ok)) as [_ K]. rewrite K.
  pose proof (key_range m Hm). pose proof (key_range y Hy).
  pose proof (key_INF y Hy) as Iy. rewrite Hf in Iy. cbn [negb] in Iy.
  apply Z.eqb_neq in Iy.
  unfold mulk. destruct (Z.eqb_spec (key m) INF) as [E|NE]; [lia|].
  replace (key (of_Z 12)) with (12 * 2 ^ 1074) by (symmetry; const_ok).
  rewrite Z.mul_assoc. change 1074 with (0 + 1074) at 2.
  rewrite rndk_shift by lia. rewrite (Z.mul_comm (key m) 12), <- Hk.
  apply rndk_key_nonneg; assumption.
Qed.

(** C7 as it is written fails where twelve times [m] is not a binary64
    number: at [m = 0.1], a float that is not negative, the field is
    [1.2000000000000002], which is not twelve times [m]. *)
Lemma calculate_tax_annual_income_not_exact :
  valid (literal 1 10) = true /\
  fle (of_Z 0) (literal 1 10) = true /\
  exists r,
    calculate_tax (literal 1 10) "Student" = Return r /\
    annual_income r = S754_finite false 5404319552844596 (-52) /\
    key (annual_income r) <> 12 * key (literal 1 10).
Proof.
  split; [vm_compute; reflexivity|]. split; [vm_compute; reflexivity|].
  eexists. split; [apply calculate_tax_returns|]. cbn [annual_income].
  split; [vm_compute; reflexivity|]. vm_compute. discriminate.
Qed.

Lemma calculate_tax_annual_income_witness :
  exists r,
    calculate_tax (of_Z 25000) "Student" = Return r /\
    annual_income r = fmul (of_Z 12) (of_Z 25000) /\
    key (annual_income r) = 12 * key (of_Z 25000).
Proof.
  destruct (calculate_tax_annual_income (of_Z 25000) "Student")
    as (r & Hr & Ha & Hk); [reflexivity|reflexivity|].
  exists r. split; [exact Hr|]. split; [exact Ha|].
  apply (Hk (of_Z 300000)); reflexivity.
Defined.

(** C8.  With income 0, [get_budget_summary] returns the fixed shares:
    Essentials 0.50, Education 0.30, Savings 0.20 for a Student and
    Essentials 0.40, Savings 0.20, Investments 0.20, Discretionary 0.20
    for a Professional; in both cases the shares add up to 1.0. *)
Theorem get_budget_summary_zero_income (income : float) :
  is_zero income = true ->
  get_budget_summary "Student" income = Spec.student_split /\
  get_budget_summary "Professional" income = Spec.professional_split /\
  fsum (map snd (get_budget_summary "Student" income)) = of_Z 1 /\
  fsum (map snd (get_budget_summary "Professional" income)) = of_Z 1.
Proof.
  intros Hz. destruct income; try discriminate Hz.
  repeat split; vm_compute; reflexivity.
Qed.

Lemma get_budget_summary_zero_income_witness :
  get_budget_summary "Student" (of_Z 0) = Spec.student_split /\
  get_budget_summary "Professional" (of_Z 0) = Spec.professional_split /\
  fsum (map snd (get_budget_summary "Student" (of_Z 0))) = of_Z 1 /\
  fsum (map snd (get_budget_summary "Professional" (of_Z 0))) = of_Z 1.
Proof.
  apply (get_budget_summary_zero_income (of_Z 0)). reflexivity.
Defined.

(** C9.  With a positive income, [get_budget_summary] returns each share
    of the applicable split multiplied by the income; for a Student with
    income 100000 that is Essentials 50000, Education 30000 and Savings
    20000, which add up to 100000. *)
Theorem get_budget_summary_positive_income :
  (forall (u : string) (income : float),
      flt (of_Z 0) income = true ->
      get_budget_summary u income = Spec.amounts income (Spec.split_of u)) /\
  get_budget_summary "Student" (of_Z 100000) =
    [ ("Essentials"%string, of_Z 50000);
      ("Education"%string, of_Z 30000);
      ("Savings"%string, of_Z 20000) ] /\
  fsum (map snd (get_budget_summary "Student" (of_Z 100000))) = of_Z 100000.
Proof.
  split; [|split; vm_compute; reflexivity].
  intros u income Hpos. unfold get_budget_summary, Spec.amounts, Spec.split_of.
  rewrite Hpos. destruct (String.eqb u "Student"); reflexivity.
Qed.

Lemma get_budget_summary_positive_income_witness :
  flt (of_Z 0) (of_Z 100000) = true /\
  get_budget_summary "Professional" (of_Z 100000) =
    Spec.amounts (of_Z 100000) (Spec.split_of "Professional").
Proof.
  split; [reflexivity|].
  apply (proj1 get_budget_summary_positive_income). reflexivity.
Defined.

(** C10.  Every [user_type] other than ["Student"] gets the Professional
    split, scaled by the income when it is positive, at every income; that
    result is never the Student one, which only ["Student"] selects. *)
Theorem get_budget_summary_default_split (u : string) (income : float) :
  u <> "Student"%string ->
  get_budget_summary u income =
    (if flt (of_Z 0) income
     then Spec.amounts income Spec.professional_split
     else Spec.professional_split) /\
  get_budget_summary u income <> get_budget_summary "Student" income.
Proof.
  intros Hne. apply String.eqb_neq in Hne.
  unfold get_budget_summary. rewrite Hne. cbn [String.eqb Ascii.eqb Bool.eqb].
  split; [reflexivity|].
  intros H. apply (f_equal (@List.length _)) in H.
  destruct (flt (of_Z 0) income); cbn in H; discriminate H.
Qed.

Lemma get_budget_summary_default_split_witness :
  get_budget_summary "Retired" (of_Z 100000) =
    (if flt (of_Z 0) (of_Z 100000)
     then Spec.amounts (of_Z 100000) Spec.professional_split
     else Spec.professional_split) /\
  get_budget_summary "Retired" (of_Z 100000)
    <> get_budget_summary "Student" (of_Z 100000).
Proof.
  apply (get_budget_summary_default_split "Retired" (of_Z 100000)). discriminate.
Defined.

(** * Further properties of the code

    The rest of [app.py]: the threshold and the order of the fields of
    [calculate_tax], the accounts, the pages and the runs of the script. *)

(** ** Helper lemmas on the tax *)

Module TaxFacts.

(** A product by a factor of at most one is at most the other factor;
    a difference is at most the minuend. *)
Lemma rndk_le_key M k x :
  0 <= k -> 0 <= M -> nonneg x = true -> not_inf x = true ->
  M <= key x * 2 ^ k -> rndk M k <= key x.
Proof.
  intros Hk HM Hx Hf Hle.
  pose proof (key_range x Hx).
  apply Z.le_trans with (rndk (key x * 2 ^ k) (0 + k)).
  - apply rndk_mono; [lia|]. split; [lia|]. exact Hle.
  - rewrite rndk_shift by lia. rewrite (rndk_key_nonneg x Hx Hf). lia.
Qed.

Lemma fmul_le_self x r :
  nonneg x = true -> finite_pos r = true -> key r <= 2 ^ 1074 ->
  le_nn (fmul x r) x.
Proof.
  intros Hx Hr Hk. destruct (fmul_key x r Hx Hr) as [N K].
  split; [exact N|split; [exact Hx|]]. rewrite K. unfold mulk.
  pose proof (key_range x Hx).
  rewrite (key_INF x Hx). destruct (not_inf x) eqn:Hf; cbn [negb].
  - assert (0 <= key r).
    { destruct (finite_pos_nonneg r Hr) as [Hn _]. pose proof (key_range r Hn). lia. }
    apply rndk_le_key; try lia; try assumption; nia.
  - destruct x; try discriminate Hf. cbn [key]. lia.
Qed.

Lemma fsub_le_self x c :
  nonneg x = true -> nonneg c = true -> not_inf c = true -> key c <= key x ->
  le_nn (fsub x c) x.
Proof.
  intros Hx Hc Hf Hle. destruct (fsub_key x c Hx Hc Hf Hle) as [N K].
  split; [exact N|split; [exact Hx|]]. rewrite K. unfold subk.
  pose proof (key_range x Hx). pose proof (key_range c Hc).
  rewrite (key_INF x Hx). destruct (not_inf x) eqn:Hfx; cbn [negb].
  - apply rndk_le_key; try lia; assumption.
  - destruct x; try discriminate Hfx. cbn [key]. lia.
Qed.

(** ** Negative incomes *)

Lemma round_aux_opp m e l :
  binary_round_aux prec emax true m e l =
  SFopp (binary_round_aux prec emax false m e l).
Proof.
  unfold binary_round_aux.
  destruct (shr_fexp prec emax m e l) as [mrs e'].
  destruct (shr_fexp prec emax _ e' loc_Exact) as [mrs' e''].
  destruct (shr_m mrs'); try reflexivity.
  destruct (e'' <=? emax - prec); reflexivity.
Qed.

(** The floats that are at most zero: the mirror images of the
    non-negative ones. *)
Lemma fmul_opp_l x y :
  finite_pos y = true -> fmul (SFopp x) y = SFopp (fmul x y).
Proof.
  intros Hy. destruct y as [| | |[] my ey]; try discriminate Hy.
  destruct x as [sx|sx| |sx mx ex]; cbn [SFopp fmul SFmul]; try reflexivity.
  - destruct sx; reflexivity.
  - destruct sx; reflexivity.
  - destruct sx; cbn [xorb negb]; [|apply round_aux_opp].
    rewrite round_aux_opp. destruct (binary_round_aux _ _ _ _ _ _); cbn; try reflexivity;
      destruct s; reflexivity.
Qed.

Lemma fle_opp_nonneg x c :
  nonneg x = true -> nonneg c = true -> fle (SFopp x) c = true.
Proof.
  destruct x as [sx|[]| |[] mx ex], c as [sc|[]| |[] mc ec]; cbn; intros;
    try reflexivity; try discriminate.
Qed.

Lemma flt_nonneg_opp x c :
  nonneg x = true -> nonneg c = true -> flt c (SFopp x) = false.
Proof.
  destruct x as [sx|[]| |[] mx ex], c as [sc|[]| |[] mc ec]; cbn; intros;
    try reflexivity; try discriminate.
Qed.

Lemma nonpositive_opp m :
  valid m = true -> fle m (of_Z 0) = true ->
  exists x, nonneg x = true /\ m = SFopp x.
Proof.
  intros Hv Hle.
  destruct m as [s|[]| |[] mm em]; try discriminate Hle.
  - exists (S754_zero (negb s)). split; [reflexivity|]. cbn. rewrite negb_involutive. reflexivity.
  - exists (S754_infinity false). split; reflexivity.
  - exists (S754_finite false mm em). split; [exact Hv|reflexivity].
Qed.

(** ** The threshold of the first tier *)

Lemma nonneg_or_opp m :
  valid m = true ->
  nonneg m = true \/ (exists x, nonneg x = true /\ m = SFopp x) \/ m = S754_nan.
Proof.
  intros Hv. destruct m as [s|[]| |[] mm em]; auto.
  - right. left. exists (S754_infinity false). split; reflexivity.
  - right. left. exists (S754_finite false mm em). split; [exact Hv|reflexivity].
Qed.

Lemma tax_of_nonpositive x :
  nonneg x = true ->
  new_regime_tax (fmul (SFopp x) (of_Z 12)) = of_Z 0 /\
  flt (of_Z 0) (fmul (SFopp x) (of_Z 12)) = false.
Proof.
  intros Hx. rewrite fmul_opp_l by const_ok.
  destruct (annual_le x x (le_nn_refl x Hx)) as (Ha & _).
  unfold new_regime_tax. rewrite fle_opp_nonneg by (assumption || const_ok).
  split; [reflexivity|]. apply flt_nonneg_opp; [assumption|const_ok].
Qed.

Lemma zero_tax_fields :
  fmul (of_Z 0) (literal 4 100) = of_Z 0 /\
  with_cess (of_Z 0) = of_Z 0 /\
  fdiv (of_Z 0) (of_Z 12) = of_Z 0.
Proof. repeat split; vm_compute; reflexivity. Qed.

Lemma zero_rate a :
  (if flt (of_Z 0) a then fmul (fdiv (of_Z 0) a) (of_Z 100) else of_Z 0) = of_Z 0
  \/ a = S754_infinity false.
Proof.
  destruct a as [s|[]| |[] ma ea]; cbn; auto.
Qed.

Lemma threshold_keys :
  key (fmul (of_Z 25000) (of_Z 12)) = key (of_Z 300000) /\
  key (of_Z 300000) < key (fmul above_25000 (of_Z 12)) /\
  key above_25000 = key (of_Z 25000) + 2 ^ (-38 + 1074).
Proof. repeat split; vm_compute; reflexivity. Qed.

(** ** Order between the fields *)

Lemma fadd_ge_any x y :
  nonneg x = true -> nonneg y = true -> le_nn x (fadd x y).
Proof.
  intros Hx Hy. destruct (not_inf x) eqn:Hf.
  - apply fadd_ge_l; assumption.
  - destruct (fadd_key x y Hx Hy) as [N K].
    split; [exact Hx|split; [exact N|]]. rewrite K. unfold addk.
    rewrite (key_INF x Hx), Hf. cbn [negb orb].
    pose proof (key_range x Hx). lia.
Qed.

(** ** The tax against the income *)

Lemma fmul_le_half x r :
  nonneg x = true -> not_inf x = true -> 2 ^ 53 <= key x ->
  finite_pos r = true -> key r <= 2 ^ 1073 ->
  2 * key (fmul x r) <= key x.
Proof.
  intros Hx Hf Hbig Hr Hk.
  destruct (fmul_key x r Hx Hr) as [_ K]. rewrite K. unfold mulk.
  rewrite (key_INF x Hx), Hf. cbn [negb].
  destruct x as [s|s| |s mx ex]; nonneg_cases; try discriminate Hf.
  { exfalso. cbn [key] in Hbig. assert (0 < 2 ^ 53) by reflexivity. lia. }
  pose proof (bounded_facts mx ex Hx) as (Hex & Hdx & Hnx).
  pose proof (digits_bounds (Zpos mx) ltac:(lia)) as [_ U].
  assert (U' : Zpos mx < 2 ^ 53).
  { eapply Z.lt_le_trans; [exact U|]. apply Z.pow_le_mono_r; lia. }
  assert (He : -1074 < ex).
  { destruct (Z.eq_dec ex (-1074)) as [->|]; [|lia].
    cbn [key] in Hbig. change (2 ^ (-1074 + 1074)) with 1 in Hbig. lia. }
  assert (Hh : bounded prec emax mx (ex - 1) = true).
  { apply bounded_spec. rewrite fexp_eq. lia. }
  assert (Kh : key (S754_finite false mx ex) = 2 * key (S754_finite false mx (ex - 1))).
  { cbn [key]. replace (ex + 1074) with (1 + (ex - 1 + 1074)) by lia.
    rewrite Z.pow_add_r by lia. change (2 ^ 1) with 2. ring. }
  pose proof (key_finite false mx (ex - 1) Hh) as Rh.
  assert (0 <= key r).
  { destruct (finite_pos_nonneg r Hr) as [Hn _]. pose proof (key_range r Hn). lia. }
  assert (rndk (key (S754_finite false mx ex) * key r) 1074
          <= key (S754_finite false mx (ex - 1))); [|lia].
  apply rndk_le_key; try lia; try reflexivity.
  - cbn [nonneg negb andb]. exact Hh.
  - rewrite Kh.
    change (2 ^ 1074) with (2 * 2 ^ 1073).
    set (T := 2 ^ 1073) in *. clearbody T.
    set (h := key (S754_finite false mx (ex - 1))) in *. clearbody h. nia.
Qed.

Lemma tier_le_income B c r a :
  finite_pos B = true -> finite_pos c = true -> finite_pos r = true ->
  key r <= 2 ^ 1073 -> 2 * key B <= key c -> key B + 2 ^ 53 <= key c ->
  nonneg a = true -> key c < key a ->
  key (fadd B (fmul (fsub a c) r)) <= key a.
Proof.
  intros HB Hc Hr Hk H2 H53 Ha Hca.
  destruct (finite_pos_nonneg B HB) as [NB FB].
  destruct (finite_pos_nonneg c Hc) as [Nc Fc].
  destruct (fsub_le_self a c Ha Nc Fc ltac:(lia)) as (Nx & _ & Kx).
  assert (Hr1 : key r <= 2 ^ 1074).
  { assert (2 ^ 1073 <= 2 ^ 1074) by (apply Z.pow_le_mono_r; lia). lia. }
  destruct (fmul_le_self (fsub a c) r Nx Hr Hr1) as (Np & _ & Kp).
  destruct (fadd_key B (fmul (fsub a c) r) NB Np) as [Nt Kt].
  pose proof (key_range a Ha) as Ra.
  pose proof (key_range _ Nt) as Rt.
  pose proof (key_range _ Np) as Rp.
  pose proof (key_range B NB) as RB.
  destruct (not_inf a) eqn:Fa.
  2:{ destruct a; try discriminate Fa. cbn [key]. lia. }
  pose proof (key_INF a Ha) as Ia. rewrite Fa in Ia. cbn [negb] in Ia.
  apply Z.eqb_neq in Ia.
  pose proof (key_INF B NB) as IB. rewrite FB in IB. cbn [negb] in IB.
  rewrite Kt. unfold addk. rewrite IB.
  destruct (Z.eqb_spec (key (fmul (fsub a c) r)) INF) as [E|NE]; [lia|].
  cbn [orb].
  apply rndk_le_key; try lia; try assumption.
  change (2 ^ 0) with 1. rewrite Z.mul_1_r.
  destruct (Z_lt_le_dec (key (fsub a c)) (2 ^ 53)) as [Small|Big].
  - lia.
  - assert (Fx : not_inf (fsub a c) = true).
    { pose proof (key_INF _ Nx) as Ix.
      destruct (not_inf (fsub a c)); [reflexivity|].
      cbn [negb] in Ix. apply Z.eqb_eq in Ix. lia. }
    pose proof (fmul_le_half (fsub a c) r Nx Fx Big Hr Hk). lia.
Qed.

Lemma tier_constants :
  (key (literal 10 100) <=? 2 ^ 1073) = true /\
  (key (literal 15 100) <=? 2 ^ 1073) = true /\
  (key (literal 20 100) <=? 2 ^ 1073) = true /\
  (key (literal 30 100) <=? 2 ^ 1073) = true /\
  (key (literal 5 100) <=? 2 ^ 1074) = true /\
  (2 * key (of_Z 150000) + 2 ^ 53 <=? key (of_Z 600000)) = true.
Proof. repeat split; vm_compute; reflexivity. Qed.

Lemma share_of_income share income :
  nonneg income = true -> finite_pos share = true -> key share <= 2 ^ 1074 ->
  fle (of_Z 0) (fmul share income) = true /\
  fle (fmul share income) income = true.
Proof.
  intros Hi Hs Hk. rewrite fmul_comm.
  destruct (fmul_le_self income share Hi Hs Hk) as (N & _ & K).
  split; apply fle_true_key; try assumption; try reflexivity.
  change (key (of_Z 0)) with 0. pose proof (key_range _ N). lia.
Qed.

End TaxFacts.

Import TaxFacts.

(** ** The tax *)

(** X1.  [calculate_tax] charges nothing up to 25000 a month: for every
    monthly income of at most 25000, negative ones included, the tax, the
    cess, the total, the monthly tax and the effective rate are all [0];
    for every income above 25000 the tax is above zero. *)
Theorem tax_free_threshold (m : float) (u : string) :
  valid m = true ->
  exists r,
    calculate_tax m u = Return r /\
    (fle m (of_Z 25000) = true ->
       tax r = of_Z 0 /\ cess r = of_Z 0 /\ total_tax r = of_Z 0 /\
       monthly_tax r = of_Z 0 /\ effective_rate r = of_Z 0) /\
    (flt (of_Z 25000) m = true -> flt (of_Z 0) (tax r) = true).
Proof.
  intros Hv. eexists. split; [apply calculate_tax_returns|].
  cbn [tax cess total_tax monthly_tax effective_rate].
  destruct zero_tax_fields as (Z1 & Z2 & Z3).
  destruct threshold_keys as (K1 & K2 & K3).
  pose proof boundary_keys as (B0 & _).
  pose proof base_keys as (L0 & _).
  destruct (nonneg_or_opp m Hv) as [Hm|[(x & Hx & ->)| ->]].
  - assert (N25 : nonneg (of_Z 25000) = true) by const_ok.
    split.
    + intros Hle. apply fle_true_key in Hle; [|assumption|assumption].
      destruct (annual_le m (of_Z 25000)) as (Na & _ & Ka); [repeat split; assumption|].
      set (a := fmul m (of_Z 12)) in *. clearbody a.
      destruct (new_regime_tax_bounds a Na) as [_ D].
      assert (E : new_regime_tax a = of_Z 0).
      { destruct D as [(R & E)|[(R & _)|[(R & _)|[(R & _)|[(R & _)|(R & _)]]]]];
          [exact E|pose proof boundary_keys; lia..]. }
      rewrite E, Z1, Z2, Z3. repeat split.
      destruct (zero_rate a) as [Hr| ->]; [exact Hr|].
      exfalso. change (key (S754_infinity false)) with INF in Ka.
      assert (key (of_Z 300000) < INF) by const_ok. lia.
    + intros Hlt. apply flt_true_key in Hlt; [|assumption|assumption].
      pose proof (key_succ 6871947673600000 (-38) m ltac:(const_ok) Hm Hlt) as S.
      change (S754_finite false 6871947673600000 (-38)) with (of_Z 25000) in S.
      destruct (annual_le above_25000 m) as (_ & Na & Ka).
      { split; [const_ok|split; [assumption|lia]]. }
      set (a := fmul m (of_Z 12)) in *. clearbody a.
      destruct (new_regime_tax_bounds a Na) as [Nt D].
      apply flt_true_key; [reflexivity|assumption|].
      change (key (of_Z 0)) with 0.
      pose proof base_keys.
      destruct D as [(R & E)|[(R & V & _)|[(R & V & _)|[(R & V & _)|[(R & V & _)|(R & V & _)]]]]];
        lia.
  - destruct (tax_of_nonpositive x Hx) as [E F]. rewrite E, F, Z1, Z2, Z3.
    split; [intros _; repeat split|].
    intros Hlt. rewrite flt_nonneg_opp in Hlt by (assumption || const_ok). discriminate.
  - split; intros H; discriminate H.
Qed.

Lemma tax_free_threshold_witness :
  exists r,
    calculate_tax (of_Z 20000) "Student" = Return r /\
    tax r = of_Z 0 /\ effective_rate r = of_Z 0.
Proof.
  destruct (tax_free_threshold (of_Z 20000) "Student") as (r & Hr & H & _);
    [reflexivity|].
  exists r. split; [exact Hr|]. destruct H as (A & _ & _ & _ & B); [reflexivity|].
  split; assumption.
Defined.

(** X2.  For an income that is not negative, the fields of the record
    are ordered: 0 <= cess <= tax <= total_tax. *)
Theorem tax_fields_ordered (m : float) (u : string) :
  valid m = true -> fle (of_Z 0) m = true ->
  exists r,
    calculate_tax m u = Return r /\
    fle (of_Z 0) (cess r) = true /\
    fle (cess r) (tax r) = true /\
    fle (tax r) (total_tax r) = true.
Proof.
  intros Hv H0. eexists. split; [apply calculate_tax_returns|].
  cbn [tax cess total_tax].
  pose proof (annual_nonneg m Hv H0) as Ha.
  set (a := fmul m (of_Z 12)) in *. clearbody a.
  destruct (new_regime_tax_bounds a Ha) as [Nt _].
  set (t := new_regime_tax a) in *. clearbody t.
  pose proof (fmul_le_self t (literal 4 100) Nt ltac:(const_ok)
                ltac:(apply Z.leb_le; const_ok)) as Hc.
  destruct Hc as (Nc & _ & Hc).
  split; [|split].
  - apply fle_true_key; [reflexivity|assumption|].
    change (key (of_Z 0)) with 0. pose proof (key_range _ Nc). lia.
  - apply fle_true_key; assumption.
  - apply le_nn_fle. unfold with_cess. apply fadd_ge_any; assumption.
Qed.

Lemma tax_fields_ordered_witness :
  exists r,
    calculate_tax (of_Z 80000) "Professional" = Return r /\
    fle (of_Z 0) (cess r) = true /\
    fle (cess r) (tax r) = true /\
    fle (tax r) (total_tax r) = true.
Proof.
  apply (tax_fields_ordered (of_Z 80000) "Professional"); reflexivity.
Defined.

(** X3.  For an income that is not negative, the tax before cess never
    exceeds the annual income. *)
Theorem tax_at_most_income (m : float) (u : string) :
  valid m = true -> fle (of_Z 0) m = true ->
  exists r,
    calculate_tax m u = Return r /\
    fle (tax r) (annual_income r) = true.
Proof.
  intros Hv H0. eexists. split; [apply calculate_tax_returns|].
  cbn [tax annual_income].
  pose proof (annual_nonneg m Hv H0) as Ha.
  set (a := fmul m (of_Z 12)) in *. clearbody a.
  destruct tier_constants as (R10 & R15 & R20 & R30 & R5 & C).
  apply Z.leb_le in R10, R15, R20, R30, R5, C.
  pose proof boundary_keys as (K0 & K1 & K2 & K3 & K4).
  pose proof base_keys as (B0 & B1 & B2 & B3 & B4).
  pose proof (key_range a Ha) as Ra.
  destruct (new_regime_tax_bounds a Ha) as [Nt D].
  apply fle_true_key; [assumption|assumption|].
  destruct D as [(R & E)|[(R & _ & E)|[(R & _ & E)|[(R & _ & E)|[(R & _ & E)|(R & _ & E)]]]]];
    rewrite E.
  - change (key (of_Z 0)) with 0. lia.
  - destruct (fsub_le_self a (of_Z 300000) Ha ltac:(const_ok) ltac:(const_ok) ltac:(lia))
      as (Nx & _ & Kx).
    destruct (fmul_le_self (fsub a (of_Z 300000)) (literal 5 100) Nx ltac:(const_ok) R5)
      as (_ & _ & Kp).
    lia.
  - apply tier_le_income; first [assumption|lia|const_ok].
  - apply tier_le_income; first [assumption|lia|const_ok].
  - apply tier_le_income; first [assumption|lia|const_ok].
  - apply tier_le_income; first [assumption|lia|const_ok].
Qed.

Lemma tax_at_most_income_witness :
  exists r,
    calculate_tax (of_Z 200000) "Professional" = Return r /\
    fle (tax r) (annual_income r) = true.
Proof.
  apply (tax_at_most_income (of_Z 200000) "Professional"); reflexivity.
Defined.

(** X4.  The Section 80C total that a run of [tax_calculator_page]
    shows is capped: whenever the run gets past the income input, the
    total is [min(pf + elss + lic, 150000)], and for three amounts that are
    not negative it lies between 0 and 150000. *)
Theorem total_80c_capped (username : string) (users : list (string * users_row))
    (form : tax_form) (backend : option string) (session : session_state)
    (r : page_run) :
  nonneg (pf form) = true -> nonneg (elss form) = true -> nonneg (lic form) = true ->
  tax_calculator_page username users form backend session = Return r ->
  shown_total_80c r =
    fmin (fadd (fadd (pf form) (elss form)) (lic form)) (of_Z 150000) /\
  fle (of_Z 0) (shown_total_80c r) = true /\
  fle (shown_total_80c r) (of_Z 150000) = true.
Proof.
  intros H1 H2 H3 E.
  assert (Es : shown_total_80c r =
               fmin (fadd (fadd (pf form) (elss form)) (lic form)) (of_Z 150000)).
  { unfold tax_calculator_page in E.
    destruct (number_input_default _) as [[]|e]; cbn [bind] in E; [|discriminate E].
    destruct (calculate_clicked form && flt (of_Z 0) (form_monthly_income form)).
    - rewrite calculate_tax_returns in E. cbn [bind] in E.
      injection E as <-. reflexivity.
    - injection E as <-. reflexivity. }
  split; [exact Es|]. rewrite Es.
  destruct (fadd_key (pf form) (elss form) H1 H2) as [N12 _].
  destruct (fadd_key _ (lic form) N12 H3) as [N _].
  set (s := fadd (fadd (pf form) (elss form)) (lic form)) in *. clearbody s.
  assert (Nc : nonneg (of_Z 150000) = true) by const_ok.
  unfold fmin. rewrite (flt_key _ _ Nc N).
  destruct (Z.ltb_spec (key (of_Z 150000)) (key s)).
  - split; reflexivity.
  - split; apply fle_true_key; try assumption; try reflexivity.
    change (key (of_Z 0)) with 0. pose proof (key_range s N). lia.
Qed.

Lemma total_80c_capped_witness :
  exists r,
    tax_calculator_page "asha"
      [ ("asha"%string, {| user_type := "Student"%string; monthly_income := of_Z 50000;
                           savings_goal := of_Z 5000 |}) ]
      {| form_monthly_income := of_Z 50000; pf := of_Z 100000;
         elss := of_Z 80000; lic := of_Z 20000; calculate_clicked := false |}
      None {| tax_calculation := None; tax_tips := None |} = Return r /\
    shown_total_80c r = of_Z 150000.
Proof.
  destruct (tax_calculator_page "asha"
              [ ("asha"%string, {| user_type := "Student"%string;
                                   monthly_income := of_Z 50000;
                                   savings_goal := of_Z 5000 |}) ]
              {| form_monthly_income := of_Z 50000; pf := of_Z 100000;
                 elss := of_Z 80000; lic := of_Z 20000; calculate_clicked := false |}
              None {| tax_calculation := None; tax_tips := None |})
    as [r|e] eqn:E; [|vm_compute in E; discriminate E].
  exists r. split; [reflexivity|].
  destruct (total_80c_capped _ _
              {| form_monthly_income := of_Z 50000; pf := of_Z 100000;
                 elss := of_Z 80000; lic := of_Z 20000; calculate_clicked := false |}
              _ _ r eq_refl eq_refl eq_refl E) as (Es & _).
  rewrite Es. vm_compute. reflexivity.
Defined.

(** ** Helper lemmas on the tables *)

Module StoreFacts.
Import Store Pages.
Local Open Scope string_scope.
Local Open Scope list_scope.


(** * The users table *)

Lemma has_username_true username r : has_username username r = true <-> fst r = username.
Proof. unfold has_username. apply String.eqb_eq. Qed.

Lemma existsb_has_username username (t : users) :
  existsb (has_username username) t = true <-> In username (map fst t).
Proof.
  rewrite existsb_exists, in_map_iff. split.
  - intros (r & Hin & Hr). exists r. split; [apply has_username_true; exact Hr|exact Hin].
  - intros (r & Hr & Hin). exists r. split; [exact Hin|apply has_username_true; exact Hr].
Qed.

Lemma find_absent username (t : users) :
  ~ In username (map fst t) -> find (has_username username) t = None.
Proof.
  intros H. destruct (find (has_username username) t) as [r|] eqn:F; [|reflexivity].
  apply find_some in F. destruct F as [Hin Hr]. exfalso. apply H.
  apply in_map_iff. exists r. split; [apply has_username_true; exact Hr|exact Hin].
Qed.

Lemma find_present username (t : users) :
  In username (map fst t) ->
  exists rec, find (has_username username) t = Some (username, rec).
Proof.
  induction t as [|[u rec] t IH]; cbn [map In find]; [tauto|].
  intros [E|Hin].
  - cbn [fst] in E. subst u. exists rec. unfold has_username at 1. cbn [fst].
    rewrite String.eqb_refl. reflexivity.
  - unfold has_username at 1. cbn [fst].
    destruct (String.eqb_spec u username) as [->|NE].
    + exists rec. reflexivity.
    + apply IH. exact Hin.
Qed.

Lemma find_app (username : string) (t1 t2 : users) :
  find (has_username username) (t1 ++ t2) =
  match find (has_username username) t1 with
  | Some r => Some r
  | None => find (has_username username) t2
  end.
Proof.
  induction t1 as [|r t1 IH]; cbn [app find]; [reflexivity|].
  destruct (has_username username r); [reflexivity|exact IH].
Qed.

Lemma find_snoc_other (other username : string) (rec : users_record) (t : users) :
  username <> other ->
  find (has_username other) (t ++ [(username, rec)]) = find (has_username other) t.
Proof.
  intros NE. rewrite find_app. destruct (find (has_username other) t); [reflexivity|].
  cbn [find]. unfold has_username. cbn [fst].
  destruct (String.eqb_spec username other); [congruence|reflexivity].
Qed.

Section AccountsFacts.

Variable hash_password : string -> string.

Lemma register_user_spec username password user_type now (t : users) :
  register_user hash_password username password user_type now t =
  if existsb (has_username username) t then (false, t)
  else
    (true,
     t ++ [ (username,
             {| row_password_hash := hash_password password;
                row_created_at := now;
                row_user_type := user_type;
                row_monthly_income := Some (of_Z 0);
                row_savings_goal := Some (of_Z 0) |}) ]).
Proof. reflexivity. Qed.

Lemma validate_user_registered username password (t : users) :
  validate_user hash_password username password t = true -> In username (map fst t).
Proof.
  unfold validate_user.
  destruct (find (has_username username) t) as [r|] eqn:F; [|discriminate].
  intros _. apply find_some in F. destruct F as [Hin Hr].
  apply has_username_true in Hr. subst username. apply in_map. exact Hin.
Qed.

Lemma register_user_keys username password user_type now (t : users) :
  NoDup (map fst t) ->
  NoDup (map fst (snd (register_user hash_password username password user_type now t))).
Proof.
  intros Hnd. rewrite register_user_spec.
  destruct (existsb (has_username username) t) eqn:Ex; cbn [snd]; [exact Hnd|].
  assert (Habs : ~ In username (map fst t)).
  { intros Hin. apply (existsb_has_username username t) in Hin. congruence. }
  rewrite map_app. cbn [map fst].
  apply NoDup_app; [exact Hnd|apply NoDup_cons; [intros []|apply NoDup_nil]|].
  intros x Hin1 [E|[]]. subst x. exact (Habs Hin1).
Qed.

Lemma register_user_types username password user_type now (t : users) :
  In user_type profile_types ->
  Forall (fun r => In (row_user_type (snd r)) profile_types) t ->
  Forall (fun r => In (row_user_type (snd r)) profile_types)
         (snd (register_user hash_password username password user_type now t)).
Proof.
  intros Hty Hall. rewrite register_user_spec.
  destruct (existsb (has_username username) t); cbn [snd]; [exact Hall|].
  apply Forall_app. split; [exact Hall|].
  apply Forall_cons; [exact Hty|apply Forall_nil].
Qed.

Lemma find_update other username user_type income goal (t : users) :
  find (has_username other) (update_user_profile username user_type income goal t) =
  option_map (updated_row username user_type income goal)
             (find (has_username other) t).
Proof.
  unfold update_user_profile.
  induction t as [|r t IH]; [reflexivity|]. cbn [map find].
  assert (E : has_username other (updated_row username user_type income goal r)
              = has_username other r).
  { unfold updated_row. destruct (has_username username r); reflexivity. }
  rewrite E. destruct (has_username other r); [reflexivity|exact IH].
Qed.

Lemma validate_update other p username user_type income goal (t : users) :
  validate_user hash_password other p
    (update_user_profile username user_type income goal t) =
  validate_user hash_password other p t.
Proof.
  unfold validate_user. rewrite find_update.
  destruct (find (has_username other) t) as [r|]; [|reflexivity].
  cbn [option_map]. unfold updated_row.
  destruct (has_username username r); reflexivity.
Qed.

Lemma validate_register other p username password user_type now (t : users) :
  In other (map fst t) ->
  validate_user hash_password other p
    (snd (register_user hash_password username password user_type now t)) =
  validate_user hash_password other p t.
Proof.
  intros Hin. rewrite register_user_spec.
  destruct (existsb (has_username username) t) eqn:Ex; cbn [snd]; [reflexivity|].
  assert (NE : username <> other).
  { intros ->. apply (existsb_has_username other t) in Hin. congruence. }
  unfold validate_user. rewrite find_snoc_other by exact NE. reflexivity.
Qed.

Lemma get_user_profile_register other username password user_type now (t : users) :
  In other (map fst t) ->
  Store.get_user_profile other
    (snd (register_user hash_password username password user_type now t)) =
  Store.get_user_profile other t.
Proof.
  intros Hin. rewrite register_user_spec.
  destruct (existsb (has_username username) t) eqn:Ex; cbn [snd]; [reflexivity|].
  assert (NE : username <> other).
  { intros ->. apply (existsb_has_username other t) in Hin. congruence. }
  unfold Store.get_user_profile. rewrite find_snoc_other by exact NE. reflexivity.
Qed.

Lemma register_user_incl username password user_type now (t : users) :
  incl (map fst t)
       (map fst (snd (register_user hash_password username password user_type now t))).
Proof.
  rewrite register_user_spec.
  destruct (existsb (has_username username) t); cbn [snd]; [apply incl_refl|].
  rewrite map_app. apply incl_appl. apply incl_refl.
Qed.

End AccountsFacts.

Lemma keys_update username user_type income goal (t : users) :
  map fst (update_user_profile username user_type income goal t) = map fst t.
Proof.
  unfold update_user_profile. rewrite map_map. apply map_ext.
  intros r. unfold updated_row. destruct (has_username username r); reflexivity.
Qed.

Lemma types_update username user_type income goal (t : users) :
  In user_type profile_types ->
  Forall (fun r => In (row_user_type (snd r)) profile_types) t ->
  Forall (fun r => In (row_user_type (snd r)) profile_types)
         (update_user_profile username user_type income goal t).
Proof.
  intros Hty H. unfold update_user_profile. apply Forall_map.
  eapply Forall_impl; [|exact H]. intros r Hr. unfold updated_row.
  destruct (has_username username r); [exact Hty|exact Hr].
Qed.

Lemma profile_of_other_after_update username other user_type income goal (t : users) :
  other <> username ->
  Store.get_user_profile other (update_user_profile username user_type income goal t) =
  Store.get_user_profile other t.
Proof.
  intros NE. unfold Store.get_user_profile. rewrite find_update.
  destruct (find (has_username other) t) as [r|] eqn:F; [|reflexivity].
  cbn [option_map]. apply find_some in F. destruct F as [_ Hr].
  apply has_username_true in Hr.
  unfold updated_row, has_username.
  destruct (String.eqb_spec (fst r) username); [congruence|reflexivity].
Qed.

Lemma update_absent username user_type income goal (t : users) :
  ~ In username (map fst t) ->
  update_user_profile username user_type income goal t = t.
Proof.
  intros H. unfold update_user_profile. rewrite <- (map_id t) at 2.
  apply map_ext_in. intros r Hin. unfold updated_row.
  destruct (has_username username r) eqn:E; [|reflexivity].
  exfalso. apply H. apply has_username_true in E. subst username.
  apply in_map. exact Hin.
Qed.

Lemma positive_to_real x : flt (of_Z 0) x = true -> above_zero (to_real x) = true.
Proof. destruct x; try discriminate; intros H; exact H. Qed.

(** [App.get_user_profile] on the projected table is [get_user_profile] on
    the table. *)
Lemma profiles_get_user_profile username (t : users) :
  App.get_user_profile username (profiles t) = Store.get_user_profile username t.
Proof.
  unfold App.get_user_profile, Store.get_user_profile, profiles.
  induction t as [|r t IH]; [reflexivity|]. cbn [map find fst].
  unfold has_username at 1. destruct (String.eqb (fst r) username).
  - reflexivity.
  - apply IH.
Qed.

Lemma profile_type_known username (t : users) :
  Forall (fun r => In (row_user_type (snd r)) profile_types) t ->
  In (user_type (Store.get_user_profile username t)) profile_types.
Proof.
  intros H. unfold Store.get_user_profile.
  destruct (find (has_username username) t) as [r|] eqn:F; cbn [user_type].
  - apply find_some in F. destruct F as [Hin _].
    rewrite Forall_forall in H. exact (H r Hin).
  - left. reflexivity.
Qed.

End StoreFacts.

(** ** Helper lemmas on the pages *)

Module PagesFacts.
Import Store Pages StoreFacts.
Local Open Scope string_scope.
Local Open Scope list_scope.

(** * The login page *)

Lemma lstrip_nil l : lstrip l = [] <-> forallb isspace l = true.
Proof.
  induction l as [|c l IH]; cbn [lstrip forallb]; [tauto|].
  destruct (isspace c); cbn [andb]; [exact IH|]. split; discriminate.
Qed.

Lemma lstrip_not_blank l : lstrip l <> [] -> forallb isspace (lstrip l) = false.
Proof.
  induction l as [|c l IH]; cbn [lstrip]; [congruence|].
  destruct (isspace c) eqn:E; [exact IH|]. intros _. cbn [forallb]. rewrite E. reflexivity.
Qed.

Lemma forallb_rev {A} (f : A -> bool) l : forallb f (rev l) = forallb f l.
Proof.
  induction l as [|x l IH]; [reflexivity|]. cbn [rev forallb].
  rewrite forallb_app, IH. cbn [forallb]. destruct (f x), (forallb f l); reflexivity.
Qed.

Lemma strip_blank s :
  strip s = ""%string <-> forallb isspace (list_ascii_of_string s) = true.
Proof.
  unfold strip. set (l := list_ascii_of_string s).
  split.
  - intros H. apply (f_equal list_ascii_of_string) in H.
    rewrite list_ascii_of_string_of_list_ascii in H. cbn in H.
    apply (f_equal (@rev _)) in H. rewrite rev_involutive in H. cbn in H.
    apply lstrip_nil in H. rewrite forallb_rev in H.
    destruct (lstrip l) as [|c l'] eqn:E; [apply lstrip_nil; exact E|].
    rewrite <- E in H. rewrite lstrip_not_blank in H; [discriminate|congruence].
  - intros H. apply lstrip_nil in H. rewrite H. reflexivity.
Qed.

(** *** The select boxes *)

Lemma offers_In options x : offers options x = true -> In x options.
Proof.
  unfold offers. intros H. apply existsb_exists in H. destruct H as (y & Hin & E).
  apply String.eqb_eq in E. subst y. exact Hin.
Qed.

Lemma offered_spec w :
  offered w = true ->
  (forall u p ty, login_inputs w = RegisterButton u p ty -> In ty profile_types) /\
  In (chosen_user_type (profile_inputs w)) profile_types /\
  In (expense_category (expense_inputs w)) expense_categories /\
  In (chosen_investment_type (investment_inputs w)) investment_types.
Proof.
  unfold offered. intros H.
  apply andb_prop in H. destruct H as [H H4].
  apply andb_prop in H. destruct H as [H H3].
  apply andb_prop in H. destruct H as [H1 H2].
  repeat split; try (apply offers_In; assumption).
  intros u p ty E. rewrite E in H1. apply offers_In in H1.
  destruct H1 as [<-|[<-|[]]]; [left|right; left]; reflexivity.
Qed.

Lemma index_in x l : In x l -> exists i, index x l = Some i /\ nth_error l i = Some x.
Proof.
  induction l as [|y l IH]; [intros []|]. intros Hin. cbn [index].
  destruct (String.eqb_spec y x) as [->|NE].
  - exists O. split; reflexivity.
  - destruct Hin as [E|Hin]; [congruence|].
    destruct (IH Hin) as (i & Hi & Hn). rewrite Hi. exists (S i).
    split; [reflexivity|exact Hn].
Qed.

(** *** The pages, one at a time *)

Lemma main_app_called click s s1 p :
  main_app click s = (s1, Some p) -> click = None /\ s1 = s.
Proof.
  unfold main_app. destruct click as [[]|]; cbn; intros H; inversion H; auto.
Qed.

Lemma main_app_rerun click s s1 :
  main_app click s = (s1, None) ->
  In (current_page s) page_names ->
  In (current_page s1) page_names /\
  tax_session s1 = tax_session s /\
  (logged_in s1 = true -> logged_in s = true /\ username s1 = username s).
Proof.
  unfold main_app. destruct click as [[]|]; cbn; intros H; inversion H; subst;
    cbn; intuition (auto; discriminate).
Qed.

Lemma profile_page_users form (t : users) s :
  fst (profile_page form t s) = t \/
  fst (profile_page form t s) =
    update_user_profile (username s) (chosen_user_type form)
      (entered_income form) (entered_savings_goal form) t.
Proof.
  unfold profile_page. cbn zeta.
  destruct (index _ profile_types); [|left; reflexivity].
  destruct (_ <- number_input_default _ ;; number_input_default _);
    [|left; reflexivity].
  destruct (update_clicked form); [right|left]; reflexivity.
Qed.

Lemma expense_tracker_page_rows form today (t : list expense_row) s :
  expense_tracker_page form today t s = t \/
  flt (of_Z 0) (expense_amount form) = true /\
  expense_tracker_page form today t s =
    t ++ [ {| expense_username := username s;
              category := expense_category form;
              amount := to_real (expense_amount form);
              description := expense_description form;
              date := today |} ].
Proof.
  unfold expense_tracker_page.
  destruct (add_expense_clicked form); [|left; reflexivity].
  destruct (flt (of_Z 0) (expense_amount form)); [|left; reflexivity].
  right. split; reflexivity.
Qed.

Lemma investment_page_rows form today (t : list investment_row) s :
  investment_page form today t s = t \/
  flt (of_Z 0) (amount_invested form) = true /\
  investment_page form today t s =
    t ++ [ {| investment_username := username s;
              investment_type := chosen_investment_type form;
              invested := to_real (amount_invested form);
              returns := to_real (current_returns form);
              date_invested := today |} ].
Proof.
  unfold investment_page.
  destruct (add_investment_clicked form); [|left; reflexivity].
  destruct (flt (of_Z 0) (amount_invested form)); [|left; reflexivity].
  right. split; reflexivity.
Qed.

Lemma chatbot_page_rows input backend now db s :
  let st' := chatbot_page input backend now db s in
  users_table (fst st') = users_table db /\
  expenses (fst st') = expenses db /\
  investments (fst st') = investments db /\
  (chat_history (fst st') = chat_history db \/
   exists row, chat_username row = username s /\
               chat_history (fst st') = chat_history db ++ [row]) /\
  logged_in (snd st') = logged_in s /\
  username (snd st') = username s /\
  current_page (snd st') = current_page s /\
  tax_session (snd st') = tax_session s.
Proof.
  unfold chatbot_page.
  destruct input as [[|c text]|]; [| |]; try (cbn; repeat split; auto; fail).
  destruct backend as [response|]; cbn [fst snd users_table expenses investments
    chat_history logged_in username current_page tax_session].
  - repeat split; auto. right. eexists. split; [|reflexivity]. reflexivity.
  - repeat split; auto.
Qed.

Lemma tax_page_run_session form backend (t : users) s s' :
  tax_page_run form backend t s = Return s' ->
  logged_in s' = logged_in s /\ username s' = username s /\
  current_page s' = current_page s /\ chat_messages s' = chat_messages s.
Proof.
  unfold tax_page_run.
  destruct (tax_calculator_page _ _ _ _ _) as [r|e]; cbn [bind]; [|discriminate].
  intros H. injection H as <-. repeat split.
Qed.

Lemma with_users_same db : with_users (users_table db) db = db.
Proof. destruct db; reflexivity. Qed.

Lemma with_expenses_same db : with_expenses (expenses db) db = db.
Proof. destruct db; reflexivity. Qed.

Lemma with_investments_same db : with_investments (investments db) db = db.
Proof. destruct db; reflexivity. Qed.

(** *** What a run keeps *)

Lemma keyed_users db (t' : users) :
  keyed db -> NoDup (map fst t') -> incl (registered db) (map fst t') ->
  keyed (with_users t' db).
Proof.
  intros (K1 & K2 & K3 & K4) N G. unfold keyed, registered, with_users.
  cbn [users_table chat_history expenses investments].
  repeat split; [exact N| | |].
  - eapply Forall_impl; [|exact K2]. intros r Hr. apply G. exact Hr.
  - eapply Forall_impl; [|exact K3]. intros r (H1 & H2). split; [apply G|]; assumption.
  - eapply Forall_impl; [|exact K4]. intros r (H1 & H2). split; [apply G|]; assumption.
Qed.

Lemma signed_in_incl db db' s :
  signed_in db s -> incl (registered db) (registered db') -> signed_in db' s.
Proof.
  intros (S1 & S2) G. split; [|exact S2]. intros L. apply G. exact (S1 L).
Qed.

Lemma signed_in_session db s s' :
  signed_in db s ->
  (logged_in s' = true -> logged_in s = true /\ username s' = username s) ->
  In (current_page s') page_names ->
  signed_in db s'.
Proof.
  intros (S1 & S2) U P. split; [|exact P].
  intros L. destruct (U L) as [L0 ->]. exact (S1 L0).
Qed.

Section ScriptFacts.

Variable hash_password : string -> string.

Lemma login_page_users input now (t : users) s :
  let '(t', s', _) := login_page hash_password input now t s in
  (t' = t \/
   exists u p ty, t' = snd (register_user hash_password u p ty now t) /\
                  input = RegisterButton u p ty) /\
  current_page s' = current_page s /\
  tax_session s' = tax_session s /\
  (s' = s \/ logged_in s' = true /\ In (username s') (map fst t) /\ t' = t).
Proof.
  unfold login_page. destruct input as [|u p|u p ty].
  - repeat split; auto.
  - destruct (validate_user hash_password u p t) eqn:V.
    + repeat split; auto. right. cbn [logged_in username].
      repeat split. eapply validate_user_registered. exact V.
    + repeat split; auto.
  - destruct (String.eqb (strip u) "" || String.eqb (strip p) "");
      [repeat split; auto|].
    destruct (String.length p <? 6)%nat; [repeat split; auto|].
    destruct (register_user hash_password u p ty now t) as [ok t'] eqn:R.
    assert (E : t' = snd (register_user hash_password u p ty now t))
      by (rewrite R; reflexivity).
    destruct ok; (split; [right; exists u, p, ty; auto|repeat split; auto]).
Qed.

Lemma script_keyed w db s :
  keyed db -> signed_in db s ->
  keyed (fst (script hash_password w (db, s))) /\
  signed_in (fst (script hash_password w (db, s)))
            (snd (script hash_password w (db, s))) /\
  incl (registered db) (registered (fst (script hash_password w (db, s)))).
Proof.
  intros K Si. pose proof K as (K1 & K2 & K3 & K4). pose proof Si as (S1 & S2).
  unfold script. destruct (logged_in s) eqn:L.
  - destruct (main_app (sidebar_click w) s) as [s1 called] eqn:M.
    destruct called as [p|].
    + apply main_app_called in M. destruct M as [_ ->].
      specialize (S1 eq_refl).
      destruct p; cbn [fst snd].
      * (* chatbot *)
        pose proof (chatbot_page_rows (chat_text w) (backend_reply w) (now w) db s)
          as (U & E & I & C & Lg & Un & Cp & _).
        destruct (chatbot_page (chat_text w) (backend_reply w) (now w) db s)
          as [db' s']. cbn [fst snd] in *.
        assert (R : registered db' = registered db)
          by (unfold registered; rewrite U; reflexivity).
        split; [|split].
        -- unfold keyed. rewrite R, E, I. repeat split; auto.
           destruct C as [->|(row & Hrow & ->)]; [exact K2|].
           apply Forall_app. split; [exact K2|].
           apply Forall_cons; [rewrite Hrow; exact S1|apply Forall_nil].
        -- split; [rewrite R, Un; intros _; exact S1|rewrite Cp; exact S2].
        -- rewrite R. apply incl_refl.
      * (* profile *)
        destruct (profile_page_users (profile_inputs w) (users_table db) s) as [->| ->].
        -- rewrite with_users_same. split; [exact K|split; [exact Si|apply incl_refl]].
        -- assert (R : registered
                          (with_users
                             (update_user_profile (username s)
                                (chosen_user_type (profile_inputs w))
                                (entered_income (profile_inputs w))
                                (entered_savings_goal (profile_inputs w))
                                (users_table db)) db) = registered db).
           { unfold registered, with_users. cbn [users_table]. apply keys_update. }
           split; [|split].
           ++ apply keyed_users; [exact K|rewrite keys_update; exact K1|].
              rewrite keys_update. apply incl_refl.
           ++ split; [intros _; rewrite R; exact S1|exact S2].
           ++ rewrite R. apply incl_refl.
      * (* expenses *)
        destruct (expense_tracker_page_rows (expense_inputs w) (today w) (expenses db) s)
          as [->|(Pos & ->)].
        -- rewrite with_expenses_same. split; [exact K|split; [exact Si|apply incl_refl]].
        -- split; [|split; [exact Si|apply incl_refl]].
           unfold keyed, registered, with_expenses.
           cbn [users_table chat_history expenses investments].
           repeat split; auto.
           apply Forall_app. split; [exact K3|].
           apply Forall_cons; [|apply Forall_nil].
           cbn [expense_username amount].
           split; [exact S1|apply positive_to_real; exact Pos].
      * (* investments *)
        destruct (investment_page_rows (investment_inputs w) (today w) (investments db) s)
          as [->|(Pos & ->)].
        -- rewrite with_investments_same.
           split; [exact K|split; [exact Si|apply incl_refl]].
        -- split; [|split; [exact Si|apply incl_refl]].
           unfold keyed, registered, with_investments.
           cbn [users_table chat_history expenses investments].
           repeat split; auto.
           apply Forall_app. split; [exact K4|].
           apply Forall_cons; [|apply Forall_nil].
           cbn [investment_username invested].
           split; [exact S1|apply positive_to_real; exact Pos].
      * (* tax *)
        destruct (tax_page_run (tax_inputs w) (backend_reply w) (users_table db) s)
          as [s2|e] eqn:T; cbn [fst snd];
          [|split; [exact K|split; [exact Si|apply incl_refl]]].
        apply tax_page_run_session in T. destruct T as (_ & Un & Cp & _).
        split; [exact K|split; [|apply incl_refl]].
        split; [intros _; rewrite Un; exact S1|rewrite Cp; exact S2].
      * split; [exact K|split; [exact Si|apply incl_refl]].
    + destruct (main_app_rerun _ _ _ M S2) as (P & _ & U). cbn [fst snd].
      split; [exact K|split; [|apply incl_refl]].
      apply (signed_in_session db s); assumption.
  - pose proof (login_page_users (login_inputs w) (now w) (users_table db) s) as H.
    destruct (login_page hash_password (login_inputs w) (now w) (users_table db) s)
      as [[t' s'] message].
    destruct H as (Ht & Cp & _ & Hs). cbn [fst snd].
    assert (G : incl (registered db) (map fst t')).
    { destruct Ht as [->|(u & p & ty & -> & _)];
        [apply incl_refl|apply register_user_incl]. }
    assert (N : NoDup (map fst t')).
    { destruct Ht as [->|(u & p & ty & -> & _)];
        [exact K1|apply register_user_keys; exact K1]. }
    split; [apply keyed_users; assumption|split; [|exact G]].
    split; [|rewrite Cp; exact S2].
    unfold registered, with_users. cbn [users_table].
    destruct Hs as [->|(_ & Hin & ->)]; [|intros _; exact Hin].
    intros L'. congruence.
Qed.

Lemma script_typed w db s :
  offered w = true -> typed db -> typed (fst (script hash_password w (db, s))).
Proof.
  intros Hoff T. apply offered_spec in Hoff.
  destruct Hoff as (Oreg & Oprof & Oexp & Oinv).
  pose proof T as (T1 & T2 & T3).
  unfold script. destruct (logged_in s) eqn:L.
  - destruct (main_app (sidebar_click w) s) as [s1 [[]|]]; cbn [fst]; try exact T.
    + pose proof (chatbot_page_rows (chat_text w) (backend_reply w) (now w) db s1)
        as (U & E & I & _).
      destruct (chatbot_page (chat_text w) (backend_reply w) (now w) db s1)
        as [db' s']. cbn [fst snd] in *. unfold typed. rewrite U, E, I. exact T.
    + destruct (profile_page_users (profile_inputs w) (users_table db) s1) as [->| ->].
      * rewrite with_users_same. exact T.
      * unfold typed, with_users. cbn [users_table expenses investments].
        split; [apply types_update; assumption|split; assumption].
    + destruct (expense_tracker_page_rows (expense_inputs w) (today w) (expenses db) s1)
        as [->|(_ & ->)]; [rewrite with_expenses_same; exact T|].
      unfold typed, with_expenses. cbn [users_table expenses investments].
      repeat split; auto. apply Forall_app. split; [exact T2|].
      apply Forall_cons; [exact Oexp|apply Forall_nil].
    + destruct (investment_page_rows (investment_inputs w) (today w) (investments db) s1)
        as [->|(_ & ->)]; [rewrite with_investments_same; exact T|].
      unfold typed, with_investments. cbn [users_table expenses investments].
      repeat split; auto. apply Forall_app. split; [exact T3|].
      apply Forall_cons; [exact Oinv|apply Forall_nil].
    + destruct (tax_page_run _ _ _ _); exact T.
  - pose proof (login_page_users (login_inputs w) (now w) (users_table db) s) as H.
    destruct (login_page hash_password (login_inputs w) (now w) (users_table db) s)
      as [[t' s'] message].
    destruct H as (Ht & _). cbn [fst].
    destruct Ht as [->|(u & p & ty & -> & Lg)]; [rewrite with_users_same; exact T|].
    unfold typed, with_users. cbn [users_table expenses investments].
    split; [|split; assumption].
    apply register_user_types; [|exact T1]. exact (Oreg u p ty Lg).
Qed.

Lemma script_keeps_password w db s other p :
  In other (registered db) ->
  validate_user hash_password other p
    (users_table (fst (script hash_password w (db, s)))) =
  validate_user hash_password other p (users_table db).
Proof.
  intros Hin. unfold script. destruct (logged_in s).
  - destruct (main_app (sidebar_click w) s) as [s1 [[]|]]; cbn [fst];
      try reflexivity.
    + pose proof (chatbot_page_rows (chat_text w) (backend_reply w) (now w) db s1)
        as (U & _).
      rewrite U. reflexivity.
    + destruct (profile_page_users (profile_inputs w) (users_table db) s1) as [->| ->].
      * reflexivity.
      * cbn [with_users users_table]. apply validate_update.
    + destruct (tax_page_run _ _ _ _); reflexivity.
  - pose proof (login_page_users (login_inputs w) (now w) (users_table db) s) as H.
    destruct (login_page hash_password (login_inputs w) (now w) (users_table db) s)
      as [[t' s'] message].
    destruct H as (Ht & _). cbn [fst with_users users_table].
    destruct Ht as [->|(u & q & ty & -> & _)]; [reflexivity|].
    apply validate_register. exact Hin.
Qed.

Lemma script_incl w db s :
  incl (registered db) (registered (fst (script hash_password w (db, s)))).
Proof.
  unfold script, registered. destruct (logged_in s).
  - destruct (main_app (sidebar_click w) s) as [s1 [[]|]]; cbn [fst];
      try apply incl_refl.
    + pose proof (chatbot_page_rows (chat_text w) (backend_reply w) (now w) db s1)
        as (U & _).
      rewrite U. apply incl_refl.
    + destruct (profile_page_users (profile_inputs w) (users_table db) s1) as [->| ->];
        cbn [with_users users_table]; [|rewrite keys_update]; apply incl_refl.
    + destruct (tax_page_run _ _ _ _); apply incl_refl.
  - pose proof (login_page_users (login_inputs w) (now w) (users_table db) s) as H.
    destruct (login_page hash_password (login_inputs w) (now w) (users_table db) s)
      as [[t' s'] message].
    destruct H as (Ht & _). cbn [fst with_users users_table].
    destruct Ht as [->|(u & q & ty & -> & _)];
      [apply incl_refl|apply register_user_incl].
Qed.

(** *** Accounts without amounts *)

Lemma profile_without_amounts username (t : users) :
  Forall no_amounts t ->
  monthly_income (Store.get_user_profile username t) = of_Z 0 /\
  savings_goal (Store.get_user_profile username t) = of_Z 0.
Proof.
  intros H. unfold Store.get_user_profile.
  destruct (find (has_username username) t) as [r|] eqn:F;
    cbn [monthly_income savings_goal]; [|split; reflexivity].
  apply find_some in F. destruct F as [Hin _].
  rewrite Forall_forall in H. destruct (H r Hin) as [-> ->]. split; reflexivity.
Qed.

Lemma tax_page_run_without_amounts form backend (t : users) s :
  Forall no_amounts t ->
  tax_page_run form backend t s = Raise StreamlitAPIException.
Proof.
  intros H. unfold tax_page_run, tax_calculator_page.
  rewrite profiles_get_user_profile.
  rewrite (proj1 (profile_without_amounts (username s) t H)). reflexivity.
Qed.

Lemma profile_page_without_amounts form (t : users) s :
  Forall no_amounts t -> profile_page form t s = (t, None).
Proof.
  intros H. unfold profile_page. cbn zeta.
  destruct (index _ profile_types); [|reflexivity].
  rewrite (proj1 (profile_without_amounts (username s) t H)). reflexivity.
Qed.

Lemma main_app_tax_session click s :
  tax_session (fst (main_app click s)) = tax_session s.
Proof. unfold main_app. destruct click as [[]|]; reflexivity. Qed.

Lemma script_without_amounts w db s :
  Forall no_amounts (users_table db) ->
  Forall no_amounts (users_table (fst (script hash_password w (db, s)))) /\
  tax_session (snd (script hash_password w (db, s))) = tax_session s.
Proof.
  intros H. unfold script. destruct (logged_in s).
  - pose proof (main_app_tax_session (sidebar_click w) s) as M.
    destruct (main_app (sidebar_click w) s) as [s1 called]. cbn [fst] in M.
    destruct called as [[]|]; cbn [fst snd]; try (split; [exact H|exact M]).
    + pose proof (chatbot_page_rows (chat_text w) (backend_reply w) (now w) db s1)
        as (U & _ & _ & _ & _ & _ & _ & Ts).
      rewrite U, Ts. split; [exact H|exact M].
    + rewrite profile_page_without_amounts by exact H. cbn [fst].
      rewrite with_users_same. split; [exact H|exact M].
    + rewrite tax_page_run_without_amounts by exact H. split; [exact H|exact M].
  - pose proof (login_page_users (login_inputs w) (now w) (users_table db) s) as L.
    destruct (login_page hash_password (login_inputs w) (now w) (users_table db) s)
      as [[t' s'] message].
    destruct L as (Ht & _ & Ts & _). cbn [fst snd with_users users_table].
    split; [|exact Ts].
    destruct Ht as [->|(u & p & ty & -> & _)]; [exact H|].
    rewrite register_user_spec.
    destruct (existsb (has_username u) (users_table db)); cbn [snd]; [exact H|].
    apply Forall_app. split; [exact H|].
    apply Forall_cons; [split; reflexivity|apply Forall_nil].
Qed.

Lemma visits_without_amounts rs st (ts : session_state) :
  Forall no_amounts (users_table (fst st)) ->
  (forall j, tax_session (snd st j) = ts) ->
  Forall no_amounts (users_table (fst (visits hash_password rs st))) /\
  (forall i, tax_session (snd (visits hash_password rs st) i) = ts).
Proof.
  revert st. induction rs as [|r rs IH]; intros st H Hall.
  - split; [exact H|exact Hall].
  - cbn [visits fold_left]. fold (visits hash_password rs (run hash_password r st)).
    destruct (script_without_amounts (snd r) (fst st) (snd st (fst r)) H) as [H' T'].
    apply IH; [exact H'|].
    intros j. unfold run. cbn [snd].
    destruct (Nat.eqb j (fst r)); [etransitivity; [exact T'|]|]; apply Hall.
Qed.

(** *** What the server keeps *)

Lemma run_keyed r st :
  keyed (fst st) -> (forall i, signed_in (fst st) (snd st i)) ->
  keyed (fst (run hash_password r st)) /\
  (forall i, signed_in (fst (run hash_password r st)) (snd (run hash_password r st) i)) /\
  incl (registered (fst st)) (registered (fst (run hash_password r st))).
Proof.
  intros K Si. unfold run. cbn [fst snd].
  destruct (script_keyed (snd r) (fst st) (snd st (fst r)) K (Si (fst r)))
    as (K' & S' & G).
  split; [exact K'|split; [|exact G]].
  intros i. destruct (Nat.eqb i (fst r)); [exact S'|].
  apply (signed_in_incl (fst st)); [apply Si|exact G].
Qed.

Lemma visits_keyed rs st :
  keyed (fst st) -> (forall i, signed_in (fst st) (snd st i)) ->
  keyed (fst (visits hash_password rs st)) /\
  (forall i, signed_in (fst (visits hash_password rs st))
                       (snd (visits hash_password rs st) i)) /\
  incl (registered (fst st)) (registered (fst (visits hash_password rs st))).
Proof.
  revert st. induction rs as [|r rs IH]; intros st K Si.
  - split; [exact K|split; [exact Si|apply incl_refl]].
  - cbn [visits fold_left]. fold (visits hash_password rs (run hash_password r st)).
    destruct (run_keyed r st K Si) as (K' & S' & G).
    destruct (IH _ K' S') as (K2 & S2 & G2).
    split; [exact K2|split; [exact S2|]].
    eapply incl_tran; eassumption.
Qed.

Lemma visits_typed rs st :
  forallb (fun r => offered (snd r)) rs = true -> typed (fst st) ->
  typed (fst (visits hash_password rs st)).
Proof.
  revert st. induction rs as [|r rs IH]; intros st Hoff T; [exact T|].
  cbn [forallb] in Hoff. apply andb_prop in Hoff. destruct Hoff as [Hr Hrs].
  cbn [visits fold_left]. fold (visits hash_password rs (run hash_password r st)).
  apply IH; [exact Hrs|]. unfold run. cbn [fst].
  apply script_typed; assumption.
Qed.

Lemma fresh_keyed : keyed (fst fresh) /\ forall i, signed_in (fst fresh) (snd fresh i).
Proof.
  split.
  - unfold keyed. cbn. repeat split; auto using NoDup_nil.
  - intros i. split; [intros H; discriminate H|left; reflexivity].
Qed.

Lemma fresh_typed : typed (fst fresh).
Proof. unfold typed. cbn. repeat split; apply Forall_nil. Qed.

End ScriptFacts.

(** *** The chat transcript *)

Lemma answered_starts_with_user asked messages :
  starts_with_user messages -> answered asked messages = answered None messages.
Proof.
  destruct messages as [|[role text] rest]; [reflexivity|].
  cbn [starts_with_user]. intros ->. reflexivity.
Qed.

Lemma transcript_starts_with_user runs :
  starts_with_user (flat_map transcript_of_run runs).
Proof.
  induction runs as [|[[input backend] now] runs IH]; [exact I|].
  cbn [flat_map]. unfold transcript_of_run at 1. cbn [fst snd].
  destruct input as [[|c text]|]; cbn [app]; [exact IH| |exact IH].
  reflexivity.
Qed.

Lemma answered_transcript username runs :
  map (fun r => (user_message r, bot_response r))
      (flat_map (rows_of_run username) runs) =
  answered None (flat_map transcript_of_run runs).
Proof.
  induction runs as [|[[input backend] now] runs IH]; [reflexivity|].
  cbn [flat_map]. unfold transcript_of_run at 1, rows_of_run at 1. cbn [fst snd].
  destruct input as [[|c text]|]; cbn [app map]; try exact IH.
  destruct backend as [response|]; cbn [app map user_message bot_response].
  - rewrite IH. reflexivity.
  - rewrite IH.
    change (answered None (("user", String c text) :: flat_map transcript_of_run runs))
      with (answered (Some (String c text)) (flat_map transcript_of_run runs)).
    symmetry. apply answered_starts_with_user. apply transcript_starts_with_user.
Qed.

Lemma chatbot_page_run run db s :
  chat_history (fst (chatbot_page (fst (fst run)) (snd (fst run)) (snd run) db s)) =
    chat_history db ++ rows_of_run (username s) run /\
  chat_messages (snd (chatbot_page (fst (fst run)) (snd (fst run)) (snd run) db s)) =
    chat_messages s ++ transcript_of_run run /\
  users_table (fst (chatbot_page (fst (fst run)) (snd (fst run)) (snd run) db s)) =
    users_table db /\
  expenses (fst (chatbot_page (fst (fst run)) (snd (fst run)) (snd run) db s)) =
    expenses db /\
  investments (fst (chatbot_page (fst (fst run)) (snd (fst run)) (snd run) db s)) =
    investments db /\
  username (snd (chatbot_page (fst (fst run)) (snd (fst run)) (snd run) db s)) =
    username s.
Proof.
  destruct run as [[input backend] now]. cbn [fst snd].
  unfold chatbot_page, transcript_of_run, rows_of_run. cbn [fst snd].
  destruct input as [[|c text]|];
    try (rewrite !app_nil_r; repeat split; reflexivity).
  destruct backend as [response|];
    cbn [fst snd chat_history chat_messages users_table expenses investments
         username save_chat_history].
  - rewrite <- app_assoc. repeat split; reflexivity.
  - rewrite app_nil_r. repeat split; reflexivity.
Qed.

End PagesFacts.

Import Store Pages StoreFacts PagesFacts.
Local Open Scope string_scope.
Local Open Scope list_scope.

(** ** The budget on the profile page *)

(** X5.  When [profile_page] shows a budget, the Update button was not
    pressed, the entered income is above zero, and every amount
    [get_budget_summary] returns lies between 0 and that income. *)
Theorem profile_budget_within_income (form : profile_form) (t : users)
    (s : session) (b : budget) :
  valid (entered_income form) = true ->
  snd (profile_page form t s) = Some b ->
  update_clicked form = false /\
  flt (of_Z 0) (entered_income form) = true /\
  Forall (fun kv => fle (of_Z 0) (snd kv) = true /\
                    fle (snd kv) (entered_income form) = true) b.
Proof.
  intros Hv. unfold profile_page. cbn zeta.
  destruct (index _ profile_types); cbn [snd]; [|discriminate].
  destruct (_ <- number_input_default _ ;; number_input_default _);
    cbn [snd]; [|discriminate].
  destruct (update_clicked form); cbn [snd]; [discriminate|].
  destruct (flt (of_Z 0) (entered_income form)) eqn:Pos; [|discriminate].
  intros H. injection H as <-. split; [reflexivity|]. split; [reflexivity|].
  assert (Hi : nonneg (entered_income form) = true).
  { apply nonneg_of_valid; [exact Hv|].
    destruct (entered_income form) as [[]|[]| |[] m e];
      try discriminate Pos; reflexivity. }
  unfold get_budget_summary. rewrite Pos.
  destruct (String.eqb (chosen_user_type form) "Student");
    cbn [map fst snd];
    repeat (apply Forall_cons;
            [apply share_of_income;
             [exact Hi|vm_compute; reflexivity|apply Z.leb_le; vm_compute; reflexivity]|]);
    apply Forall_nil.
Qed.

Lemma profile_budget_within_income_witness :
  update_clicked
    {| chosen_user_type := "Professional"; entered_income := of_Z 60000;
       entered_savings_goal := of_Z 5000; update_clicked := false |} = false /\
  flt (of_Z 0) (of_Z 60000) = true /\
  Forall (fun kv => fle (of_Z 0) (snd kv) = true /\
                    fle (snd kv) (of_Z 60000) = true)
         (get_budget_summary "Professional" (of_Z 60000)).
Proof.
  apply (profile_budget_within_income
           {| chosen_user_type := "Professional"; entered_income := of_Z 60000;
              entered_savings_goal := of_Z 5000; update_clicked := false |}
           [Samples.earning "asha" "h" "Student" (of_Z 60000) (of_Z 5000)]
           {| logged_in := true; username := "asha"; chat_messages := [];
              current_page := "profile";
              tax_session := {| tax_calculation := None; tax_tips := None |} |});
    reflexivity.
Defined.

(** ** Accounts *)

(** X6.  A registration that succeeds can be used to log in, with exactly
    the passwords that hash like the registered one; the new profile has
    the chosen type and no income or goal; every other username is
    validated and read as before. *)
Theorem register_then_validate (hash_password : string -> string)
    (username password user_type now : string) (t t' : users) :
  register_user hash_password username password user_type now t = (true, t') ->
  (forall p,
      validate_user hash_password username p t' =
      String.eqb (hash_password password) (hash_password p)) /\
  Store.get_user_profile username t' =
    {| App.user_type := user_type;
       App.monthly_income := of_Z 0;
       App.savings_goal := of_Z 0 |} /\
  (forall other p,
      other <> username ->
      validate_user hash_password other p t' = validate_user hash_password other p t /\
      Store.get_user_profile other t' = Store.get_user_profile other t).
Proof.
  rewrite register_user_spec.
  destruct (existsb (has_username username) t) eqn:Ex; [discriminate|].
  intros H. injection H as <-.
  assert (Habs : ~ In username (map fst t)).
  { intros Hin. apply existsb_has_username in Hin. congruence. }
  pose proof (find_absent username t Habs) as F.
  split; [|split].
  - intros p. unfold validate_user. rewrite find_app, F. cbn [find].
    unfold has_username at 1. cbn [fst snd]. rewrite String.eqb_refl. reflexivity.
  - unfold Store.get_user_profile. rewrite find_app, F. cbn [find].
    unfold has_username at 1. cbn [fst snd]. rewrite String.eqb_refl. reflexivity.
  - intros other p NE.
    unfold validate_user, Store.get_user_profile.
    rewrite !find_snoc_other by congruence. split; reflexivity.
Qed.

Lemma register_then_validate_witness :
  validate_user (fun s => s) "asha" "secret1"
    [Samples.account "asha" "secret1" "Student"] = true /\
  validate_user (fun s => s) "asha" "secret2"
    [Samples.account "asha" "secret1" "Student"] = false.
Proof.
  pose proof (register_then_validate (fun s => s) "asha" "secret1" "Student"
                "2025-01-01 09:00:00" [] [Samples.account "asha" "secret1" "Student"]
                eq_refl) as H.
  split; [exact (proj1 H "secret1")|exact (proj1 H "secret2")].
Defined.

(** X7.  A profile update is read back by [get_user_profile]: the new
    type, and the two amounts as entered, except that a zero of either sign
    and NaN come back as [0].  The other accounts keep their profiles, and
    an update for a username that is not in the table changes nothing. *)
Theorem update_then_get (username user_type : string) (income goal : float)
    (t : users) :
  (In username (map fst t) ->
   Store.get_user_profile username
     (update_user_profile username user_type income goal t) =
   {| user_type := user_type;
      monthly_income :=
        match income with
        | S754_nan | S754_zero _ => of_Z 0
        | _ => income
        end;
      savings_goal :=
        match goal with
        | S754_nan | S754_zero _ => of_Z 0
        | _ => goal
        end |}) /\
  (forall other, other <> username ->
     Store.get_user_profile other
       (update_user_profile username user_type income goal t) =
     Store.get_user_profile other t) /\
  (~ In username (map fst t) ->
   update_user_profile username user_type income goal t = t).
Proof.
  split; [|split].
  - intros Hin. destruct (find_present username t Hin) as (rec & F).
    unfold Store.get_user_profile. rewrite find_update, F. cbn [option_map].
    unfold updated_row, has_username. cbn [fst snd]. rewrite String.eqb_refl.
    cbn [row_user_type row_monthly_income row_savings_goal].
    destruct income, goal; reflexivity.
  - intros other NE. apply profile_of_other_after_update. exact NE.
  - apply update_absent.
Qed.

Lemma update_then_get_witness :
  Store.get_user_profile "asha"
    (update_user_profile "asha" "Professional" (of_Z 50000) (S754_zero true)
       [Samples.account "asha" "h" "Student"]) =
  {| user_type := "Professional";
     monthly_income := of_Z 50000;
     savings_goal := of_Z 0 |}.
Proof.
  apply (proj1 (update_then_get "asha" "Professional" (of_Z 50000) (S754_zero true)
                  [Samples.account "asha" "h" "Student"])).
  left. reflexivity.
Defined.

(** ** The login page *)

(** X8.  The Register button adds an account exactly when the username and
    the password are not blank, the password has at least six characters
    and the username is free; the account is then appended with the hashed
    password, and in every other case the table is left as it was.  The
    session is never changed. *)
Theorem registration_rules (hash_password : string -> string)
    (u p ty now : string) (t : users) (s : session) :
  let '(t', s', message) :=
    login_page hash_password (RegisterButton u p ty) now t s in
  s' = s /\
  (message = RegistrationSuccessful <->
   forallb isspace (list_ascii_of_string u) = false /\
   forallb isspace (list_ascii_of_string p) = false /\
   (6 <= String.length p)%nat /\
   ~ In u (map fst t)) /\
  (message = RegistrationSuccessful ->
   t' = t ++ [ (u, {| row_password_hash := hash_password p;
                      row_created_at := now;
                      row_user_type := ty;
                      row_monthly_income := Some (of_Z 0);
                      row_savings_goal := Some (of_Z 0) |}) ]) /\
  (message <> RegistrationSuccessful -> t' = t).
Proof.
  unfold login_page.
  pose proof (strip_blank u) as Bu. pose proof (strip_blank p) as Bp.
  destruct (String.eqb_spec (strip u) "") as [Eu|Nu].
  { cbn [orb]. apply Bu in Eu. split; [reflexivity|].
    split; [split; [discriminate|intros (H & _); congruence]|].
    split; [discriminate|reflexivity]. }
  destruct (String.eqb_spec (strip p) "") as [Ep|Np].
  { cbn [orb]. apply Bp in Ep. split; [reflexivity|].
    split; [split; [discriminate|intros (_ & H & _); congruence]|].
    split; [discriminate|reflexivity]. }
  cbn [orb].
  assert (Fu : forallb isspace (list_ascii_of_string u) = false).
  { destruct (forallb isspace (list_ascii_of_string u)); [|reflexivity].
    exfalso. apply Nu. apply Bu. reflexivity. }
  assert (Fp : forallb isspace (list_ascii_of_string p) = false).
  { destruct (forallb isspace (list_ascii_of_string p)); [|reflexivity].
    exfalso. apply Np. apply Bp. reflexivity. }
  destruct (Nat.ltb_spec (String.length p) 6) as [Short|Long].
  { split; [reflexivity|].
    split; [split; [discriminate|intros (_ & _ & H & _); lia]|].
    split; [discriminate|reflexivity]. }
  rewrite register_user_spec.
  destruct (existsb (has_username u) t) eqn:Ex.
  - apply existsb_has_username in Ex. split; [reflexivity|].
    split; [split; [discriminate|intros (_ & _ & _ & H); contradiction]|].
    split; [discriminate|reflexivity].
  - assert (Habs : ~ In u (map fst t)).
    { intros Hin. apply (existsb_has_username u t) in Hin. congruence. }
    split; [reflexivity|].
    split; [split; [intros _; auto|reflexivity]|].
    split; [reflexivity|congruence].
Qed.

(** X9.  The login page logs a visitor in only on a Login click with
    credentials that [validate_user] accepts, that is with a registered
    username and a password whose hash is the stored one; the session then
    carries that username, and the users table is untouched. *)
Theorem login_needs_valid_credentials (hash_password : string -> string)
    (input : login_input) (now : string) (t : users) (s : session) :
  logged_in s = false ->
  let '(t', s', _) := login_page hash_password input now t s in
  logged_in s' = true ->
  exists u p rec,
    input = LoginButton u p /\
    find (has_username u) t = Some (u, rec) /\
    row_password_hash rec = hash_password p /\
    username s' = u /\ t' = t.
Proof.
  intros L. unfold login_page. destruct input as [|u p|u p ty].
  - intros H. congruence.
  - destruct (validate_user hash_password u p t) eqn:V; [|intros H; congruence].
    intros _. unfold validate_user in V.
    destruct (find (has_username u) t) as [[u' rec]|] eqn:F; [|discriminate].
    pose proof (find_some _ _ F) as [_ Hu]. apply has_username_true in Hu.
    cbn [fst] in Hu. subst u'. cbn [snd] in V. apply String.eqb_eq in V.
    exists u, p, rec. repeat split; auto.
  - destruct (String.eqb (strip u) "" || String.eqb (strip p) "");
      [intros H; congruence|].
    destruct (String.length p <? 6)%nat; [intros H; congruence|].
    destruct (register_user hash_password u p ty now t) as [[] t'];
      intros H; congruence.
Qed.

Lemma login_needs_valid_credentials_witness :
  exists u p rec,
    LoginButton "asha" "secret1" = LoginButton u p /\
    find (has_username u) [Samples.account "asha" "secret1" "Student"] = Some (u, rec) /\
    row_password_hash rec = p /\
    "asha" = u /\
    [Samples.account "asha" "secret1" "Student"] =
      [Samples.account "asha" "secret1" "Student"].
Proof.
  exact (login_needs_valid_credentials (fun s => s) (LoginButton "asha" "secret1")
           "2025-01-01 09:00:00" [Samples.account "asha" "secret1" "Student"]
           initial_session eq_refl eq_refl).
Defined.

(** ** The server *)

(** X10.  No run changes a password: once an account exists, the passwords
    [validate_user] accepts for it stay the same through all later runs of
    all sessions, profile updates and attempts to register the name again
    included. *)
Theorem visits_keep_passwords (hash_password : string -> string)
    (rs : list (nat * widgets)) (st : database * sessions) (username p : string) :
  In username (registered (fst st)) ->
  validate_user hash_password username p
    (users_table (fst (visits hash_password rs st))) =
  validate_user hash_password username p (users_table (fst st)).
Proof.
  revert st. induction rs as [|r rs IH]; intros st Hin; [reflexivity|].
  cbn [visits fold_left]. fold (visits hash_password rs (run hash_password r st)).
  rewrite IH.
  - unfold run. cbn [fst]. apply script_keeps_password. exact Hin.
  - unfold run. cbn [fst]. apply (script_incl hash_password). exact Hin.
Qed.

Lemma visits_keep_passwords_witness :
  validate_user (fun s => s) "asha" "secret1"
    (users_table
       (fst (visits (fun s => s)
               [ (1%nat, Samples.at_login (RegisterButton "asha" "another7" "Student")) ]
               (with_users [Samples.account "asha" "secret1" "Student"] empty_database,
                fun _ => initial_session)))) =
  validate_user (fun s => s) "asha" "secret1"
    (users_table
       (fst (with_users [Samples.account "asha" "secret1" "Student"] empty_database,
             fun _ : nat => initial_session))).
Proof.
  apply (visits_keep_passwords (fun s => s)
           [ (1%nat, Samples.at_login (RegisterButton "asha" "another7" "Student")) ]
           (with_users [Samples.account "asha" "secret1" "Student"] empty_database,
            fun _ => initial_session)
           "asha" "secret1").
  left. reflexivity.
Defined.

(** X11.  Whatever the sessions do from a fresh installation, the keys of
    the tables hold: usernames are unique, a logged-in session carries a
    registered username, and every chat, expense and investment row belongs
    to a registered username. *)
Theorem visits_keys_hold (hash_password : string -> string)
    (rs : list (nat * widgets)) :
  let st := visits hash_password rs fresh in
  NoDup (registered (fst st)) /\
  (forall i, logged_in (snd st i) = true -> In (username (snd st i)) (registered (fst st))) /\
  Forall (fun r => In (chat_username r) (registered (fst st))) (chat_history (fst st)) /\
  Forall (fun r => In (expense_username r) (registered (fst st))) (expenses (fst st)) /\
  Forall (fun r => In (investment_username r) (registered (fst st)))
         (investments (fst st)).
Proof.
  destruct (visits_keyed hash_password rs fresh (proj1 fresh_keyed) (proj2 fresh_keyed))
    as ((K1 & K2 & K3 & K4) & Si & _).
  cbn zeta. repeat split; auto.
  - intros i. exact (proj1 (Si i)).
  - eapply Forall_impl; [|exact K3]. intros r (H & _). exact H.
  - eapply Forall_impl; [|exact K4]. intros r (H & _). exact H.
Qed.

(** X12.  Every stored expense and every stored investment has an amount
    above zero: the pages refuse the others, and NaN is not above zero. *)
Theorem visits_amounts_positive (hash_password : string -> string)
    (rs : list (nat * widgets)) :
  let db := fst (visits hash_password rs fresh) in
  Forall (fun r => exists x, amount r = Some x /\ flt (of_Z 0) x = true) (expenses db) /\
  Forall (fun r => exists x, invested r = Some x /\ flt (of_Z 0) x = true)
         (investments db).
Proof.
  destruct (visits_keyed hash_password rs fresh (proj1 fresh_keyed) (proj2 fresh_keyed))
    as ((_ & _ & K3 & K4) & _).
  cbn zeta. split.
  - eapply Forall_impl; [|exact K3]. intros r (_ & H).
    destruct (amount r) as [x|]; [|discriminate H]. exists x. split; [reflexivity|exact H].
  - eapply Forall_impl; [|exact K4]. intros r (_ & H).
    destruct (invested r) as [x|]; [|discriminate H]. exists x. split; [reflexivity|exact H].
Qed.

(** X13.  When the select boxes return options of their lists, every
    stored user type is one of Student, Professional and Retired, every
    expense category and investment type is one of its list, and the lookup
    [.index(profile["user_type"])] of the profile page finds its argument,
    for every username. *)
Theorem visits_user_types_known (hash_password : string -> string)
    (rs : list (nat * widgets)) (username : string) :
  forallb (fun r => offered (snd r)) rs = true ->
  let db := fst (visits hash_password rs fresh) in
  Forall (fun r => In (row_user_type (snd r)) profile_types) (users_table db) /\
  Forall (fun r => In (category r) expense_categories) (expenses db) /\
  Forall (fun r => In (investment_type r) investment_types) (investments db) /\
  exists i,
    index (user_type (Store.get_user_profile username (users_table db)))
          profile_types = Some i.
Proof.
  intros Hoff.
  destruct (visits_typed hash_password rs fresh Hoff fresh_typed) as (T1 & T2 & T3).
  cbn zeta. repeat split; auto.
  destruct (index_in _ _ (profile_type_known username _ T1)) as (i & Hi & _).
  exists i. exact Hi.
Qed.

Lemma visits_user_types_known_witness :
  let db :=
    fst (visits (fun s => s)
           [ (0%nat, Samples.at_login (RegisterButton "asha" "secret1" "Professional")) ]
           fresh) in
  Forall (fun r => In (row_user_type (snd r)) profile_types) (users_table db) /\
  Forall (fun r => In (category r) expense_categories) (expenses db) /\
  Forall (fun r => In (investment_type r) investment_types) (investments db) /\
  exists i,
    index (user_type (Store.get_user_profile "asha" (users_table db)))
          profile_types = Some i.
Proof.
  apply (visits_user_types_known (fun s => s)
           [ (0%nat, Samples.at_login (RegisterButton "asha" "secret1" "Professional")) ]
           "asha").
  reflexivity.
Defined.

(** X14.  The page a session names is always one of the six that
    [main_app] routes by name, so its last branch is never the one taken
    for an unknown name. *)
Theorem visits_current_page_known (hash_password : string -> string)
    (rs : list (nat * widgets)) (i : nat) :
  let s := snd (visits hash_password rs fresh) i in
  In (current_page s) page_names /\
  exists p,
    main_app None s = (s, Some p) /\
    (p = chatbot_page_ <-> current_page s = "chatbot").
Proof.
  destruct (visits_keyed hash_password rs fresh (proj1 fresh_keyed) (proj2 fresh_keyed))
    as (_ & Si & _).
  cbn zeta. destruct (Si i) as [_ P]. split; [exact P|].
  unfold main_app. cbn [sidebar_menu].
  destruct P as [E|[E|[E|[E|[E|[E|[]]]]]]]; rewrite <- E; cbn;
    eexists; (split; [reflexivity|]); split; intros H; (reflexivity || discriminate H).
Qed.

(** X15.  A run changes only the account of its session: for every other
    registered username the profile, the expenses, the investments and the
    chat rows are what they were. *)
Theorem run_touches_own_account_only (hash_password : string -> string)
    (w : widgets) (db : database) (s : session) (other : string) :
  other <> username s ->
  In other (registered db) ->
  let db' := fst (script hash_password w (db, s)) in
  Store.get_user_profile other (users_table db') =
    Store.get_user_profile other (users_table db) /\
  get_expenses other (expenses db') = get_expenses other (expenses db) /\
  get_investments other (investments db') = get_investments other (investments db) /\
  filter (fun r => String.eqb (chat_username r) other) (chat_history db') =
    filter (fun r => String.eqb (chat_username r) other) (chat_history db).
Proof.
  intros NE Hin. cbn zeta.
  assert (Hs : String.eqb (username s) other = false).
  { apply String.eqb_neq. congruence. }
  unfold script. destruct (logged_in s).
  - destruct (main_app (sidebar_click w) s) as [s1 called] eqn:M.
    destruct called as [p|]; [|cbn [fst]; repeat split].
    apply main_app_called in M. destruct M as [_ ->].
    destruct p; cbn [fst]; try (repeat split; fail).
    + pose proof (chatbot_page_rows (chat_text w) (backend_reply w) (now w) db s)
        as (U & E & I & C & _).
      rewrite U, E, I. repeat split.
      destruct C as [->|(row & Hrow & ->)]; [reflexivity|].
      rewrite filter_app. cbn [filter]. rewrite Hrow, Hs. apply app_nil_r.
    + destruct (profile_page_users (profile_inputs w) (users_table db) s) as [->| ->];
        cbn [with_users users_table expenses investments chat_history];
        [repeat split|].
      split; [|repeat split].
      apply (profile_of_other_after_update (username s)). exact NE.
    + destruct (expense_tracker_page_rows (expense_inputs w) (today w) (expenses db) s)
        as [->|(_ & ->)];
        cbn [with_expenses users_table expenses investments chat_history];
        [repeat split|].
      split; [reflexivity|]. split; [|repeat split].
      unfold get_expenses. rewrite filter_app. cbn [filter expense_username].
      rewrite Hs, app_nil_r. reflexivity.
    + destruct (investment_page_rows (investment_inputs w) (today w) (investments db) s)
        as [->|(_ & ->)];
        cbn [with_investments users_table expenses investments chat_history];
        [repeat split|].
      split; [reflexivity|]. split; [reflexivity|]. split; [|reflexivity].
      unfold get_investments. rewrite filter_app. cbn [filter investment_username].
      rewrite Hs, app_nil_r. reflexivity.
    + destruct (tax_page_run _ _ _ _); cbn [fst]; repeat split.
  - pose proof (login_page_users hash_password (login_inputs w) (now w) (users_table db) s) as H.
    destruct (login_page hash_password (login_inputs w) (now w) (users_table db) s)
      as [[t' s'] message].
    destruct H as (Ht & _).
    cbn [fst with_users users_table expenses investments chat_history].
    split; [|repeat split].
    destruct Ht as [->|(u & q & ty & -> & _)]; [reflexivity|].
    apply get_user_profile_register. exact Hin.
Qed.

Lemma run_touches_own_account_only_witness :
  let db :=
    with_users [Samples.account "asha" "h1" "Student";
                Samples.account "ravi" "h2" "Professional"] empty_database in
  let s :=
    {| logged_in := true; username := "ravi"; chat_messages := [];
       current_page := "profile";
       tax_session := {| tax_calculation := None; tax_tips := None |} |} in
  let db' := fst (script (fun s => s) (Samples.at_login NoButton) (db, s)) in
  Store.get_user_profile "asha" (users_table db') =
    Store.get_user_profile "asha" (users_table db) /\
  get_expenses "asha" (expenses db') = get_expenses "asha" (expenses db) /\
  get_investments "asha" (investments db') = get_investments "asha" (investments db) /\
  filter (fun r => String.eqb (chat_username r) "asha") (chat_history db') =
    filter (fun r => String.eqb (chat_username r) "asha") (chat_history db).
Proof.
  apply (run_touches_own_account_only (fun s => s) (Samples.at_login NoButton)
           (with_users [Samples.account "asha" "h1" "Student";
                        Samples.account "ravi" "h2" "Professional"] empty_database)
           {| logged_in := true; username := "ravi"; chat_messages := [];
              current_page := "profile";
              tax_session := {| tax_calculation := None; tax_tips := None |} |}
           "asha").
  - discriminate.
  - left. reflexivity.
Defined.

(** ** Across a logout *)

(** X16.  The Logout button clears the username and the chat transcript
    but not the tax results: when a run of the tax page has stored a
    calculation, and the user logs out and another one logs in, the session
    still holds the first user's record, and every run of the tax page that
    gets to its second column without a new calculation shows it. *)
Theorem tax_results_survive_logout (hash_password : string -> string)
    (form : tax_form) (backend : option string)
    (t : users) (s s1 : session) (other p now : string) :
  tax_page_run form backend t s = Return s1 ->
  calculate_clicked form = true ->
  flt (of_Z 0) (form_monthly_income form) = true ->
  validate_user hash_password other p t = true ->
  exists info,
    calculate_tax (form_monthly_income form)
      (user_type (Store.get_user_profile (username s) t)) = Return info /\
    tax_calculation (tax_session s1) = Some info /\
    let s2 := fst (sidebar_menu (Some LogoutButton) s1) in
    logged_in s2 = false /\ username s2 = EmptyString /\ chat_messages s2 = [] /\
    let '(_, s3, _) := login_page hash_password (LoginButton other p) now t s2 in
    logged_in s3 = true /\ username s3 = other /\
    tax_calculation (tax_session s3) = Some info /\
    forall (form3 : tax_form) (backend3 : option string) (t3 : users) (r3 : page_run),
      tax_calculator_page other (profiles t3) form3 backend3 (tax_session s3)
        = Return r3 ->
      calculate_clicked form3 && flt (of_Z 0) (form_monthly_income form3) = false ->
      shown_tax_calculation r3 = Some info.
Proof.
  intros E Hc Hpos Hv.
  unfold tax_page_run, tax_calculator_page in E.
  destruct (number_input_default _) as [[]|e]; cbn [bind] in E; [|discriminate E].
  rewrite Hc, Hpos in E. cbn [andb] in E.
  rewrite calculate_tax_returns in E. cbn [bind session_after] in E.
  injection E as <-.
  eexists. split; [apply calculate_tax_returns|].
  cbn [sidebar_menu fst logged_in username chat_messages tax_session tax_calculation].
  split; [reflexivity|]. repeat split.
  unfold login_page. rewrite Hv.
  cbn [logged_in username tax_session tax_calculation].
  repeat split.
  intros form3 backend3 t3 r3 E3 N3.
  unfold tax_calculator_page in E3.
  destruct (number_input_default _) as [[]|e]; cbn [bind] in E3; [|discriminate E3].
  rewrite N3 in E3. injection E3 as <-. reflexivity.
Qed.

Lemma tax_results_survive_logout_witness :
  exists s1 info,
    tax_page_run
      {| form_monthly_income := of_Z 80000; pf := of_Z 0; elss := of_Z 0;
         lic := of_Z 0; calculate_clicked := true |}
      None
      [Samples.earning "asha" "h1" "Student" (of_Z 80000) (of_Z 5000);
       Samples.earning "ravi" "h2" "Professional" (of_Z 40000) (of_Z 2000)]
      {| logged_in := true; username := "asha"; chat_messages := [];
         current_page := "tax";
         tax_session := {| tax_calculation := None; tax_tips := None |} |}
    = Return s1 /\
    calculate_tax (of_Z 80000) "Student" = Return info /\
    tax_calculation (tax_session s1) = Some info.
Proof.
  destruct (tax_page_run
              {| form_monthly_income := of_Z 80000; pf := of_Z 0; elss := of_Z 0;
                 lic := of_Z 0; calculate_clicked := true |}
              None
              [Samples.earning "asha" "h1" "Student" (of_Z 80000) (of_Z 5000);
               Samples.earning "ravi" "h2" "Professional" (of_Z 40000) (of_Z 2000)]
              {| logged_in := true; username := "asha"; chat_messages := [];
                 current_page := "tax";
                 tax_session := {| tax_calculation := None; tax_tips := None |} |})
    as [s1|e] eqn:E; [|vm_compute in E; discriminate E].
  destruct (tax_results_survive_logout (fun s => s) _ _ _ _ s1 "ravi" "h2"
              "2025-01-02 10:00:00" E eq_refl eq_refl eq_refl)
    as (info & H1 & H2 & _).
  exists s1, info. split; [reflexivity|]. split; [exact H1|exact H2].
Defined.

(** ** The chat transcript and the saved history *)

(** X17.  Over any number of runs of the chat page, run by run and in
    order: an empty input adds nothing; a question is added to the
    transcript; with an answer of the backend the answer is added to the
    transcript and one row, under the session's username, to
    [chat_history]; a question whose request failed is in the transcript
    only.  The rows added are then the answered questions of the added
    transcript, and the other tables are untouched. *)
Theorem chat_history_matches_transcript
    (runs : list (option string * option string * string))
    (db : database) (s : session) :
  chat_messages (snd (chats runs (db, s))) =
    chat_messages s ++ flat_map transcript_of_run runs /\
  chat_history (fst (chats runs (db, s))) =
    chat_history db ++ flat_map (rows_of_run (username s)) runs /\
  map (fun r => (user_message r, bot_response r))
      (flat_map (rows_of_run (username s)) runs) =
    answered None (flat_map transcript_of_run runs) /\
  users_table (fst (chats runs (db, s))) = users_table db /\
  expenses (fst (chats runs (db, s))) = expenses db /\
  investments (fst (chats runs (db, s))) = investments db /\
  (forall text time,
      text <> EmptyString ->
      transcript_of_run (Some text, None, time) = [("user", text)] /\
      rows_of_run (username s) (Some text, None, time) = []) /\
  (forall backend time,
      transcript_of_run (Some EmptyString, backend, time) = [] /\
      rows_of_run (username s) (Some EmptyString, backend, time) = [] /\
      transcript_of_run (None, backend, time) = [] /\
      rows_of_run (username s) (None, backend, time) = []).
Proof.
  assert (H : forall runs db s,
             chat_messages (snd (chats runs (db, s))) =
               chat_messages s ++ flat_map transcript_of_run runs /\
             chat_history (fst (chats runs (db, s))) =
               chat_history db ++ flat_map (rows_of_run (username s)) runs /\
             users_table (fst (chats runs (db, s))) = users_table db /\
             expenses (fst (chats runs (db, s))) = expenses db /\
             investments (fst (chats runs (db, s))) = investments db).
  { clear. induction runs as [|run runs IH]; intros db s.
    - cbn. rewrite !app_nil_r. repeat split; reflexivity.
    - cbn [chats fold_left fst snd flat_map].
      destruct (chatbot_page_run run db s) as (A1 & A2 & A3 & A4 & A5 & A6).
      destruct (chatbot_page (fst (fst run)) (snd (fst run)) (snd run) db s)
        as [db1 s1].
      cbn [fst snd] in *. fold (chats runs (db1, s1)).
      destruct (IH db1 s1) as (H1 & H2 & H3 & H4 & H5).
      rewrite H1, H2, H3, H4, H5, A1, A2, A3, A4, A5, A6, <- !app_assoc.
      repeat split; reflexivity. }
  destruct (H runs db s) as (H1 & H2 & H3 & H4 & H5).
  split; [exact H1|]. split; [exact H2|].
  split; [apply answered_transcript|].
  split; [exact H3|]. split; [exact H4|]. split; [exact H5|].
  split.
  - intros text time NE. destruct text as [|c text]; [congruence|].
    split; reflexivity.
  - intros backend time. destruct backend; repeat split; reflexivity.
Qed.

(** ** Expenses and investments of one user *)

(** X18.  An expense is stored only on a click with an amount above zero,
    and then it is the last row [get_expenses] returns for the session's
    user; for every other user, and in every other case, [get_expenses]
    returns what it did before. *)
Theorem expenses_per_user (form : expense_form) (today : string)
    (t : list expense_row) (s : session) (u : string) :
  get_expenses u (expense_tracker_page form today t s) =
  if add_expense_clicked form && flt (of_Z 0) (expense_amount form)
     && String.eqb (username s) u
  then get_expenses u t ++
       [ (expense_category form, Some (expense_amount form),
          expense_description form, today) ]
  else get_expenses u t.
Proof.
  unfold expense_tracker_page.
  destruct (add_expense_clicked form); [|reflexivity].
  destruct (flt (of_Z 0) (expense_amount form)) eqn:Pos; [|reflexivity].
  cbn [andb]. unfold get_expenses, add_expense.
  rewrite filter_app. cbn [filter expense_username].
  destruct (String.eqb (username s) u).
  - rewrite map_app. cbn [map category amount description date].
    destruct (expense_amount form); try discriminate Pos; reflexivity.
  - rewrite app_nil_r. reflexivity.
Qed.

(** X19.  The same for investments: the amount must be above zero, and
    the returns are read back as entered, except NaN, which is stored as
    NULL, and [-0.0], which comes back as [0.0]. *)
Theorem investments_per_user (form : investment_form) (today : string)
    (t : list investment_row) (s : session) (u : string) :
  get_investments u (investment_page form today t s) =
  if add_investment_clicked form && flt (of_Z 0) (amount_invested form)
     && String.eqb (username s) u
  then get_investments u t ++
       [ (chosen_investment_type form, Some (amount_invested form),
          to_real (current_returns form), today) ]
  else get_investments u t.
Proof.
  unfold investment_page.
  destruct (add_investment_clicked form); [|reflexivity].
  destruct (flt (of_Z 0) (amount_invested form)) eqn:Pos; [|reflexivity].
  cbn [andb]. unfold get_investments, add_investment.
  rewrite filter_app. cbn [filter investment_username].
  destruct (String.eqb (username s) u).
  - rewrite map_app. cbn [map investment_type invested returns date_invested].
    destruct (amount_invested form); try discriminate Pos; reflexivity.
  - rewrite app_nil_r. reflexivity.
Qed.

(** ** Accounts that were never given an income *)

(** X20.  A newly registered account cannot use the profile page or the
    tax page: its stored income is [0.0], [get_user_profile] hands the int
    [0] to [st.number_input], and the run ends with Streamlit's exception,
    before the Update button and before the Calculate button, whatever the
    widgets would return. *)
Theorem new_account_pages_raise (hash_password : string -> string)
    (name password user_type now : string) (t t' : users)
    (s : session) :
  register_user hash_password name password user_type now t = (true, t') ->
  username s = name ->
  number_input_default (monthly_income (Store.get_user_profile name t'))
    = Raise StreamlitAPIException /\
  (forall form backend,
      tax_page_run form backend t' s = Raise StreamlitAPIException) /\
  (forall form, profile_page form t' s = (t', None)).
Proof.
  rewrite register_user_spec.
  destruct (existsb (has_username name) t) eqn:Ex; [discriminate|].
  intros H Hs. apply (f_equal snd) in H. cbn [snd] in H. subst t'.
  assert (Habs : ~ In name (map fst t)).
  { intros Hin. apply existsb_has_username in Hin. congruence. }
  pose proof (find_absent name t Habs) as F.
  assert (P : Store.get_user_profile name
                (t ++ [ (name,
                         {| row_password_hash := hash_password password;
                            row_created_at := now;
                            row_user_type := user_type;
                            row_monthly_income := Some (of_Z 0);
                            row_savings_goal := Some (of_Z 0) |}) ]) =
              {| App.user_type := user_type;
                 App.monthly_income := of_Z 0;
                 App.savings_goal := of_Z 0 |}).
  { unfold Store.get_user_profile. rewrite find_app, F. cbn [find].
    unfold has_username at 1. cbn [fst snd]. rewrite String.eqb_refl. reflexivity. }
  split; [rewrite P; reflexivity|]. split.
  - intros form backend. unfold tax_page_run, tax_calculator_page.
    rewrite profiles_get_user_profile, Hs, P. reflexivity.
  - intros form. unfold profile_page. cbn zeta. rewrite Hs, P.
    cbn [App.user_type monthly_income savings_goal].
    destruct (index user_type profile_types); reflexivity.
Qed.

Lemma new_account_pages_raise_witness :
  tax_page_run
    {| form_monthly_income := of_Z 50000; pf := of_Z 0; elss := of_Z 0;
       lic := of_Z 0; calculate_clicked := true |}
    None [Samples.account "asha" "secret1" "Student"]
    {| logged_in := true; username := "asha"; chat_messages := [];
       current_page := "tax";
       tax_session := {| tax_calculation := None; tax_tips := None |} |}
  = Raise StreamlitAPIException.
Proof.
  exact (proj1 (proj2 (new_account_pages_raise (fun s => s) "asha" "secret1" "Student"
                         "2025-01-01 09:00:00" []
                         [Samples.account "asha" "secret1" "Student"]
                         {| logged_in := true; username := "asha"; chat_messages := [];
                            current_page := "tax";
                            tax_session :=
                              {| tax_calculation := None; tax_tips := None |} |}
                         eq_refl eq_refl))
           {| form_monthly_income := of_Z 50000; pf := of_Z 0; elss := of_Z 0;
              lic := of_Z 0; calculate_clicked := true |}
           None).
Defined.

(** X21.  From a fresh installation no profile is ever updated and no tax
    is ever calculated: after any runs of any sessions every account still
    has income and goal [0.0], no session holds a tax record, and every
    further run of the tax page or of the profile page ends with the
    exception, whatever the widgets would return. *)
Theorem fresh_install_never_calculates (hash_password : string -> string)
    (rs : list (nat * widgets)) :
  let st := visits hash_password rs fresh in
  Forall (fun r => row_monthly_income (snd r) = Some (of_Z 0) /\
                   row_savings_goal (snd r) = Some (of_Z 0))
         (users_table (fst st)) /\
  (forall i, tax_calculation (tax_session (snd st i)) = None) /\
  (forall i form backend,
      tax_page_run form backend (users_table (fst st)) (snd st i)
        = Raise StreamlitAPIException) /\
  (forall i form,
      profile_page form (users_table (fst st)) (snd st i)
        = (users_table (fst st), None)).
Proof.
  destruct (visits_without_amounts hash_password rs fresh
              {| tax_calculation := None; tax_tips := None |})
    as [H T]; [apply Forall_nil|reflexivity|].
  cbn zeta. split; [exact H|]. split; [intros i; rewrite T; reflexivity|]. split.
  - intros i form backend. apply tax_page_run_without_amounts. exact H.
  - intros i form. apply profile_page_without_amounts. exact H.
Qed.
